(** * GoNext runtime: static server with SPA fallback, backend supervisor,
      graceful shutdown

    A shallow embedding of the generated runtime [testDir/main.go] (an
    instance of [mainTemplate] of the packaging command, which differs in
    the name of the backend binary and of the embedded directory) and of
    the parts of the Go standard library it calls: [strings], [path],
    [unicode/utf8], [io/fs], [embed], [io], [net/url], [net/http], [os],
    [os/exec] and [log], after the sources of Go 1.22.

    Scope of the library models.  A request carries its method and its URL
    path; the escaped path of its URL, on which the multiplexer decides,
    is given to the multiplexer beside the request.  Conditional headers,
    range headers and query strings are not modelled, so the responders
    are those of a request without them.  A response carries its status code, its [Location] header and a
    description of its body.  The environment of a run of [main] (operating
    system, environment variables, outcome of the system calls, arrival of a
    signal) is a record the run is a function of. *)

From Stdlib Require Import String Ascii List Bool ZArith NArith Lia.
From Stdlib.Strings Require Import Byte.
Import ListNotations.
Open Scope string_scope.
Open Scope bool_scope.

(* ================================================================== *)
(** ** Package [strings] *)

Module strings.

(** [s] without the leading [prefix], when [s] starts with it. *)
Fixpoint CutPrefix (s prefix : string) {struct prefix} : option string :=
  match prefix, s with
  | EmptyString, _ => Some s
  | String c p, String d t => if Ascii.eqb c d then CutPrefix t p else None
  | String _ _, EmptyString => None
  end.

Definition HasPrefix (s prefix : string) : bool :=
  match CutPrefix s prefix with Some _ => true | None => false end.

Definition TrimPrefix (s prefix : string) : string :=
  match CutPrefix s prefix with Some t => t | None => s end.

(** [s] without the trailing [suffix], when [s] ends with it. *)
Fixpoint CutSuffix (s suffix : string) : option string :=
  if String.eqb s suffix then Some ""
  else match s with
       | EmptyString => None
       | String c t =>
           match CutSuffix t suffix with
           | Some u => Some (String c u)
           | None => None
           end
       end.

Definition HasSuffix (s suffix : string) : bool :=
  match CutSuffix s suffix with Some _ => true | None => false end.

Definition TrimSuffix (s suffix : string) : string :=
  match CutSuffix s suffix with Some t => t | None => s end.

(** [strings.Split(s, sep)] for a separator of one byte: the fields
    between the separators, so [n] separators give [n+1] fields. *)
Fixpoint Split (s : string) (sep : ascii) : list string :=
  match s with
  | EmptyString => [""]
  | String c t =>
      if Ascii.eqb c sep then "" :: Split t sep
      else match Split t sep with
           | e :: es => String c e :: es
           | [] => [String c ""]
           end
  end.

Definition Join (elems : list string) (sep : string) : string :=
  String.concat sep elems.

(** [s[len(s)-1]], absent for the empty string. *)
Fixpoint lastByte (s : string) : option ascii :=
  match s with
  | EmptyString => None
  | String c EmptyString => Some c
  | String _ t => lastByte t
  end.

Definition endsWithSlash (s : string) : bool :=
  match lastByte s with
  | Some c => Ascii.eqb c "/"
  | None => false
  end.

End strings.

(* ================================================================== *)
(** ** Package [unicode/utf8] *)

Module utf8.

Definition between (lo hi b : N) : bool := (lo <=? b)%N && (b <=? hi)%N.
Definition cont (b : N) : bool := between 0x80 0xBF b.

(** [utf8.ValidString]: the well-formed byte sequences of UTF-8. *)
Fixpoint ValidString (s : string) : bool :=
  match s with
  | EmptyString => true
  | String c0 t0 =>
      let b0 := N_of_ascii c0 in
      if (b0 <? 0x80)%N then ValidString t0
      else match t0 with
      | EmptyString => false
      | String c1 t1 =>
          let b1 := N_of_ascii c1 in
          if between 0xC2 0xDF b0 then cont b1 && ValidString t1
          else match t1 with
          | EmptyString => false
          | String c2 t2 =>
              let b2 := N_of_ascii c2 in
              if (b0 =? 0xE0)%N then
                between 0xA0 0xBF b1 && cont b2 && ValidString t2
              else if between 0xE1 0xEC b0 || between 0xEE 0xEF b0 then
                cont b1 && cont b2 && ValidString t2
              else if (b0 =? 0xED)%N then
                between 0x80 0x9F b1 && cont b2 && ValidString t2
              else match t2 with
              | EmptyString => false
              | String c3 t3 =>
                  let b3 := N_of_ascii c3 in
                  if (b0 =? 0xF0)%N then
                    between 0x90 0xBF b1 && cont b2 && cont b3
                    && ValidString t3
                  else if between 0xF1 0xF3 b0 then
                    cont b1 && cont b2 && cont b3 && ValidString t3
                  else if (b0 =? 0xF4)%N then
                    between 0x80 0x8F b1 && cont b2 && cont b3
                    && ValidString t3
                  else false
              end
          end
      end
  end.

End utf8.

(* ================================================================== *)
(** ** Package [path] *)

Module path.

(** The loop of [path.Clean], read element by element.  [out] is the
    output buffer as a stack of elements (last written first) and
    [dotdot] counts the leading [..] elements of an unrooted path, which
    a later [..] must not remove. *)
Fixpoint cleanElems (rooted : bool) (elems out : list string)
         (dotdot : nat) : list string :=
  match elems with
  | [] => rev out
  | e :: es =>
      if (e =? "") || (e =? ".") then cleanElems rooted es out dotdot
      else if e =? ".." then
        if (dotdot <? List.length out)%nat
        then cleanElems rooted es (tl out) dotdot
        else if rooted then cleanElems rooted es out dotdot
        else cleanElems rooted es (".." :: out) (S dotdot)
      else cleanElems rooted es (e :: out) dotdot
  end.

Definition Clean (path : string) : string :=
  match path with
  | EmptyString => "."
  | String c _ =>
      let rooted := Ascii.eqb c "/" in
      let out := cleanElems rooted (strings.Split path "/") [] 0 in
      if rooted then "/" ++ strings.Join out "/"
      else match out with
           | [] => "."
           | _ => strings.Join out "/"
           end
  end.

(** [path.Join]: the non-empty elements joined by slashes, cleaned. *)
Definition Join (elem : list string) : string :=
  match filter (fun e => negb (e =? "")) elem with
  | [] => ""
  | es => Clean (strings.Join es "/")
  end.

(** [path.Base]: the last element of the path, trailing slashes
    removed; [.] for the empty path and [/] for a path of slashes. *)
Definition Base (path : string) : string :=
  match path with
  | EmptyString => "."
  | _ =>
      match rev (filter (fun e => negb (e =? ""))
                        (strings.Split path "/")) with
      | [] => "/"
      | e :: _ => e
      end
  end.

End path.

(* ================================================================== *)
(** ** Package [io/fs] *)

Module fs.

Inductive Errno : Type :=
| ErrInvalid | ErrPermission | ErrExist | ErrNotExist | ErrClosed
| ErrIsDirectory.

Record PathError : Type :=
  { Op : string; Path : string; Err : Errno }.

(** An open file, as far as the server looks at it: what [Stat] tells
    (base name, directory or not) and the bytes [Read] delivers. *)
Record File : Type :=
  { Name : string; IsDir : bool; Data : list byte }.

(** The interface [fs.FS]: one method, [Open]. *)
Record FS : Type :=
  { Open : string -> File + PathError }.

Definition errorText (e : Errno) : string :=
  match e with
  | ErrInvalid => "invalid argument"
  | ErrPermission => "permission denied"
  | ErrExist => "file already exists"
  | ErrNotExist => "file does not exist"
  | ErrClosed => "file already closed"
  | ErrIsDirectory => "is a directory"
  end.

(** [PathError.Error()]. *)
Definition Error (e : PathError) : string :=
  Op e ++ " " ++ Path e ++ ": " ++ errorText (Err e).

Definition validElem (elem : string) : bool :=
  negb ((elem =? "") || (elem =? ".") || (elem =? "..")).

Definition ValidPath (name : string) : bool :=
  utf8.ValidString name
  && ((name =? ".") || forallb validElem (strings.Split name "/")).

(** [subFS.shorten]: the name below [dir] of a name of the underlying
    file system. *)
Definition shorten (dir name : string) : option string :=
  if name =? dir then Some "."
  else if (String.length dir + 2 <=? String.length name)%nat
          && match String.get (String.length dir) name with
             | Some c => Ascii.eqb c "/"
             | None => false
             end
          && (substring 0 (String.length dir) name =? dir)
  then Some (substring (String.length dir + 1)
                       (String.length name - (String.length dir + 1)) name)
  else None.

(** [subFS.fixErr]: the path of the error is shortened when it lies
    below [dir]. *)
Definition fixErr (dir : string) (e : PathError) : PathError :=
  match shorten dir (Path e) with
  | Some short => {| Op := Op e; Path := short; Err := Err e |}
  | None => e
  end.

(** The file system [subFS{fsys, dir}]. *)
Definition subFS (fsys : FS) (dir : string) : FS :=
  {| Open := fun name =>
       if negb (ValidPath name)
       then inr {| Op := "open"; Path := name; Err := ErrInvalid |}
       else match Open fsys (path.Join [dir; name]) with
            | inl file => inl file
            | inr err => inr (fixErr dir err)
            end |}.

(** [fs.Sub] for a file system without a [Sub] method of its own. *)
Definition Sub (fsys : FS) (dir : string) : FS + PathError :=
  if negb (ValidPath dir)
  then inr {| Op := "sub"; Path := dir; Err := ErrInvalid |}
  else if dir =? "." then inl fsys
  else inl (subFS fsys dir).

End fs.

(* ================================================================== *)
(** ** Package [embed] *)

Module embed.

(** One entry of the embedded file list; the name of a directory ends
    with a slash. *)
Record file : Type := { name : string; data : list byte }.

Definition FS : Type := list file.

Definition dotFile : file := {| name := "./"; data := [] |}.

Definition trimSlash (name : string) : string :=
  strings.TrimSuffix name "/".

Definition isDir (f : file) : bool := strings.endsWithSlash (name f).

(** The last element of the entry's name. *)
Definition elem (f : file) : string :=
  last (strings.Split (trimSlash (name f)) "/") "".

(** [FS.lookup]: the entry of that name.  The library keeps the list
    sorted and searches it by bisection; on such a list the entry found
    is the one a scan from the front finds. *)
Definition lookup (f : FS) (nm : string) : option file :=
  if negb (fs.ValidPath nm) then None
  else if nm =? "." then Some dotFile
  else find (fun x => trimSlash (name x) =? nm) f.

Definition Open (f : FS) (nm : string) : fs.File + fs.PathError :=
  match lookup f nm with
  | None =>
      inr {| fs.Op := "open"; fs.Path := nm; fs.Err := fs.ErrNotExist |}
  | Some x =>
      inl {| fs.Name := elem x; fs.IsDir := isDir x;
             fs.Data := if isDir x then [] else data x |}
  end.

Definition asFS (f : FS) : fs.FS := {| fs.Open := Open f |}.

End embed.

(* ================================================================== *)
(** ** Package [io] *)

Module io.

(** [io.ReadAll]: reading a directory fails. *)
Definition ReadAll (f : fs.File) : list byte + fs.Errno :=
  if fs.IsDir f then inr fs.ErrIsDirectory else inl (fs.Data f).

End io.

(* ================================================================== *)
(** ** Package [net/url] *)

Module url.

Definition between (lo hi c : ascii) : bool :=
  (nat_of_ascii lo <=? nat_of_ascii c)%nat
  && (nat_of_ascii c <=? nat_of_ascii hi)%nat.

Definition oneOf (set : string) (c : ascii) : bool :=
  existsb (Ascii.eqb c) (list_ascii_of_string set).

(** [shouldEscape(c, encodePath)]: letters, digits and the marks
    [-_.~] stand for themselves; of the reserved characters a path
    escapes the question mark only; every other byte is escaped. *)
Definition shouldEscape (c : ascii) : bool :=
  if between "a" "z" c || between "A" "Z" c || between "0" "9" c
  then false
  else if oneOf "-_.~" c then false
  else if oneOf "$&+,/:;=?@" c then Ascii.eqb c "?"
  else true.

Definition upperhex (n : nat) : ascii :=
  nth n (list_ascii_of_string "0123456789ABCDEF") "0"%char.

(** What [escape] writes for one byte. *)
Definition escapeByte (c : ascii) : string :=
  if shouldEscape c
  then String "%" (String (upperhex (nat_of_ascii c / 16))
                          (String (upperhex (nat_of_ascii c mod 16)) ""))
  else String c "".

(** [escape(s, encodePath)]. *)
Fixpoint escape (s : string) : string :=
  match s with
  | EmptyString => ""
  | String c t => escapeByte c ++ escape t
  end.

Definition ishex (c : ascii) : bool :=
  between "0" "9" c || between "a" "f" c || between "A" "F" c.

Definition unhex (c : ascii) : nat :=
  if between "0" "9" c then nat_of_ascii c - nat_of_ascii "0"
  else if between "a" "f" c then nat_of_ascii c - nat_of_ascii "a" + 10
  else if between "A" "F" c then nat_of_ascii c - nat_of_ascii "A" + 10
  else 0.

(** [unescape(s, encodePath)]: a percent sign must be followed by two
    hexadecimal digits. *)
Fixpoint unescape (s : string) : option string :=
  match s with
  | EmptyString => Some ""
  | String c t =>
      if Ascii.eqb c "%" then
        match t with
        | String h1 (String h2 t') =>
            if ishex h1 && ishex h2
            then option_map
                   (String (ascii_of_nat (unhex h1 * 16 + unhex h2)))
                   (unescape t')
            else None
        | _ => None
        end
      else option_map (String c) (unescape t)
  end.

(** [validEncoded(s, encodePath)]. *)
Definition validEncoded (s : string) : bool :=
  forallb (fun c => oneOf "!$&'()*+,;=:@[]%" c || negb (shouldEscape c))
          (list_ascii_of_string s).

(** [URL.setPath]: the path and the raw path of the URL parsed from the
    path [p] of a request target; the raw path is kept only when [p] is
    not the default encoding of the path. *)
Definition setPath (p : string) : option (string * string) :=
  match unescape p with
  | None => None
  | Some path => Some (path, if p =? escape path then "" else p)
  end.

(** [URL.EscapedPath]: the raw path when it is a valid encoding of the
    path, else the default encoding of the path. *)
Definition EscapedPath (path rawPath : string) : string :=
  if negb (rawPath =? "") && validEncoded rawPath
     && match unescape rawPath with
        | Some p => p =? path
        | None => false
        end
  then rawPath
  else if path =? "*" then "*"
  else escape path.

(** [URL.String] of a URL that has a path only.  A first segment with a
    colon in it is written after [./]. *)
Definition pathString (path : string) : string :=
  let p := EscapedPath path "" in
  if oneOf (hd "" (strings.Split p "/")) ":"%char then "./" ++ p else p.

End url.

(* ================================================================== *)
(** ** Package [net/http] *)

Module http.

(** A request: [r.Method] and [r.URL.Path].  The request target [*] is
    the one whose parsed path is [*].  The escaped path of the URL, which
    only the multiplexer looks at, is an argument of the multiplexer. *)
Record Request : Type := { Method : string; URL_Path : string }.

(** What a handler wrote as the body. *)
Inductive Payload : Type :=
| NoBody
| Bytes (content : list byte)   (* exactly these bytes *)
| ErrorText (msg : string)      (* [http.Error]: the message and a newline *)
| RedirectNote                  (* the short HTML note of [http.Redirect] *)
| DirListing (dir : string).    (* the HTML listing of [dirList] *)

Record Response : Type :=
  { StatusCode : Z; Location : option string; Body : Payload }.

Definition Handler : Type := Request -> Response.

Definition StatusOK : Z := 200.
Definition StatusMovedPermanently : Z := 301.
Definition StatusBadRequest : Z := 400.
Definition StatusForbidden : Z := 403.
Definition StatusNotFound : Z := 404.
Definition StatusInternalServerError : Z := 500.

Definition Error (msg : string) (code : Z) : Response :=
  {| StatusCode := code; Location := None; Body := ErrorText msg |}.

Definition NotFound : Handler :=
  fun _ => Error "404 page not found" StatusNotFound.

(** [localRedirect]: a 301 with the given relative target, no body. *)
Definition localRedirect (newPath : string) : Response :=
  {| StatusCode := StatusMovedPermanently; Location := Some newPath;
     Body := NoBody |}.

(** [RedirectHandler(url, code)] with [http.Redirect], for a target that
    is a rooted path without a query: the target is cleaned and keeps its
    trailing slash; the note is written for GET only. *)
Definition RedirectHandler (url : string) (code : Z) : Handler :=
  fun r =>
    let trailing := strings.HasSuffix url "/" in
    let cleaned := path.Clean url in
    {| StatusCode := code;
       Location :=
         Some (if trailing && negb (strings.HasSuffix cleaned "/")
               then cleaned ++ "/" else cleaned);
       Body := if Method r =? "GET" then RedirectNote else NoBody |}.

Definition toHTTPError (err : fs.Errno) : string * Z :=
  match err with
  | fs.ErrNotExist => ("404 page not found", StatusNotFound)
  | fs.ErrPermission => ("403 Forbidden", StatusForbidden)
  | _ => ("500 Internal Server Error", StatusInternalServerError)
  end.

(** [serveContent] for a request without conditional or range headers:
    status 200 and, unless the method is HEAD, the whole content. *)
Definition serveContent (r : Request) (content : list byte) : Response :=
  {| StatusCode := StatusOK; Location := None;
     Body := if Method r =? "HEAD" then NoBody else Bytes content |}.

Definition ServeContent (r : Request) (name : string)
           (content : list byte) : Response :=
  serveContent r content.

Definition dirList (f : fs.File) : Response :=
  {| StatusCode := StatusOK; Location := None;
     Body := DirListing (fs.Name f) |}.

(** The interface [http.FileSystem]. *)
Record FileSystem : Type :=
  { Open : string -> fs.File + fs.Errno }.

(** The loop of [mapOpenError] over the parts of the name: an error other
    than not-exist or permission becomes not-exist when a proper part of
    the name is a file that is not a directory. *)
Fixpoint mapOpenParts (fsys : fs.FS) (originalErr : fs.Errno)
         (done parts : list string) : fs.Errno :=
  match parts with
  | [] => originalErr
  | p :: ps =>
      if p =? "" then mapOpenParts fsys originalErr (done ++ [p])%list ps
      else match fs.Open fsys (strings.Join (done ++ [p])%list "/") with
           | inr _ => originalErr
           | inl fi =>
               if fs.IsDir fi
               then mapOpenParts fsys originalErr (done ++ [p])%list ps
               else fs.ErrNotExist
           end
  end.

Definition mapOpenError (fsys : fs.FS) (originalErr : fs.Errno)
           (name : string) : fs.Errno :=
  match originalErr with
  | fs.ErrNotExist | fs.ErrPermission => originalErr
  | _ => mapOpenParts fsys originalErr [] (strings.Split name "/")
  end.

(** [http.FS(fsys)]: the adapter [ioFS]. *)
Definition FS (fsys : fs.FS) : FileSystem :=
  {| Open := fun name =>
       let name' := if name =? "/" then "."
                    else strings.TrimPrefix name "/" in
       match fs.Open fsys name' with
       | inl file => inl file
       | inr e => inr (mapOpenError fsys (fs.Err e) name')
       end |}.

(** The tail of [serveFile]: a directory is listed, a file is served. *)
Definition serveOpened (r : Request) (d : fs.File) : Response :=
  if fs.IsDir d then dirList d else serveContent r (fs.Data d).

Definition indexPage : string := "/index.html".

(** [serveFile].  [Stat] on an open file of these file systems does not
    fail.  The path of the request is not empty here (the file server
    makes it begin with a slash). *)
Definition serveFile (r : Request) (fsys : FileSystem) (name : string)
           (redirect : bool) : Response :=
  if strings.HasSuffix (URL_Path r) indexPage then localRedirect "./"
  else
    match Open fsys name with
    | inr err => let (msg, code) := toHTTPError err in Error msg code
    | inl d =>
        let url := URL_Path r in
        if redirect && fs.IsDir d && negb (strings.endsWithSlash url)
        then localRedirect (path.Base url ++ "/")
        else if redirect && negb (fs.IsDir d) && strings.endsWithSlash url
        then
          let base := path.Base url in
          if (base =? "/") || (base =? ".")
          then Error "http: attempting to traverse a non-directory"
                     StatusInternalServerError
          else localRedirect ("../" ++ base)
        else if fs.IsDir d then
          if (url =? "") || negb (strings.endsWithSlash url)
          then localRedirect (path.Base url ++ "/")
          else
            let index := strings.TrimSuffix name "/" ++ indexPage in
            match Open fsys index with
            | inl dd => serveOpened r dd
            | inr _ => serveOpened r d
            end
        else serveOpened r d
    end.

(** [http.FileServer(root)]: the handler [fileHandler{root}]. *)
Definition FileServer (root : FileSystem) : Handler :=
  fun r =>
    let upath := URL_Path r in
    let r' := if strings.HasPrefix upath "/" then r
              else {| Method := Method r; URL_Path := "/" ++ upath |} in
    serveFile r' root (path.Clean (URL_Path r')) true.

(** [cleanPath] of the multiplexer: the canonical path for [p], without
    [.] and [..] elements and repeated slashes, the trailing slash kept. *)
Definition cleanPath (p : string) : string :=
  if p =? "" then "/"
  else
    let p := if strings.HasPrefix p "/" then p else "/" ++ p in
    let np := path.Clean p in
    if strings.endsWithSlash p && negb (np =? "/") then
      if (String.length p =? String.length np + 1)%nat
         && strings.HasPrefix p np
      then p
      else np ++ "/"
    else np.

Record muxEntry : Type := { pattern : string; h : Handler }.

(** A multiplexer: its registered patterns (host patterns are not used
    by this program and not modelled). *)
Definition ServeMux : Type := list muxEntry.

Definition NewServeMux : ServeMux := [].

Definition HandleFunc (mux : ServeMux) (pat : string)
           (handler : Handler) : ServeMux :=
  (mux ++ [{| pattern := pat; h := handler |}])%list.

Definition registered (mux : ServeMux) (p : string) : bool :=
  existsb (fun e => pattern e =? p) mux.

Definition longer (best : option muxEntry) (e : muxEntry)
  : option muxEntry :=
  match best with
  | None => Some e
  | Some b =>
      if (String.length (pattern b) <? String.length (pattern e))%nat
      then Some e else Some b
  end.

(** [ServeMux.match]: the exact pattern, else the longest registered
    pattern ending in a slash that is a prefix of the path. *)
Definition match_ (mux : ServeMux) (p : string) : option Handler :=
  match find (fun e => pattern e =? p) mux with
  | Some e => Some (h e)
  | None =>
      option_map h
        (fold_left
           (fun best e =>
              if strings.endsWithSlash (pattern e)
                 && strings.HasPrefix p (pattern e)
              then longer best e else best)
           mux None)
  end.

Definition handler (mux : ServeMux) (p : string) : Handler :=
  match match_ mux p with
  | Some hd => hd
  | None => NotFound
  end.

(** The test of [matchOrRedirect]: no pattern matches the path exactly
    and the path with a slash appended is a pattern. *)
Definition shouldRedirect (mux : ServeMux) (p : string) : bool :=
  if registered mux p then false
  else registered mux (p ++ "/") && negb (strings.endsWithSlash p).

(** [ServeMux.ServeHTTP] with [ServeMux.findHandler], on a request whose
    URL has the escaped path [escapedPath] (the value of
    [r.URL.EscapedPath()]; empty or beginning with a slash in a request
    the server has read).  The target [*] is a bad request.  A CONNECT
    request is dispatched on its escaped path as it is; any other request
    is dispatched on the cleaned escaped path, and redirected to it when
    cleaning changed it.  When no pattern matches the path exactly and
    the path with a slash appended is a pattern, the request is
    redirected there. *)
Definition ServeEscaped (mux : ServeMux) (escapedPath : string) : Handler :=
  fun r =>
    if URL_Path r =? "*"
    then {| StatusCode := StatusBadRequest; Location := None;
            Body := NoBody |}
    else if Method r =? "CONNECT" then
      if shouldRedirect mux escapedPath
      then RedirectHandler (url.pathString (cleanPath (URL_Path r) ++ "/"))
                           StatusMovedPermanently r
      else handler mux escapedPath r
    else
      let p := cleanPath escapedPath in
      if shouldRedirect mux p
      then RedirectHandler (url.pathString (cleanPath (URL_Path r) ++ "/"))
                           StatusMovedPermanently r
      else if negb (p =? escapedPath)
      then RedirectHandler (url.pathString p) StatusMovedPermanently r
      else handler mux p r.

(** [ServeMux.ServeHTTP] on a request whose URL has no raw path: the
    path of its target was the default encoding of [r.URL.Path]. *)
Definition ServeHTTP (mux : ServeMux) : Handler :=
  fun r => ServeEscaped mux (url.EscapedPath (URL_Path r) "") r.

End http.

(* ================================================================== *)
(** ** The static server of [main.go] *)

(** [fileExists]: whether the path opens in the file system, the root
    standing for the entry document. *)
Definition fileExists (fsys : fs.FS) (filePath : string) : bool :=
  let filePath := if filePath =? "/" then "index.html" else filePath in
  match fs.Open fsys (strings.TrimPrefix filePath "/") with
  | inl _ => true
  | inr _ => false
  end.

(** The function registered on the pattern [/] by [startServer]. *)
Definition rootHandler (fsys : fs.FS) (fileServer : http.Handler)
  : http.Handler :=
  fun r =>
    if fileExists fsys (http.URL_Path r) then fileServer r
    else
      match fs.Open fsys "index.html" with
      | inr _ => http.Error "index.html not found" http.StatusNotFound
      | inl f =>
          match io.ReadAll f with
          | inr _ => http.Error "failed to read index.html"
                                http.StatusInternalServerError
          | inl content => http.ServeContent r "index.html" content
          end
      end.

(** The directory of the embedded tree the server is rooted at. *)
Definition frontendDir : string := "front-end/out".

(** [startServer], over the embedded file system [frontendFS]. *)
Definition startServer (frontendFS : embed.FS)
  : http.ServeMux + fs.PathError :=
  match fs.Sub (embed.asFS frontendFS) frontendDir with
  | inr err => inr err
  | inl fsys =>
      let mux := http.NewServeMux in
      let fileServer := http.FileServer (http.FS fsys) in
      inl (http.HandleFunc mux "/" (rootHandler fsys fileServer))
  end.

(* ================================================================== *)
(** ** Runs of the process: events, state, early exit *)

(** What a run does that is visible from outside, in order. *)
Inductive Event : Type :=
| Log (msg : string)              (* a line of the logger *)
| StartProcess (name : string)    (* [cmd.Start] spawned the child *)
| KillProcess                     (* [Process.Kill] was requested *)
| Listen (addr : string)          (* [ListenAndServe] on the address *)
| Signal                          (* an interrupt or SIGTERM was received *)
| Shutdown                        (* [server.Shutdown] was called *)
| ExitProcess (code : Z).         (* the process exited with the status *)

Inductive ProcessState : Type := Running | Finished.

(** The trace so far and the state of the backend child ([None]: never
    spawned). *)
Record State : Type :=
  { trace : list Event; backend : option ProcessState }.

(** How a computation ends: it returns, or the process exits under it
    ([os.Exit]), or it waits for ever. *)
Inductive Outcome (A : Type) : Type :=
| Returned (a : A)
| Exited (code : Z)
| Blocked.
Arguments Returned {A} a.
Arguments Exited {A} code.
Arguments Blocked {A}.

Definition M (A : Type) : Type := State -> State * Outcome A.

Definition ret {A : Type} (a : A) : M A := fun s => (s, Returned a).

Definition bind {A B : Type} (m : M A) (k : A -> M B) : M B :=
  fun s =>
    match m s with
    | (s', Returned a) => k a s'
    | (s', Exited code) => (s', Exited code)
    | (s', Blocked) => (s', Blocked)
    end.

Notation "x <- m ;; k" := (bind m (fun x => k))
  (at level 61, m at next level, right associativity).
Notation "m ;; k" := (bind m (fun _ => k))
  (at level 61, right associativity).

Definition emit (e : Event) : M unit :=
  fun s => ({| trace := (trace s ++ [e])%list; backend := backend s |},
            Returned tt).

(** [defer]: the deferred function runs when the body returns.  It does
    not run when the process exits inside the body: [os.Exit] terminates
    the program at once. *)
Definition defer {A : Type} (deferred : M unit) (body : M A) : M A :=
  fun s =>
    match body s with
    | (s', Returned a) =>
        match deferred s' with
        | (s'', Returned _) => (s'', Returned a)
        | (s'', Exited code) => (s'', Exited code)
        | (s'', Blocked) => (s'', Blocked)
        end
    | (s', Exited code) => (s', Exited code)
    | (s', Blocked) => (s', Blocked)
    end.

(** ** Package [log] *)

Module log.

Definition Println (msg : string) : M unit := emit (Log msg).

(** [log.Fatalf]: the line is printed, then [os.Exit(1)]. *)
Definition Fatalf {A : Type} (msg : string) : M A :=
  fun s => ({| trace := (trace s ++ [Log msg; ExitProcess 1])%list;
               backend := backend s |},
            Exited 1).

End log.

(** ** Package [os] *)

Module os.

Definition Getenv (environ : list (string * string)) (key : string)
  : string :=
  match find (fun kv => fst kv =? key) environ with
  | Some kv => snd kv
  | None => ""
  end.

Definition LookupEnv (environ : list (string * string)) (key : string)
  : option string :=
  option_map snd (find (fun kv => fst kv =? key) environ).

Record Process : Type := { Pid : Z }.

(** [Process.Kill]: the request is made and the call returns without
    waiting; a running child is killed, a finished one is left as it is.
    The program never waits for its child, so a finished child has not
    been reaped: the signal is still delivered to it and the call reports
    no error either way. *)
Definition Kill (p : Process) : M (option string) :=
  fun s =>
    let t := (trace s ++ [KillProcess])%list in
    match backend s with
    | Some Running =>
        ({| trace := t; backend := Some Finished |}, Returned None)
    | other =>
        ({| trace := t; backend := other |}, Returned None)
    end.

End os.

(** ** The world of a run *)

Record World : Type :=
  { GOOS : string;                        (* [runtime.GOOS] *)
    environ : list (string * string);     (* the environment variables *)
    frontendFS : embed.FS;                (* the embedded tree *)
    startErr : option string;             (* the error of [cmd.Start] *)
    backendExits : bool;                  (* the child ends by itself
                                             while the server runs *)
    listenErr : option string;            (* [ListenAndServe] fails, with
                                             an error other than
                                             [ErrServerClosed] *)
    signalArrives : bool;                 (* an interrupt or SIGTERM comes *)
    shutdownErr : option string }.        (* the error of [Shutdown]: the
                                             drain outlasts its context *)

(** ** Package [os/exec] *)

Module exec.

Record Cmd : Type :=
  { Path : string; Process : option os.Process }.

Definition Command (name : string) : Cmd :=
  {| Path := name; Process := None |}.

(** [cmd.Start]: on success the child runs and the command holds its
    process. *)
Definition Start (w : World) (cmd : Cmd) : M (Cmd * option string) :=
  match startErr w with
  | Some err => ret (cmd, Some err)
  | None =>
      fun s =>
        ({| trace := (trace s ++ [StartProcess (Path cmd)])%list;
            backend := Some Running |},
         Returned ({| Path := Path cmd;
                      Process := Some {| os.Pid := 1 |} |}, None))
  end.

End exec.

(* ================================================================== *)
(** ** The entrypoint of [main.go] *)

Record Server : Type := { Addr : string; Handler : http.ServeMux }.

Section Runtime.

Variable w : World.

Definition getBackendBinaryName : string :=
  let binary := "./test" in
  if GOOS w =? "windows" then binary ++ ".exe" else binary.

Definition startBackend : M (option exec.Cmd * option string) :=
  log.Println "Starting backend process..." ;;
  let cmd := exec.Command getBackendBinaryName in
  r <- exec.Start w cmd ;;
  match r with
  | (_, Some err) => ret (None, Some err)
  | (cmd', None) => ret (Some cmd', None)
  end.

(** The goroutine of [startHTTPServer] starts to listen. *)
Definition goListenAndServe (server : Server) : M unit :=
  emit (Listen (Addr server)).

(** [<-stop]: the caller waits for a signal.  While it waits the child
    may end by itself, and the listening goroutine may fail, which is
    fatal there: [log.Fatalf] exits the process. *)
Definition receiveStop : M unit :=
  match listenErr w with
  | Some err => log.Fatalf ("HTTP server failed: " ++ err)
  | None =>
      fun s =>
        let b := match backend s with
                 | Some Running =>
                     if backendExits w then Some Finished
                     else Some Running
                 | other => other
                 end in
        if signalArrives w
        then ({| trace := (trace s ++ [Signal])%list; backend := b |},
              Returned tt)
        else ({| trace := trace s; backend := b |}, Blocked)
  end.

(** [server.Shutdown(ctx)] under the 5-second context. *)
Definition serverShutdown (server : Server) : M (option string) :=
  emit Shutdown ;; ret (shutdownErr w).

Definition startHTTPServer (server : Server) : M unit :=
  goListenAndServe server ;;
  log.Println ("HTTP server is running on " ++ Addr server) ;;
  receiveStop ;;
  log.Println "Shutting down HTTP server..." ;;
  err <- serverShutdown server ;;
  match err with
  | Some e => log.Fatalf ("HTTP server graceful shutdown failed: " ++ e)
  | None => log.Println "HTTP server stopped."
  end.

(** The function [main] defers: the backend is killed when a command
    with a process is held; the result of [Kill] is dropped. *)
Definition deferredKill (backendCmd : option exec.Cmd) : M unit :=
  match backendCmd with
  | Some cmd =>
      match exec.Process cmd with
      | Some p => _ <- os.Kill p ;; ret tt
      | None => ret tt
      end
  | None => ret tt
  end.

(** [main].  The line [startServer] logs is printed here. *)
Definition main : M unit :=
  let port := os.Getenv (environ w) "PORT" in
  let port := if port =? "" then "8080" else port in
  r <- startBackend ;;
  match r with
  | (_, Some err) => log.Fatalf ("Failed to start backend: " ++ err)
  | (backendCmd, None) =>
      defer (deferredKill backendCmd)
        (match startServer (frontendFS w) with
         | inr err =>
             log.Fatalf ("Failed to start frontend server: "
                         ++ fs.Error err)
         | inl mux =>
             log.Println "Frontend server is set up to serve all files in the embedded folder." ;;
             let server := {| Addr := ":" ++ port; Handler := mux |} in
             startHTTPServer server
         end)
  end.

(** A run of the program from the initial state; when [main] returns the
    process exits with status 0. *)
Definition run : State * Outcome unit :=
  match main {| trace := []; backend := None |} with
  | (s, Returned _) =>
      ({| trace := (trace s ++ [ExitProcess 0])%list;
          backend := backend s |}, Exited 0)
  | other => other
  end.

End Runtime.

(* ================================================================== *)
(** ** The packaging command (package [cmd]) *)

Module cmd.

(** What a run of the command does, in order.  The helpers that work on
    the file system ([copyDir], [copyFile], [generateMain]) and the
    external commands are one step each; whether a step fails is the
    world's. *)
Inductive Step : Type :=
| Printed (msg : string)                  (* a line of the logger *)
| MkdirTemp (dir : string)                (* [os.MkdirTemp] made [dir] *)
| RunCommand (dir : string) (argv : list string)
                                          (* [exec.Command(argv...)] run
                                             in the directory [dir] *)
| CopyDir (src dst : string)              (* [copyDir(src, dst)] *)
| CopyFile (src dst : string)             (* [copyFile(src, dst)] *)
| GenerateMain (filename frontendDir : string)
                                          (* [generateMain] *)
| RemoveAll (dir : string)                (* [os.RemoveAll(dir)] *)
| Exit (code : Z).                        (* the process exited *)

Record World : Type :=
  { GOOS : string;                     (* [runtime.GOOS] *)
    Join : list string -> string;      (* [filepath.Join] of the platform *)
    Base : string -> string;           (* [filepath.Base] of the platform *)
    tempDir : string + string;         (* [os.MkdirTemp]: the directory
                                          made, or the error *)
    npmErr : option string;            (* the error of [npm run build] *)
    copyDirErr : option string;
    backendBuildErr : option string;
    copyFileErr : option string;
    generateErr : option string;
    modInitErr : option string;
    finalBuildErr : option string }.

Definition B (A : Type) : Type := list Step -> list Step * Outcome A.

Definition unit_ {A : Type} (a : A) : B A := fun t => (t, Returned a).

Definition then_ {A C : Type} (m : B A) (k : A -> B C) : B C :=
  fun t =>
    match m t with
    | (t', Returned a) => k a t'
    | (t', Exited code) => (t', Exited code)
    | (t', Blocked) => (t', Blocked)
    end.

Definition step (s : Step) : B unit :=
  fun t => ((t ++ [s])%list, Returned tt).

Definition Println (msg : string) : B unit := step (Printed msg).

(** [log.Fatalf]: the line, then [os.Exit(1)]. *)
Definition Fatalf {A : Type} (msg : string) : B A :=
  fun t => ((t ++ [Printed msg; Exit 1])%list, Exited 1).

(** [defer]: skipped when the process exits inside the body. *)
Definition defer {A : Type} (deferred : B unit) (body : B A) : B A :=
  fun t =>
    match body t with
    | (t', Returned a) =>
        match deferred t' with
        | (t'', Returned _) => (t'', Returned a)
        | (t'', Exited code) => (t'', Exited code)
        | (t'', Blocked) => (t'', Blocked)
        end
    | (t', Exited code) => (t', Exited code)
    | (t', Blocked) => (t', Blocked)
    end.

Section Command.

Variable w : World.

Definition addPlatformExtension (binary : string) : string :=
  if GOOS w =? "windows" then binary ++ ".exe" else binary.

(** [cmd.Run()] of a command with its directory set. *)
Definition runIn (dir : string) (argv : list string)
           (err : option string) : B (option string) :=
  then_ (step (RunCommand dir argv)) (fun _ => unit_ err).

Definition buildNextJS (frontendPath : string) : B (option string) :=
  then_ (Println "Building Next.js frontend...") (fun _ =>
  runIn frontendPath ["npm"; "run"; "build"] (npmErr w)).

Definition buildGoBackend (backendPath outputBinary : string)
  : B (option string) :=
  then_ (Println "Building Go backend...") (fun _ =>
  runIn backendPath ["go"; "build"; "-o"; outputBinary]
        (backendBuildErr w)).

Definition copyDir (src dst : string) : B (option string) :=
  then_ (step (CopyDir src dst)) (fun _ => unit_ (copyDirErr w)).

Definition copyFile (src dst : string) : B (option string) :=
  then_ (step (CopyFile src dst)) (fun _ => unit_ (copyFileErr w)).

Definition generateMain (filename frontendDir : string)
  : B (option string) :=
  then_ (step (GenerateMain filename frontendDir))
        (fun _ => unit_ (generateErr w)).

Definition initGoModule (dir : string) : B (option string) :=
  then_ (Println "Initializing Go module...") (fun _ =>
  runIn dir ["go"; "mod"; "init"; "gonext"] (modInitErr w)).

Definition buildBinary (tempDir outputBinary : string)
  : B (option string) :=
  then_ (Println "Building the final binary...") (fun _ =>
  runIn tempDir ["go"; "build"; "-o"; outputBinary] (finalBuildErr w)).

(** A call whose error is fatal, then the line that reports success. *)
Definition orFatal (call : B (option string)) (failure success : string)
  : B unit :=
  then_ call (fun err =>
  match err with
  | Some e => Fatalf (failure ++ e)
  | None => Println success
  end).

(** [run], on its four arguments. *)
Definition run (backendPath frontendPath outputDir name : string)
  : B unit :=
  let outputBinary := Join w [outputDir; name] in
  let outputBinary := addPlatformExtension outputBinary in
  then_ (Println ("Backend path: " ++ backendPath)) (fun _ =>
  then_ (Println ("Frontend path: " ++ frontendPath)) (fun _ =>
  then_ (Println ("Output binary: " ++ outputBinary)) (fun _ =>
  match tempDir w with
  | inr err => Fatalf ("Failed to create temp directory: " ++ err)
  | inl tempDir =>
      then_ (step (MkdirTemp tempDir)) (fun _ =>
      defer (step (RemoveAll tempDir))
        (then_ (Println ("Created temp directory: " ++ tempDir)) (fun _ =>
         then_ (orFatal (buildNextJS frontendPath)
                        "Failed to build frontend: "
                        "Next.js frontend built successfully") (fun _ =>
         let fullFrontendPath := Join w [frontendPath; "out"] in
         let destFrontendPath :=
           Join w [tempDir; Base w frontendPath] in
         then_ (orFatal (copyDir fullFrontendPath destFrontendPath)
                        "Failed to copy built frontend files: "
                        "Frontend files copied successfully") (fun _ =>
         let builtBackendBinary := Join w [tempDir; "backend-binary"] in
         let builtBackendBinary :=
           addPlatformExtension builtBackendBinary in
         then_ (orFatal (buildGoBackend backendPath builtBackendBinary)
                        "Failed to build backend: "
                        "Go backend built successfully") (fun _ =>
         then_ (orFatal (copyFile builtBackendBinary outputBinary)
                        "Failed to copy backend binary to output: "
                        ("Backend binary copied to: " ++ outputBinary))
               (fun _ =>
         let mainFile := Join w [tempDir; "main.go"] in
         then_ (orFatal (generateMain mainFile (Base w frontendPath))
                        "Failed to generate main.go: "
                        "main.go generated successfully") (fun _ =>
         then_ (initGoModule tempDir) (fun err =>
         match err with
         | Some e => Fatalf ("Failed to initialize Go module: " ++ e)
         | None =>
             orFatal (buildBinary tempDir outputBinary)
                     "Failed to build: "
                     ("Successfully created bundled binary: "
                      ++ outputBinary)
         end)))))))))
  end))).

(** The command from its start; when [run] returns the process exits
    with status 0. *)
Definition execute (backendPath frontendPath outputDir name : string)
  : list Step * Outcome unit :=
  match run backendPath frontendPath outputDir name [] with
  | (t, Returned _) => ((t ++ [Exit 0])%list, Exited 0)
  | other => other
  end.

End Command.

End cmd.

(* ================================================================== *)
(** * Notions used in the statements *)

(** ** The multiplexer with the one pattern [/] *)

Definition rootMux (hnd : http.Handler) : http.ServeMux :=
  http.HandleFunc http.NewServeMux "/" hnd.

(** ** The asset tree and the server built on it *)

(** The file system [fsys] of [startServer]: the embedded tree seen from
    the directory the server is rooted at. *)
Definition assetTree (frontendFS : embed.FS) : fs.FS :=
  fs.subFS (embed.asFS frontendFS) frontendDir.

Definition staticHandler (frontendFS : embed.FS) : http.Handler :=
  rootHandler (assetTree frontendFS)
              (http.FileServer (http.FS (assetTree frontendFS))).

(** ** Example trees and requests *)

Definition dirEntry (name : string) : embed.file :=
  {| embed.name := name; embed.data := [] |}.

Definition fileEntry (name content : string) : embed.file :=
  {| embed.name := name; embed.data := list_byte_of_string content |}.

(** An entry document, a style sheet and a script in a directory. *)
Definition siteTree : embed.FS :=
  [ dirEntry "front-end/";
    dirEntry "front-end/out/";
    dirEntry "front-end/out/assets/";
    fileEntry "front-end/out/index.html" "<html>ok</html>";
    fileEntry "front-end/out/style.css" "body{}";
    fileEntry "front-end/out/assets/app.js" "run()" ].

(** A tree without an entry document. *)
Definition bareTree : embed.FS :=
  [ dirEntry "front-end/";
    dirEntry "front-end/out/";
    dirEntry "front-end/out/assets/";
    fileEntry "front-end/out/style.css" "body{}";
    fileEntry "front-end/out/assets/app.js" "run()" ].

Definition GET (p : string) : http.Request :=
  {| http.Method := "GET"; http.URL_Path := p |}.

Definition CONNECT (p : string) : http.Request :=
  {| http.Method := "CONNECT"; http.URL_Path := p |}.

Definition ok (content : string) : http.Response :=
  {| http.StatusCode := 200; http.Location := None;
     http.Body := http.Bytes (list_byte_of_string content) |}.

(** Not empty and not beginning with a slash. *)
Definition plain (e : string) : Prop :=
  match e with
  | String c _ => c <> "/"%char
  | EmptyString => False
  end.

(** The shape of a cleaned rooted path: the root, or a slash followed by
    something that does not begin with a slash. *)
Definition singleRooted (p : string) : Prop :=
  p = "/" \/ exists j, p = String "/" j /\ plain j.

(** A string of characters that a path does not escape. *)
Definition unescaped (w : string) : bool :=
  forallb (fun c => negb (url.shouldEscape c)) (list_ascii_of_string w).

(** The address [main] gives the server. *)
Definition listenAddr (w : World) : string :=
  ":" ++ (if os.Getenv (environ w) "PORT" =? "" then "8080"
          else os.Getenv (environ w) "PORT").

(** The events of every run in which the backend was spawned, up to the
    wait for a signal. *)
Definition startup (w : World) : list Event :=
  [ Log "Starting backend process...";
    StartProcess (getBackendBinaryName w);
    Log "Frontend server is set up to serve all files in the embedded folder.";
    Listen (listenAddr w);
    Log ("HTTP server is running on " ++ listenAddr w) ].

(** The five kinds of run. *)
Inductive RunKind (w : World) : Prop :=
| SpawnFailure (err : string) (_ : startErr w = Some err)
| ListenFailure (err : string) (_ : startErr w = None)
                (_ : listenErr w = Some err)
| NoSignal (_ : startErr w = None) (_ : listenErr w = None)
           (_ : signalArrives w = false)
| DrainFailure (err : string) (_ : startErr w = None)
               (_ : listenErr w = None) (_ : signalArrives w = true)
               (_ : shutdownErr w = Some err)
| Graceful (_ : startErr w = None) (_ : listenErr w = None)
           (_ : signalArrives w = true) (_ : shutdownErr w = None).

(** ** Example worlds *)

Definition calmWorld : World :=
  {| GOOS := "linux"; environ := []; frontendFS := siteTree;
     startErr := None; backendExits := false; listenErr := None;
     signalArrives := true; shutdownErr := None |}.

(** The port is taken: the listener cannot bind. *)
Definition portTakenWorld : World :=
  {| GOOS := "linux"; environ := []; frontendFS := siteTree;
     startErr := None; backendExits := false;
     listenErr := Some "listen tcp :8080: bind: address already in use";
     signalArrives := false; shutdownErr := None |}.

(** A request outlasts the five seconds of the drain. *)
Definition slowDrainWorld : World :=
  {| GOOS := "linux"; environ := []; frontendFS := siteTree;
     startErr := None; backendExits := false; listenErr := None;
     signalArrives := true;
     shutdownErr := Some "context deadline exceeded" |}.

(** The backend ends by itself before the signal; the port is set. *)
Definition backendGoneWorld : World :=
  {| GOOS := "linux"; environ := [("PORT", "3000")];
     frontendFS := siteTree;
     startErr := None; backendExits := true; listenErr := None;
     signalArrives := true; shutdownErr := None |}.

(** A tree whose [index.html] is a directory. *)
Definition oddTree : embed.FS :=
  [ dirEntry "front-end/";
    dirEntry "front-end/out/";
    dirEntry "front-end/out/index.html/";
    fileEntry "front-end/out/style.css" "body{}";
    fileEntry "front-end/out/index.html/page.html" "<p>" ].

(** A tree with a directory that holds an index page of its own. *)
Definition docsTree : embed.FS :=
  [ dirEntry "front-end/";
    dirEntry "front-end/out/";
    dirEntry "front-end/out/docs/";
    fileEntry "front-end/out/index.html" "<html>ok</html>";
    fileEntry "front-end/out/docs/index.html" "<html>docs</html>" ].

Definition HEAD (p : string) : http.Request :=
  {| http.Method := "HEAD"; http.URL_Path := p |}.

(** How often an event of a kind occurs in a trace. *)
Definition occurrences (kind : Event -> bool) (t : list Event) : nat :=
  List.length (filter kind t).

Definition isStart (e : Event) : bool :=
  match e with StartProcess _ => true | _ => false end.

Definition isListen (e : Event) : bool :=
  match e with Listen _ => true | _ => false end.

Definition isKill (e : Event) : bool :=
  match e with KillProcess => true | _ => false end.

Definition isExit (e : Event) : bool :=
  match e with ExitProcess _ => true | _ => false end.

(** The port is set, to the empty string; the backend ends by itself. *)
Definition emptyPortWorld : World :=
  {| GOOS := "windows"; environ := [("PORT", "")];
     frontendFS := siteTree;
     startErr := None; backendExits := true; listenErr := None;
     signalArrives := true; shutdownErr := None |}.

(** The backend binary is missing. *)
Definition noBackendWorld : World :=
  {| GOOS := "linux"; environ := []; frontendFS := siteTree;
     startErr := Some "exec: no such file or directory";
     backendExits := false; listenErr := None;
     signalArrives := true; shutdownErr := None |}.

(** The steps of the packaging command that act on the outside: the
    external commands and the three helpers on files. *)
Definition isAction (s : cmd.Step) : bool :=
  match s with
  | cmd.RunCommand _ _ | cmd.CopyDir _ _ | cmd.CopyFile _ _
  | cmd.GenerateMain _ _ => true
  | _ => false
  end.

(** The seven stages of the packaging command in a temporary directory
    [tmp], in the order of [run]. *)
Definition stages (w : cmd.World)
           (backendPath frontendPath outputDir name tmp : string)
  : list cmd.Step :=
  let out := cmd.addPlatformExtension w (cmd.Join w [outputDir; name]) in
  let built :=
    cmd.addPlatformExtension w (cmd.Join w [tmp; "backend-binary"]) in
  [ cmd.RunCommand frontendPath ["npm"; "run"; "build"];
    cmd.CopyDir (cmd.Join w [frontendPath; "out"])
                (cmd.Join w [tmp; cmd.Base w frontendPath]);
    cmd.RunCommand backendPath ["go"; "build"; "-o"; built];
    cmd.CopyFile built out;
    cmd.GenerateMain (cmd.Join w [tmp; "main.go"])
                     (cmd.Base w frontendPath);
    cmd.RunCommand tmp ["go"; "mod"; "init"; "gonext"];
    cmd.RunCommand tmp ["go"; "build"; "-o"; out] ].

(** The errors of the seven stages, in the same order. *)
Definition stageErrors (w : cmd.World) : list (option string) :=
  [ cmd.npmErr w; cmd.copyDirErr w; cmd.backendBuildErr w;
    cmd.copyFileErr w; cmd.generateErr w; cmd.modInitErr w;
    cmd.finalBuildErr w ].

(** The stages up to the first that fails, that one included. *)
Fixpoint upToFailure (todo : list cmd.Step) (errs : list (option string))
  : list cmd.Step :=
  match todo, errs with
  | s :: todo', None :: errs' => s :: upToFailure todo' errs'
  | s :: _, Some _ :: _ => [s]
  | _, _ => []
  end.

(** A world of the packaging command in which nothing fails, and one in
    which the build of the backend does. *)
Definition buildWorld : cmd.World :=
  {| cmd.GOOS := "linux"; cmd.Join := path.Join; cmd.Base := path.Base;
     cmd.tempDir := inl "/tmp/gonext-1";
     cmd.npmErr := None; cmd.copyDirErr := None;
     cmd.backendBuildErr := None; cmd.copyFileErr := None;
     cmd.generateErr := None; cmd.modInitErr := None;
     cmd.finalBuildErr := None |}.

Definition brokenBackendWorld : cmd.World :=
  {| cmd.GOOS := "windows"; cmd.Join := path.Join; cmd.Base := path.Base;
     cmd.tempDir := inl "/tmp/gonext-1";
     cmd.npmErr := None; cmd.copyDirErr := None;
     cmd.backendBuildErr := Some "exit status 1"; cmd.copyFileErr := None;
     cmd.generateErr := None; cmd.modInitErr := None;
     cmd.finalBuildErr := None |}.

(** Every [Listen] in the trace comes after a [StartProcess]. *)
Fixpoint listenAfterStart (started : bool) (t : list Event) : bool :=
  match t with
  | [] => true
  | StartProcess _ :: t' => listenAfterStart true t'
  | Listen _ :: t' => started && listenAfterStart started t'
  | _ :: t' => listenAfterStart started t'
  end.

(* ================================================================== *)
(** * Properties *)

(** ** The library models on the library's own examples *)

Example Clean_examples :
  forallb (fun t => path.Clean (fst t) =? snd t)
    [ ("", "."); ("abc", "abc"); ("abc/def", "abc/def"); (".", ".");
      ("..", ".."); ("../..", "../.."); ("../../abc", "../../abc");
      ("/abc", "/abc"); ("/", "/"); ("abc/", "abc");
      ("abc/def/", "abc/def"); ("./", "."); ("../", "..");
      ("../../", "../.."); ("/abc/", "/abc");
      ("abc//def//ghi", "abc/def/ghi"); ("//abc", "/abc");
      ("///abc", "/abc"); ("//abc//", "/abc"); ("abc//", "abc");
      ("abc/./def", "abc/def"); ("/./abc/def", "/abc/def");
      ("abc/.", "abc"); ("abc/def/ghi/../jkl", "abc/def/jkl");
      ("abc/def/../ghi/../jkl", "abc/jkl"); ("abc/def/..", "abc");
      ("abc/def/../..", "."); ("/abc/def/../..", "/");
      ("abc/def/../../..", ".."); ("/abc/def/../../..", "/");
      ("abc/def/../../../ghi/jkl/../../../mno", "../../mno");
      ("abc/./../def", "def"); ("abc//./../def", "def");
      ("abc/../../././../def", "../../def") ]
  = true.
Proof. vm_compute. reflexivity. Qed.

Example Base_examples :
  forallb (fun t => path.Base (fst t) =? snd t)
    [ ("", "."); (".", "."); ("/.", "."); ("/", "/"); ("////", "/");
      ("x/", "x"); ("abc", "abc"); ("abc/def", "def"); ("a/b/.x", ".x");
      ("a/b/c.", "c."); ("a/b/c.x", "c.x") ]
  = true.
Proof. vm_compute. reflexivity. Qed.

Example Join_examples :
  forallb (fun t => path.Join (fst t) =? snd t)
    [ (["a"; "b"], "a/b"); (["a"; ""], "a"); ([""; "b"], "b");
      (["/"; "a"], "/a"); (["/"; ""], "/"); (["a/"; "b"], "a/b");
      (["a/"; ""], "a"); ([""; ""], "");
      (["front-end/out"; "."], "front-end/out");
      (["front-end/out"; "assets/app.js"], "front-end/out/assets/app.js") ]
  = true.
Proof. vm_compute. reflexivity. Qed.

Example ValidPath_examples :
  forallb (fun t => Bool.eqb (fs.ValidPath (fst t)) (snd t))
    [ (".", true); ("x", true); ("x/y", true); ("", false); ("..", false);
      ("/", false); ("x/", false); ("/x", false); ("x/y/", false);
      ("/x/y", false); ("./", false); ("./x", false); ("x/.", false);
      ("x/./y", false); ("../", false); ("../x", false); ("x/..", false);
      ("x/../y", false); ("x//y", false); ("x:y", true) ]
  = true.
Proof. vm_compute. reflexivity. Qed.

Example ValidString_examples :
  let s (l : list nat) := string_of_list_ascii (map ascii_of_nat l) in
  utf8.ValidString "index.html" = true
  /\ utf8.ValidString (s [195; 169]) = true           (* U+00E9 *)
  /\ utf8.ValidString (s [226; 130; 172]) = true      (* U+20AC *)
  /\ utf8.ValidString (s [240; 159; 152; 128]) = true (* U+1F600 *)
  /\ utf8.ValidString (s [255]) = false
  /\ utf8.ValidString (s [192; 128]) = false          (* overlong *)
  /\ utf8.ValidString (s [237; 160; 128]) = false     (* a surrogate *)
  /\ utf8.ValidString (s [226; 130]) = false.         (* cut short *)
Proof. vm_compute. repeat split. Qed.

Example cleanPath_examples :
  map http.cleanPath
      [ ""; "/"; "a"; "/a/"; "/a//"; "//a"; "/a/../b/"; "/a/."; "/./";
        "/a/b" ]
  = [ "/"; "/"; "/a"; "/a/"; "/a/"; "/a"; "/b/"; "/a"; "/"; "/a/b" ].
Proof. vm_compute. reflexivity. Qed.

(** The server on the trees of the end-to-end scenarios. *)
Example scenario_root :
  http.ServeHTTP (rootMux (staticHandler siteTree)) (GET "/")
  = ok "<html>ok</html>".
Proof. vm_compute. reflexivity. Qed.

Example scenario_style_sheet :
  http.ServeHTTP (rootMux (staticHandler siteTree)) (GET "/style.css")
  = ok "body{}".
Proof. vm_compute. reflexivity. Qed.

Example scenario_client_route :
  http.ServeHTTP (rootMux (staticHandler siteTree))
                 (GET "/dashboard/settings")
  = ok "<html>ok</html>".
Proof. vm_compute. reflexivity. Qed.

Example scenario_no_entry_document :
  http.StatusCode (http.ServeHTTP (rootMux (staticHandler [])) (GET "/"))
  = 404%Z.
Proof. vm_compute. reflexivity. Qed.

Example scenario_graceful_run :
  run calmWorld
  = ({| trace :=
          [ Log "Starting backend process..."; StartProcess "./test";
            Log "Frontend server is set up to serve all files in the embedded folder.";
            Listen ":8080"; Log "HTTP server is running on :8080"; Signal;
            Log "Shutting down HTTP server..."; Shutdown;
            Log "HTTP server stopped."; KillProcess; ExitProcess 0 ];
        backend := Some Finished |}, Exited 0).
Proof. vm_compute. reflexivity. Qed.

(** ** Strings and paths *)

Lemma eqb_neq_false (a b : string) : a <> b -> (a =? b) = false.
Proof. intro H. apply String.eqb_neq. exact H. Qed.

Lemma TrimPrefix_slash (s : string) :
  strings.TrimPrefix (String "/" s) "/" = s.
Proof. reflexivity. Qed.

Lemma HasPrefix_slash_inv (p : string) :
  strings.HasPrefix p "/" = true -> exists q, p = String "/" q.
Proof.
  destruct p as [|c q]; [discriminate|].
  unfold strings.HasPrefix.
  change (strings.CutPrefix (String c q) "/")
    with (if Ascii.eqb "/" c then Some q else None).
  destruct (Ascii.eqb_spec "/"%char c) as [<-|]; [|discriminate].
  intros _. now exists q.
Qed.

Lemma endsWithSlash_cons (c : ascii) (s : string) :
  s <> "" -> strings.endsWithSlash (String c s) = strings.endsWithSlash s.
Proof. destruct s; [congruence|reflexivity]. Qed.

Lemma Split_nonempty (s : string) (sep : ascii) : strings.Split s sep <> [].
Proof.
  destruct s as [|c t]; simpl; [discriminate|].
  destruct (Ascii.eqb c sep); [discriminate|].
  destruct (strings.Split t sep); discriminate.
Qed.

(** After a trailing separator the last field is empty, so some field
    after the first is not a valid element. *)
Lemma Split_trailing_slash (s : string) :
  strings.endsWithSlash s = true ->
  forallb fs.validElem (tl (strings.Split s "/")) = false.
Proof.
  induction s as [|c t IH]; [discriminate|].
  destruct t as [|d t'].
  - unfold strings.endsWithSlash; simpl.
    intros H. rewrite H. reflexivity.
  - rewrite endsWithSlash_cons by discriminate.
    intros H. specialize (IH H).
    change (strings.Split (String c (String d t')) "/")
      with (if Ascii.eqb c "/" then "" :: strings.Split (String d t') "/"
            else match strings.Split (String d t') "/" with
                 | e :: es => String c e :: es
                 | [] => [String c ""]
                 end).
    destruct (Ascii.eqb c "/").
    + destruct (strings.Split (String d t') "/") as [|e es] eqn:E.
      * now apply Split_nonempty in E.
      * simpl in *. rewrite IH. apply andb_false_r.
    + destruct (strings.Split (String d t') "/") as [|e es] eqn:E.
      * now apply Split_nonempty in E.
      * exact IH.
Qed.

Lemma ValidPath_not_empty (name : string) :
  fs.ValidPath name = true -> name <> "".
Proof. intros H ->. discriminate. Qed.

Lemma ValidPath_no_trailing_slash (name : string) :
  fs.ValidPath name = true -> strings.endsWithSlash name = false.
Proof.
  unfold fs.ValidPath. intros H.
  apply andb_true_iff in H as [_ H].
  apply orb_true_iff in H as [H|H].
  - apply String.eqb_eq in H. subst. reflexivity.
  - destruct (strings.endsWithSlash name) eqn:E; [|reflexivity].
    apply Split_trailing_slash in E.
    destruct (strings.Split name "/") as [|e es]; [discriminate|].
    simpl in *. rewrite E, andb_false_r in H. discriminate.
Qed.

(** A name with a leading slash is not a valid path. *)
Lemma ValidPath_leading_slash (s : string) :
  fs.ValidPath (String "/" s) = false.
Proof.
  unfold fs.ValidPath. apply andb_false_iff. right.
  reflexivity.
Qed.

(** ** The cleaned path *)

Lemma Clean_rooted (s : string) :
  path.Clean (String "/" s)
  = String "/" (strings.Join
                  (path.cleanElems true (strings.Split (String "/" s) "/")
                                   [] 0) "/").
Proof. reflexivity. Qed.

Lemma cleanPath_rooted (p : string) :
  exists q, http.cleanPath p = String "/" q.
Proof.
  unfold http.cleanPath.
  destruct p as [|c s]; [now exists ""|].
  change (String c s =? "") with false. cbv iota.
  destruct (strings.HasPrefix (String c s) "/") eqn:HP.
  - apply HasPrefix_slash_inv in HP as [q ->].
    rewrite Clean_rooted.
    match goal with |- context [if ?b then _ else _] => destruct b end;
      [match goal with |- context [if ?b then _ else _] => destruct b end|];
      eexists; reflexivity.
  - change ("/" ++ String c s) with (String "/" (String c s)).
    rewrite Clean_rooted.
    match goal with |- context [if ?b then _ else _] => destruct b end;
      [match goal with |- context [if ?b then _ else _] => destruct b end|];
      eexists; reflexivity.
Qed.

(** A canonical path begins with a slash. *)
Lemma canonical_HasPrefix (p : string) :
  http.cleanPath p = p -> strings.HasPrefix p "/" = true.
Proof.
  intros H. destruct (cleanPath_rooted p) as [q Hq].
  rewrite H in Hq. subst. reflexivity.
Qed.

(** On a canonical path without a trailing slash [path.Clean] changes
    nothing. *)
Lemma canonical_Clean (p : string) :
  http.cleanPath p = p -> strings.endsWithSlash p = false ->
  path.Clean p = p.
Proof.
  intros H E. pose proof (canonical_HasPrefix p H) as HP.
  unfold http.cleanPath in H.
  destruct (p =? "") eqn:Hp.
  - apply String.eqb_eq in Hp. subst. discriminate.
  - rewrite HP, E in H. exact H.
Qed.

(** ** The escaped path *)

Example escape_examples :
  map url.escape
      [ "/style.css"; "/a b"; "/a%20b"; "//a b"; "/x?y"; "/~u/a-b_c.d";
        "/a:b@c;d=e,f+g&h$i"; "/*"; "" ]
  = [ "/style.css"; "/a%20b"; "/a%2520b"; "//a%20b"; "/x%3Fy";
      "/~u/a-b_c.d"; "/a:b@c;d=e,f+g&h$i"; "/%2A"; "" ].
Proof. vm_compute. reflexivity. Qed.

Example unescape_examples :
  map url.unescape
      [ "/style.css"; "/%2Fstyle.css"; "/a%20b"; "/a%2520b"; "/%2fx";
        "/a+b"; "/%"; "/%2"; "/%zz" ]
  = [ Some "/style.css"; Some "//style.css"; Some "/a b"; Some "/a%20b";
      Some "//x"; Some "/a+b"; None; None; None ].
Proof. vm_compute. reflexivity. Qed.

(** A slash written as [%2F] in the target is a slash of the path; the
    target is kept as the raw path, and is the escaped path. *)
Example setPath_examples :
  map url.setPath ["/style.css"; "//style.css"; "/%2Fstyle.css"; "/a%20b"]
  = [ Some ("/style.css", ""); Some ("//style.css", "");
      Some ("//style.css", "/%2Fstyle.css"); Some ("/a b", "") ].
Proof. vm_compute. reflexivity. Qed.

Example EscapedPath_examples :
  url.EscapedPath "//style.css" "" = "//style.css"
  /\ url.EscapedPath "//style.css" "/%2Fstyle.css" = "/%2Fstyle.css"
  /\ url.EscapedPath "//style.css" "/%2Fother.css" = "//style.css"
  /\ url.EscapedPath "/a b" "" = "/a%20b"
  /\ url.EscapedPath "*" "" = "*".
Proof. vm_compute. repeat split. Qed.

(** The multiplexer on targets that are not canonical, or are so only
    as written. *)
Example scenario_doubled_slash :
  http.ServeHTTP (rootMux (staticHandler siteTree)) (GET "//style.css")
  = {| http.StatusCode := 301; http.Location := Some "/style.css";
       http.Body := http.RedirectNote |}.
Proof. vm_compute. reflexivity. Qed.

Example scenario_encoded_slash :
  http.ServeEscaped (rootMux (staticHandler siteTree))
                    (url.EscapedPath "//style.css" "/%2Fstyle.css")
                    (GET "//style.css")
  = ok "<html>ok</html>".
Proof. vm_compute. reflexivity. Qed.

Example scenario_escaped_location :
  http.ServeHTTP (rootMux (staticHandler siteTree)) (GET "//a b")
  = {| http.StatusCode := 301; http.Location := Some "/a%2520b";
       http.Body := http.RedirectNote |}.
Proof. vm_compute. reflexivity. Qed.

Example scenario_connect_without_path :
  http.ServeHTTP (rootMux (staticHandler siteTree)) (CONNECT "")
  = {| http.StatusCode := 301; http.Location := Some "/";
       http.Body := http.NoBody |}.
Proof. vm_compute. reflexivity. Qed.

(** The error of a failed open names the file as the caller did. *)
Example scenario_open_error :
  fs.Open (assetTree siteTree) "dashboard"
  = inr {| fs.Op := "open"; fs.Path := "dashboard";
           fs.Err := fs.ErrNotExist |}
  /\ map (fs.shorten "front-end/out")
         [ "front-end/out"; "front-end/out/a/b"; "front-end/outer";
           "front-end/out/"; "x" ]
     = [ Some "."; Some "a/b"; None; None; None ].
Proof. vm_compute. split; reflexivity. Qed.

Lemma append_assoc (a b c : string) : (a ++ b) ++ c = a ++ (b ++ c).
Proof. induction a as [|x a IH]; [reflexivity|]. cbn. now rewrite IH. Qed.

Lemma Split_cons_slash (t : string) :
  strings.Split (String "/" t) "/" = "" :: strings.Split t "/".
Proof. reflexivity. Qed.

Lemma Split_cons_other (c : ascii) (t : string) :
  c <> "/"%char ->
  strings.Split (String c t) "/"
  = match strings.Split t "/" with
    | e :: es => String c e :: es
    | [] => [String c ""]
    end.
Proof.
  intros H. cbn [strings.Split].
  now rewrite (proj2 (Ascii.eqb_neq c "/") H).
Qed.

Lemma upperhex_not_slash (n : nat) : url.upperhex n <> "/"%char.
Proof.
  unfold url.upperhex.
  do 16 (destruct n as [|n]; [discriminate|]).
  destruct n; discriminate.
Qed.

Lemma shouldEscape_slash (c : ascii) :
  url.shouldEscape c = true -> c <> "/"%char.
Proof. intros H ->. discriminate. Qed.

Lemma escapeByte_kept (c : ascii) :
  url.shouldEscape c = false -> url.escapeByte c = String c "".
Proof. intros H. unfold url.escapeByte. now rewrite H. Qed.

Lemma escape_cons_kept (c : ascii) (t : string) :
  url.shouldEscape c = false ->
  url.escape (String c t) = String c (url.escape t).
Proof. intros H. cbn [url.escape]. now rewrite escapeByte_kept. Qed.

Lemma escape_cons_escaped (c : ascii) (t : string) :
  url.shouldEscape c = true ->
  url.escape (String c t)
  = String "%" (String (url.upperhex (nat_of_ascii c / 16))
                  (String (url.upperhex (nat_of_ascii c mod 16))
                          (url.escape t))).
Proof.
  intros H. cbn [url.escape]. unfold url.escapeByte. now rewrite H.
Qed.

Lemma escape_cons_slash (t : string) :
  url.escape (String "/" t) = String "/" (url.escape t).
Proof. now apply escape_cons_kept. Qed.

Lemma escape_app (a b : string) :
  url.escape (a ++ b) = url.escape a ++ url.escape b.
Proof.
  induction a as [|x a IH]; [reflexivity|].
  cbn [append url.escape]. now rewrite IH, append_assoc.
Qed.

(** Escaping writes no slash and no dot of its own: a string of
    characters that stand for themselves is the escaped form of itself
    only. *)
Lemma escape_unescaped (w : string) :
  unescaped w = true -> url.escape w = w.
Proof.
  induction w as [|c w IH]; [reflexivity|].
  unfold unescaped. cbn [list_ascii_of_string forallb].
  intros H. apply andb_true_iff in H as [Hc Hw].
  apply negb_true_iff in Hc.
  rewrite escape_cons_kept by assumption. now rewrite IH.
Qed.

Lemma escape_eq_unescaped (w e : string) :
  unescaped w = true -> url.escape e = w -> e = w.
Proof.
  revert e. induction w as [|d w IH]; intros e Hw H.
  - destruct e as [|c t]; [reflexivity|].
    destruct (url.shouldEscape c) eqn:E.
    + rewrite escape_cons_escaped in H by assumption. discriminate.
    + rewrite escape_cons_kept in H by assumption. discriminate.
  - unfold unescaped in Hw. cbn [list_ascii_of_string forallb] in Hw.
    apply andb_true_iff in Hw as [Hd Hw]. apply negb_true_iff in Hd.
    destruct e as [|c t]; [discriminate|].
    destruct (url.shouldEscape c) eqn:E.
    + rewrite escape_cons_escaped in H by assumption.
      injection H as <- _. discriminate.
    + rewrite escape_cons_kept in H by assumption.
      injection H as -> H. f_equal. now apply IH.
Qed.

Lemma escape_eqb (w e : string) :
  unescaped w = true -> (url.escape e =? w) = (e =? w).
Proof.
  intros Hw.
  destruct (String.eqb_spec e w) as [->|Hn].
  - rewrite escape_unescaped by assumption. apply String.eqb_refl.
  - apply String.eqb_neq. intros H. apply Hn.
    now apply escape_eq_unescaped.
Qed.

Lemma Split_escape (s : string) :
  strings.Split (url.escape s) "/" = map url.escape (strings.Split s "/").
Proof.
  induction s as [|c t IH]; [reflexivity|].
  destruct (url.shouldEscape c) eqn:E.
  - pose proof (shouldEscape_slash c E) as Hc.
    rewrite escape_cons_escaped by assumption.
    rewrite !Split_cons_other
      by (try discriminate; try apply upperhex_not_slash; assumption).
    rewrite IH.
    destruct (strings.Split t "/") as [|e es]; cbn [map].
    + now apply Split_nonempty in IH.
    + now rewrite escape_cons_escaped by assumption.
  - rewrite escape_cons_kept by assumption.
    destruct (Ascii.eqb_spec c "/") as [->|Hc].
    + rewrite !Split_cons_slash, IH. reflexivity.
    + rewrite !Split_cons_other by assumption. rewrite IH.
      destruct (strings.Split t "/") as [|e es]; cbn [map].
      * now rewrite escape_cons_kept by assumption.
      * now rewrite escape_cons_kept by assumption.
Qed.

Lemma cleanElems_escape (rooted : bool) (elems : list string) :
  forall (out : list string) (dotdot : nat),
    path.cleanElems rooted (map url.escape elems) (map url.escape out)
                    dotdot
    = map url.escape (path.cleanElems rooted elems out dotdot).
Proof.
  induction elems as [|e es IH]; intros out dotdot.
  - cbn [map path.cleanElems]. now rewrite map_rev.
  - cbn [map path.cleanElems].
    rewrite !escape_eqb by reflexivity.
    rewrite length_map.
    destruct ((e =? "") || (e =? ".")); [apply IH|].
    destruct (e =? "..").
    + destruct (dotdot <? List.length out)%nat.
      * rewrite <- IH. f_equal. now destruct out.
      * destruct rooted; [apply IH|]. now rewrite <- IH.
    + now rewrite <- IH.
Qed.

Lemma Join_escape (l : list string) :
  strings.Join (map url.escape l) "/" = url.escape (strings.Join l "/").
Proof.
  unfold strings.Join.
  induction l as [|e es IH]; [reflexivity|].
  destruct es as [|e' es']; [reflexivity|].
  change (String.concat "/" (map url.escape (e :: e' :: es')))
    with (url.escape e
          ++ "/" ++ String.concat "/" (map url.escape (e' :: es'))).
  rewrite IH.
  change (String.concat "/" (e :: e' :: es'))
    with (e ++ "/" ++ String.concat "/" (e' :: es')).
  rewrite !escape_app. reflexivity.
Qed.

Lemma escape_first (c : ascii) (t : string) :
  exists d u, url.escape (String c t) = String d u
              /\ Ascii.eqb d "/" = Ascii.eqb c "/".
Proof.
  destruct (url.shouldEscape c) eqn:E.
  - rewrite escape_cons_escaped by assumption.
    do 2 eexists. split; [reflexivity|].
    symmetry. apply Ascii.eqb_neq. now apply shouldEscape_slash.
  - rewrite escape_cons_kept by assumption.
    do 2 eexists. split; reflexivity.
Qed.

Lemma Clean_escape (p : string) :
  path.Clean (url.escape p) = url.escape (path.Clean p).
Proof.
  destruct p as [|c t]; [reflexivity|].
  destruct (escape_first c t) as (d & u & E & Hd).
  unfold path.Clean at 2.
  rewrite E. unfold path.Clean. rewrite <- E, Hd.
  rewrite Split_escape.
  rewrite (cleanElems_escape _ _ [] 0).
  destruct (Ascii.eqb c "/").
  - rewrite Join_escape.
    change ("/" ++ strings.Join (path.cleanElems true
                                   (strings.Split (String c t) "/") [] 0)
                                "/")
      with (String "/" (strings.Join (path.cleanElems true
                                   (strings.Split (String c t) "/") [] 0)
                                "/")).
    now rewrite escape_cons_slash.
  - destruct (path.cleanElems false (strings.Split (String c t) "/") [] 0)
      as [|e es] eqn:Ec; [reflexivity|].
    rewrite <- Join_escape. reflexivity.
Qed.

Lemma lastByte_app (u v : string) :
  v <> "" -> strings.lastByte (u ++ v) = strings.lastByte v.
Proof.
  intros Hv. induction u as [|c u IH]; [reflexivity|].
  cbn [append]. destruct (u ++ v) as [|d w] eqn:E.
  - destruct u; [cbn in E; congruence|discriminate].
  - exact IH.
Qed.

Lemma escape_nonempty (s : string) : s <> "" -> url.escape s <> "".
Proof.
  intros Hs H. apply Hs.
  now apply (escape_eq_unescaped "" s).
Qed.

Lemma endsWithSlash_escape (s : string) :
  strings.endsWithSlash (url.escape s) = strings.endsWithSlash s.
Proof.
  unfold strings.endsWithSlash.
  induction s as [|c t IH]; [reflexivity|].
  destruct t as [|d t'].
  - destruct (url.shouldEscape c) eqn:E.
    + rewrite escape_cons_escaped by assumption.
      cbn [url.escape strings.lastByte].
      rewrite (proj2 (Ascii.eqb_neq _ _) (upperhex_not_slash _)).
      symmetry. apply Ascii.eqb_neq. now apply shouldEscape_slash.
    + now rewrite escape_cons_kept by assumption.
  - cbn [url.escape] in *.
    rewrite lastByte_app by (apply (escape_nonempty (String d t'));
                             discriminate).
    exact IH.
Qed.

Lemma HasPrefix_slash_escape (s : string) :
  strings.HasPrefix (url.escape s) "/" = strings.HasPrefix s "/".
Proof.
  destruct s as [|c t]; [reflexivity|].
  destruct (escape_first c t) as (d & u & E & Hd). rewrite E.
  unfold strings.HasPrefix.
  change (strings.CutPrefix (String d u) "/")
    with (if Ascii.eqb "/" d then Some u else None).
  change (strings.CutPrefix (String c t) "/")
    with (if Ascii.eqb "/" c then Some t else None).
  rewrite (Ascii.eqb_sym "/" d), (Ascii.eqb_sym "/" c), Hd.
  now destruct (Ascii.eqb c "/").
Qed.

Lemma CutPrefix_spec (s prefix rest : string) :
  strings.CutPrefix s prefix = Some rest -> s = prefix ++ rest.
Proof.
  revert s. induction prefix as [|c p IH]; intros s H.
  - cbn in H. now injection H as ->.
  - destruct s as [|d t]; [discriminate|].
    cbn [strings.CutPrefix] in H.
    destruct (Ascii.eqb_spec c d) as [<-|]; [|discriminate].
    cbn [append]. f_equal. now apply IH.
Qed.

Lemma length_append (a b : string) :
  String.length (a ++ b) = String.length a + String.length b.
Proof. induction a as [|x a IH]; [reflexivity|]. cbn. now rewrite IH. Qed.

(** The short cut of [cleanPath] returns what the long way does. *)
Lemma cleanPath_alt (p : string) :
  http.cleanPath p
  = if p =? "" then "/"
    else
      let p' := if strings.HasPrefix p "/" then p else "/" ++ p in
      let np := path.Clean p' in
      if strings.endsWithSlash p' && negb (np =? "/")
      then np ++ "/" else np.
Proof.
  unfold http.cleanPath.
  destruct (p =? ""); [reflexivity|]. cbv zeta.
  generalize (if strings.HasPrefix p "/" then p else "/" ++ p).
  intros p'. generalize (path.Clean p'). intros np.
  destruct (strings.endsWithSlash p' && negb (np =? "/")) eqn:E;
    [|reflexivity].
  destruct ((String.length p' =? String.length np + 1)%nat
            && strings.HasPrefix p' np) eqn:B; [|reflexivity].
  apply andb_true_iff in B as [Bl Bp]. apply andb_true_iff in E as [E _].
  apply Nat.eqb_eq in Bl.
  unfold strings.HasPrefix in Bp.
  destruct (strings.CutPrefix p' np) as [rest|] eqn:C; [|discriminate].
  apply CutPrefix_spec in C. subst p'.
  rewrite length_append in Bl.
  destruct rest as [|c [|d rest]]; cbn in Bl; try lia.
  unfold strings.endsWithSlash in E.
  rewrite lastByte_app in E by discriminate. cbn in E.
  apply Ascii.eqb_eq in E. now subst c.
Qed.

(** Cleaning and escaping a path commute. *)
Lemma cleanPath_escape (p : string) :
  http.cleanPath (url.escape p) = url.escape (http.cleanPath p).
Proof.
  rewrite !cleanPath_alt.
  rewrite (escape_eqb "" p) by reflexivity.
  destruct (p =? ""); [reflexivity|]. cbv zeta.
  rewrite HasPrefix_slash_escape.
  assert (E : (if strings.HasPrefix p "/" then url.escape p
               else "/" ++ url.escape p)
              = url.escape (if strings.HasPrefix p "/" then p
                            else "/" ++ p)).
  { destruct (strings.HasPrefix p "/"); [reflexivity|].
    change ("/" ++ p) with (String "/" p).
    now rewrite escape_cons_slash. }
  rewrite E.
  set (p' := if strings.HasPrefix p "/" then p else "/" ++ p).
  rewrite Clean_escape, endsWithSlash_escape.
  rewrite (escape_eqb "/") by reflexivity.
  destruct (strings.endsWithSlash p' && negb (path.Clean p' =? "/"));
    [|reflexivity].
  now rewrite escape_app.
Qed.

(** The escaped path of a URL without raw path is canonical when the
    path is. *)
Lemma EscapedPath_plain (p : string) :
  p <> "*" -> url.EscapedPath p "" = url.escape p.
Proof.
  intros H. unfold url.EscapedPath. cbn [String.eqb negb andb].
  now rewrite (eqb_neq_false _ _ H).
Qed.

Lemma canonical_escape (p : string) :
  http.cleanPath p = p -> http.cleanPath (url.escape p) = url.escape p.
Proof. intros H. now rewrite cleanPath_escape, H. Qed.

(** ** Dispatch by the multiplexer *)

Lemma rootMux_registered (hnd : http.Handler) (p : string) :
  http.registered (rootMux hnd) p = ("/" =? p).
Proof.
  unfold http.registered, rootMux, http.HandleFunc, http.NewServeMux.
  cbn [app existsb http.pattern]. apply orb_false_r.
Qed.

Lemma rootMux_shouldRedirect (hnd : http.Handler) (p : string) :
  http.shouldRedirect (rootMux hnd) p = (p =? "").
Proof.
  unfold http.shouldRedirect. rewrite !rootMux_registered.
  destruct p as [|c q]; [reflexivity|].
  destruct ("/" =? String c q); [reflexivity|].
  replace ("/" =? String c q ++ "/") with false; [reflexivity|].
  symmetry. apply String.eqb_neq. destruct q; discriminate.
Qed.

Lemma rootMux_handler (hnd : http.Handler) (q : string) :
  http.handler (rootMux hnd) (String "/" q) = hnd.
Proof. destruct q; reflexivity. Qed.

(** A request other than CONNECT whose escaped path is canonical reaches
    the function registered on [/]. *)
Lemma escaped_canonical (hnd : http.Handler) (e : string)
      (r : http.Request) :
  http.Method r <> "CONNECT" ->
  http.URL_Path r <> "*" ->
  http.cleanPath e = e ->
  http.ServeEscaped (rootMux hnd) e r = hnd r.
Proof.
  intros Hm Hs Hc.
  destruct (HasPrefix_slash_inv _ (canonical_HasPrefix _ Hc)) as [q Hq].
  unfold http.ServeEscaped.
  rewrite (eqb_neq_false _ _ Hs), (eqb_neq_false _ _ Hm).
  rewrite Hc, rootMux_shouldRedirect, String.eqb_refl, Hq.
  now rewrite rootMux_handler.
Qed.

(** A CONNECT request reaches it when its escaped path begins with a
    slash, canonical or not. *)
Lemma escaped_connect (hnd : http.Handler) (e : string)
      (r : http.Request) :
  http.Method r = "CONNECT" ->
  http.URL_Path r <> "*" ->
  strings.HasPrefix e "/" = true ->
  http.ServeEscaped (rootMux hnd) e r = hnd r.
Proof.
  intros Hm Hs Hp. destruct (HasPrefix_slash_inv _ Hp) as [q Hq].
  unfold http.ServeEscaped.
  rewrite (eqb_neq_false _ _ Hs), Hm, rootMux_shouldRedirect, Hq.
  now rewrite rootMux_handler.
Qed.

(** Any other request whose escaped path is not canonical is redirected
    to the cleaned escaped path. *)
Lemma escaped_redirect (hnd : http.Handler) (e : string)
      (r : http.Request) :
  http.Method r <> "CONNECT" ->
  http.URL_Path r <> "*" ->
  http.cleanPath e <> e ->
  http.ServeEscaped (rootMux hnd) e r
  = http.RedirectHandler (url.pathString (http.cleanPath e))
                         http.StatusMovedPermanently r.
Proof.
  intros Hm Hs Hc. unfold http.ServeEscaped.
  rewrite (eqb_neq_false _ _ Hs), (eqb_neq_false _ _ Hm).
  rewrite rootMux_shouldRedirect, (eqb_neq_false _ _ Hc).
  destruct (cleanPath_rooted e) as [q ->]. reflexivity.
Qed.

Lemma rooted_not_star (p : string) :
  strings.HasPrefix p "/" = true -> p <> "*".
Proof. intros H ->. discriminate. Qed.

(** The same for a request whose URL has no raw path, in terms of its
    path. *)
Lemma dispatch_canonical (hnd : http.Handler) (r : http.Request) :
  http.Method r <> "CONNECT" ->
  http.cleanPath (http.URL_Path r) = http.URL_Path r ->
  http.ServeHTTP (rootMux hnd) r = hnd r.
Proof.
  intros Hm Hc.
  pose proof (rooted_not_star _ (canonical_HasPrefix _ Hc)) as Hs.
  unfold http.ServeHTTP. rewrite EscapedPath_plain by assumption.
  apply escaped_canonical; try assumption.
  now apply canonical_escape.
Qed.

Lemma dispatch_connect (hnd : http.Handler) (r : http.Request) :
  http.Method r = "CONNECT" ->
  strings.HasPrefix (http.URL_Path r) "/" = true ->
  http.ServeHTTP (rootMux hnd) r = hnd r.
Proof.
  intros Hm Hp. pose proof (rooted_not_star _ Hp) as Hs.
  unfold http.ServeHTTP. rewrite EscapedPath_plain by assumption.
  apply escaped_connect; try assumption.
  now rewrite HasPrefix_slash_escape.
Qed.

(** [startServer] does not fail: the directory it is rooted at is a valid
    path. *)
Lemma startServer_ok (frontendFS : embed.FS) :
  startServer frontendFS = inl (rootMux (staticHandler frontendFS)).
Proof. reflexivity. Qed.

Lemma assetTree_Open_valid (frontendFS : embed.FS) (name : string)
      (f : fs.File) :
  fs.Open (assetTree frontendFS) name = inl f -> fs.ValidPath name = true.
Proof.
  unfold assetTree, fs.subFS. cbn [fs.Open].
  destruct (fs.ValidPath name); [reflexivity|discriminate].
Qed.

Lemma assetTree_Open_invalid (frontendFS : embed.FS) (name : string) :
  fs.ValidPath name = false ->
  fs.Open (assetTree frontendFS) name
  = inr {| fs.Op := "open"; fs.Path := name; fs.Err := fs.ErrInvalid |}.
Proof.
  intros H. unfold assetTree, fs.subFS. cbn [fs.Open].
  rewrite H. reflexivity.
Qed.

(** The two arms of the function registered on [/]. *)
Lemma fileExists_root (fsys : fs.FS) :
  fileExists fsys "/"
  = match fs.Open fsys "index.html" with inl _ => true | inr _ => false end.
Proof. reflexivity. Qed.

Lemma fileExists_other (fsys : fs.FS) (p : string) :
  p <> "/" ->
  fileExists fsys p
  = match fs.Open fsys (strings.TrimPrefix p "/") with
    | inl _ => true
    | inr _ => false
    end.
Proof.
  intros H. unfold fileExists. rewrite (eqb_neq_false _ _ H). reflexivity.
Qed.

(** The fallback arm: the entry document, whole. *)
Lemma rootHandler_fallback (fsys : fs.FS) (fileServer : http.Handler)
      (r : http.Request) (f : fs.File) :
  fileExists fsys (http.URL_Path r) = false ->
  fs.Open fsys "index.html" = inl f ->
  fs.IsDir f = false ->
  rootHandler fsys fileServer r = http.serveContent r (fs.Data f).
Proof.
  intros He Ho Hd. unfold rootHandler, io.ReadAll, http.ServeContent.
  rewrite He, Ho, Hd. reflexivity.
Qed.

Lemma rootHandler_no_entry (fsys : fs.FS) (fileServer : http.Handler)
      (r : http.Request) (e : fs.PathError) :
  fileExists fsys (http.URL_Path r) = false ->
  fs.Open fsys "index.html" = inr e ->
  rootHandler fsys fileServer r
  = http.Error "index.html not found" http.StatusNotFound.
Proof.
  intros He Ho. unfold rootHandler. rewrite He, Ho. reflexivity.
Qed.

(** ** A slash followed by a valid name is a canonical path *)

Lemma Join_Split (s : string) :
  strings.Join (strings.Split s "/") "/" = s.
Proof.
  unfold strings.Join.
  induction s as [|c t IH]; [reflexivity|].
  cbn [strings.Split].
  destruct (strings.Split t "/") as [|e es] eqn:E;
    [now apply Split_nonempty in E|].
  destruct (Ascii.eqb_spec c "/") as [->|_].
  - change (String.concat "/" ("" :: e :: es))
      with (String "/" (String.concat "/" (e :: es))).
    now rewrite IH.
  - rewrite <- IH. destruct es; reflexivity.
Qed.

Lemma validElem_inv (e : string) :
  fs.validElem e = true -> (e =? "") = false /\ (e =? ".") = false
                           /\ (e =? "..") = false.
Proof.
  unfold fs.validElem. intros H. apply negb_true_iff in H.
  apply orb_false_iff in H as [H H3].
  apply orb_false_iff in H as [H1 H2]. auto.
Qed.

(** Valid elements are copied to the output one by one. *)
Lemma cleanElems_valid (rooted : bool) (elems out : list string)
      (dotdot : nat) :
  forallb fs.validElem elems = true ->
  path.cleanElems rooted elems out dotdot = (rev out ++ elems)%list.
Proof.
  revert out. induction elems as [|e es IH]; intros out H.
  - cbn. now rewrite app_nil_r.
  - cbn [forallb] in H. apply andb_true_iff in H as [He Hes].
    apply validElem_inv in He as (H1 & H2 & H3).
    cbn [path.cleanElems]. rewrite H1, H2, H3. cbn [orb].
    rewrite IH by assumption. cbn [rev]. now rewrite <- app_assoc.
Qed.

Lemma Clean_slash_valid (name : string) :
  fs.ValidPath name = true -> name <> "." ->
  path.Clean (String "/" name) = String "/" name.
Proof.
  intros H Hd. rewrite Clean_rooted. f_equal.
  unfold fs.ValidPath in H. apply andb_true_iff in H as [_ H].
  rewrite (eqb_neq_false _ _ Hd) in H. cbn [orb] in H.
  change (strings.Split (String "/" name) "/")
    with ("" :: strings.Split name "/").
  change (path.cleanElems true ("" :: strings.Split name "/") [] 0)
    with (path.cleanElems true (strings.Split name "/") [] 0).
  rewrite cleanElems_valid by assumption.
  apply Join_Split.
Qed.

Lemma canonical_slash_valid (name : string) :
  fs.ValidPath name = true -> name <> "." ->
  http.cleanPath (String "/" name) = String "/" name.
Proof.
  intros H Hd. unfold http.cleanPath.
  change (String "/" name =? "") with false.
  change (strings.HasPrefix (String "/" name) "/") with true. cbv iota.
  rewrite Clean_slash_valid by assumption.
  rewrite endsWithSlash_cons by (now apply ValidPath_not_empty).
  rewrite (ValidPath_no_trailing_slash _ H). reflexivity.
Qed.

(** ** The file server on a regular file *)

Lemma http_FS_Open_slash (fsys : fs.FS) (name : string) :
  name <> "" ->
  http.Open (http.FS fsys) (String "/" name)
  = match fs.Open fsys name with
    | inl file => inl file
    | inr e => inr (http.mapOpenError fsys (fs.Err e) name)
    end.
Proof.
  intros H. unfold http.FS. cbn [http.Open].
  replace (String "/" name =? "/") with false; [reflexivity|].
  symmetry. apply String.eqb_neq. congruence.
Qed.

Lemma FileServer_regular_file (fsys : fs.FS) (r : http.Request)
      (name : string) (f : fs.File) :
  http.URL_Path r = String "/" name ->
  fs.ValidPath name = true -> name <> "." ->
  fs.Open fsys name = inl f -> fs.IsDir f = false ->
  strings.HasSuffix (http.URL_Path r) http.indexPage = false ->
  http.FileServer (http.FS fsys) r = http.serveContent r (fs.Data f).
Proof.
  intros Hp Hv Hd Ho Hf Hs.
  unfold http.FileServer. rewrite Hp.
  change (strings.HasPrefix (String "/" name) "/") with true. cbv iota.
  rewrite Hp, (Clean_slash_valid _ Hv Hd).
  unfold http.serveFile. rewrite Hs, Hp.
  rewrite http_FS_Open_slash by (now apply ValidPath_not_empty).
  rewrite Ho, Hf.
  rewrite endsWithSlash_cons by (now apply ValidPath_not_empty).
  rewrite (ValidPath_no_trailing_slash _ Hv).
  unfold http.serveOpened. rewrite Hf. reflexivity.
Qed.

(** ** The static server *)

(** The file server on a directory of the tree: a redirect, to the
    address of the directory with a slash at its end. *)
Lemma FileServer_directory (fsys : fs.FS) (r : http.Request)
      (name : string) (d : fs.File) :
  http.URL_Path r = String "/" name ->
  fs.ValidPath name = true -> name <> "." ->
  fs.Open fsys name = inl d -> fs.IsDir d = true ->
  http.FileServer (http.FS fsys) r
  = http.localRedirect
      (if strings.HasSuffix (http.URL_Path r) http.indexPage then "./"
       else path.Base (http.URL_Path r) ++ "/").
Proof.
  intros Hp Hv Hd Ho Hf.
  unfold http.FileServer. rewrite Hp.
  change (strings.HasPrefix (String "/" name) "/") with true. cbv iota.
  rewrite Hp, (Clean_slash_valid _ Hv Hd).
  unfold http.serveFile. rewrite Hp.
  destruct (strings.HasSuffix (String "/" name) http.indexPage);
    [reflexivity|].
  rewrite http_FS_Open_slash by (now apply ValidPath_not_empty).
  rewrite Ho, Hf.
  rewrite endsWithSlash_cons by (now apply ValidPath_not_empty).
  rewrite (ValidPath_no_trailing_slash _ Hv). reflexivity.
Qed.

(** The file server on a path that ends in [/index.html]. *)
Lemma FileServer_index_suffix (root : http.FileSystem) (r : http.Request)
      (name : string) :
  http.URL_Path r = String "/" name ->
  strings.HasSuffix (http.URL_Path r) http.indexPage = true ->
  http.FileServer root r = http.localRedirect "./".
Proof.
  intros Hp Hs. unfold http.FileServer. rewrite Hp.
  change (strings.HasPrefix (String "/" name) "/") with true. cbv iota.
  unfold http.serveFile. now rewrite Hs.
Qed.

(** A canonical path is a slash followed by something other than [.]. *)
Lemma canonical_inv (p : string) :
  http.cleanPath p = p -> exists q, p = String "/" q /\ q <> ".".
Proof.
  intros H.
  destruct (HasPrefix_slash_inv _ (canonical_HasPrefix _ H)) as [q ->].
  exists q. split; [reflexivity|]. intros ->. discriminate.
Qed.

(** A request for a name that opens in the tree reaches the function
    registered on [/], whatever its method. *)
Lemma dispatch_valid (hnd : http.Handler) (r : http.Request)
      (name : string) :
  http.URL_Path r = String "/" name ->
  fs.ValidPath name = true -> name <> "." ->
  http.ServeHTTP (rootMux hnd) r = hnd r.
Proof.
  intros Hp Hv Hd.
  destruct (string_dec (http.Method r) "CONNECT") as [Hc|Hc].
  - apply dispatch_connect; [exact Hc|]. now rewrite Hp.
  - apply dispatch_canonical; [exact Hc|].
    rewrite Hp. now apply canonical_slash_valid.
Qed.

(** C2, as amended.  A request whose path is a slash followed by the name
    of a regular file of the asset tree is answered, when the path does
    not end in [/index.html] and the method is not HEAD, with status 200
    and the bytes of that file; when the path ends in [/index.html], with
    a redirect (301) to [./]. *)
Theorem existing_file_is_served (frontendFS : embed.FS)
        (mux : http.ServeMux) (r : http.Request) (name : string)
        (f : fs.File) :
  startServer frontendFS = inl mux ->
  http.URL_Path r = String "/" name ->
  name <> "." ->
  fs.Open (assetTree frontendFS) name = inl f ->
  fs.IsDir f = false ->
  (strings.HasSuffix (http.URL_Path r) "/index.html" = false ->
   http.Method r <> "HEAD" ->
   http.ServeHTTP mux r
   = {| http.StatusCode := 200; http.Location := None;
        http.Body := http.Bytes (fs.Data f) |})
  /\ (strings.HasSuffix (http.URL_Path r) "/index.html" = true ->
      http.ServeHTTP mux r
      = {| http.StatusCode := 301; http.Location := Some "./";
           http.Body := http.NoBody |}).
Proof.
  intros Hmux Hp Hd Ho Hf.
  rewrite startServer_ok in Hmux. injection Hmux as <-.
  pose proof (assetTree_Open_valid _ _ _ Ho) as Hv.
  rewrite (dispatch_valid _ r name Hp Hv Hd).
  assert (He : staticHandler frontendFS r
               = http.FileServer (http.FS (assetTree frontendFS)) r).
  { unfold staticHandler, rootHandler.
    rewrite fileExists_other.
    - now rewrite Hp, TrimPrefix_slash, Ho.
    - rewrite Hp. intros E. injection E as E.
      now apply (ValidPath_not_empty _ Hv). }
  rewrite He. split.
  - intros Hs Hm.
    rewrite (FileServer_regular_file _ r name f) by assumption.
    unfold http.serveContent. now rewrite (eqb_neq_false _ _ Hm).
  - intros Hs. now apply FileServer_index_suffix with (name := name).
Qed.

Lemma existing_file_is_served_witness :
  http.ServeHTTP (rootMux (staticHandler siteTree)) (GET "/style.css")
  = ok "body{}".
Proof.
  apply (existing_file_is_served siteTree
           (rootMux (staticHandler siteTree)) (GET "/style.css")
           "style.css"
           {| fs.Name := "style.css"; fs.IsDir := false;
              fs.Data := list_byte_of_string "body{}" |}).
  - reflexivity.
  - reflexivity.
  - discriminate.
  - vm_compute. reflexivity.
  - reflexivity.
  - vm_compute. reflexivity.
  - discriminate.
Defined.

(** C2 as stated fails: the entry document is an existing file of the
    tree, and a request for its path is answered with a redirect. *)
Lemma existing_file_counterexample :
  fs.Open (assetTree siteTree) "index.html"
  = inl {| fs.Name := "index.html"; fs.IsDir := false;
           fs.Data := list_byte_of_string "<html>ok</html>" |}
  /\ http.ServeHTTP (rootMux (staticHandler siteTree)) (GET "/index.html")
     = {| http.StatusCode := 301; http.Location := Some "./";
          http.Body := http.NoBody |}
  /\ http.StatusCode
       (http.ServeHTTP (rootMux (staticHandler siteTree)) (GET "/index.html"))
     <> 200%Z
  /\ startServer siteTree = inl (rootMux (staticHandler siteTree)).
Proof. repeat split; vm_compute; try reflexivity; discriminate. Qed.

Lemma FileServer_dot (fsys : fs.FS) (r : http.Request) (d : fs.File) :
  http.URL_Path r = "/." ->
  fs.Open fsys "." = inl d ->
  http.FileServer (http.FS fsys) r
  = if fs.IsDir d then http.localRedirect "./"
    else http.serveContent r (fs.Data d).
Proof.
  intros Hp Hd. unfold http.FileServer. rewrite Hp.
  change (strings.HasPrefix "/." "/") with true. cbv iota.
  unfold http.serveFile. rewrite Hp.
  change (strings.HasSuffix "/." http.indexPage) with false. cbv iota.
  change (path.Clean "/.") with "/".
  change (http.Open (http.FS fsys) "/")
    with (match fs.Open fsys "." with
          | inl file => inl file
          | inr e => inr (http.mapOpenError fsys (fs.Err e) ".")
          end).
  rewrite Hd.
  change (strings.endsWithSlash "/.") with false.
  destruct (fs.IsDir d) eqn:E; cbn [andb negb].
  - reflexivity.
  - unfold http.serveOpened. now rewrite E.
Qed.

(** The file server on a name that opens in the asset tree. *)
Lemma FileServer_opened (frontendFS : embed.FS) (r : http.Request)
      (q : string) (d : fs.File) :
  http.URL_Path r = String "/" q ->
  fs.Open (assetTree frontendFS) q = inl d ->
  http.FileServer (http.FS (assetTree frontendFS)) r
  = if strings.HasSuffix (http.URL_Path r) http.indexPage
    then http.localRedirect "./"
    else if fs.IsDir d
         then http.localRedirect (path.Base (http.URL_Path r) ++ "/")
         else http.serveContent r (fs.Data d).
Proof.
  intros Hp Ho. pose proof (assetTree_Open_valid _ _ _ Ho) as Hv.
  destruct (string_dec q ".") as [->|Hd].
  - rewrite (FileServer_dot _ r d Hp Ho). rewrite Hp.
    change (strings.HasSuffix "/." http.indexPage) with false. cbv iota.
    reflexivity.
  - destruct (strings.HasSuffix (http.URL_Path r) http.indexPage) eqn:Hs.
    + now apply FileServer_index_suffix with (name := q).
    + destruct (fs.IsDir d) eqn:E.
      * rewrite (FileServer_directory _ r q d) by assumption.
        now rewrite Hs.
      * now apply FileServer_regular_file with (name := q).
Qed.

(** The registered function on a path that opens as a directory. *)
Lemma staticHandler_directory (frontendFS : embed.FS) (r : http.Request)
      (d : fs.File) :
  strings.HasPrefix (http.URL_Path r) "/" = true ->
  fs.Open (assetTree frontendFS) (strings.TrimPrefix (http.URL_Path r) "/")
  = inl d ->
  fs.IsDir d = true ->
  staticHandler frontendFS r
  = http.localRedirect
      (if strings.HasSuffix (http.URL_Path r) http.indexPage then "./"
       else path.Base (http.URL_Path r) ++ "/").
Proof.
  intros Hp Ho Hd. destruct (HasPrefix_slash_inv _ Hp) as [q Hq].
  rewrite Hq, TrimPrefix_slash in Ho.
  pose proof (assetTree_Open_valid _ _ _ Ho) as Hv.
  unfold staticHandler, rootHandler.
  rewrite fileExists_other.
  - rewrite Hq at 1. rewrite TrimPrefix_slash, Ho.
    rewrite (FileServer_opened frontendFS r q d) by assumption.
    rewrite Hd.
    now destruct (strings.HasSuffix (http.URL_Path r) http.indexPage).
  - rewrite Hq. intros E. injection E as E.
    now apply (ValidPath_not_empty _ Hv).
Qed.

(** The file server reads a path without leading slash as the path with
    one. *)
Lemma FileServer_unrooted (root : http.FileSystem) (r : http.Request) :
  strings.HasPrefix (http.URL_Path r) "/" = false ->
  http.FileServer root r
  = http.FileServer root {| http.Method := http.Method r;
                            http.URL_Path := "/" ++ http.URL_Path r |}.
Proof. intros H. unfold http.FileServer. now rewrite H. Qed.

Lemma staticHandler_directory_status (frontendFS : embed.FS)
      (r : http.Request) (d : fs.File) :
  fs.Open (assetTree frontendFS) (strings.TrimPrefix (http.URL_Path r) "/")
  = inl d ->
  fs.IsDir d = true ->
  http.StatusCode (staticHandler frontendFS r) = 301%Z
  /\ http.Body (staticHandler frontendFS r) = http.NoBody.
Proof.
  intros Ho Hd.
  destruct (strings.HasPrefix (http.URL_Path r) "/") eqn:Hp.
  - rewrite (staticHandler_directory frontendFS r d) by assumption.
    split; reflexivity.
  - assert (Ht : strings.TrimPrefix (http.URL_Path r) "/" = http.URL_Path r).
    { unfold strings.HasPrefix in Hp. unfold strings.TrimPrefix.
      now destruct (strings.CutPrefix (http.URL_Path r) "/"). }
    assert (Hn : http.URL_Path r <> "/")
      by (intros E; rewrite E in Hp; discriminate).
    unfold staticHandler, rootHandler.
    rewrite fileExists_other by assumption. rewrite Ho.
    rewrite FileServer_unrooted by assumption.
    rewrite Ht in Ho.
    rewrite (FileServer_opened frontendFS _ (http.URL_Path r) d)
      by (try reflexivity; assumption).
    rewrite Hd.
    match goal with |- context [if ?b then _ else _] => destruct b end;
      split; reflexivity.
Qed.

(** A request, other than CONNECT, with a canonical path that opens as a
    directory of the tree is answered by the file server, with a
    redirect. *)
Lemma directory_is_redirected (frontendFS : embed.FS) (r : http.Request)
      (d : fs.File) :
  http.Method r <> "CONNECT" ->
  http.cleanPath (http.URL_Path r) = http.URL_Path r ->
  fs.Open (assetTree frontendFS) (strings.TrimPrefix (http.URL_Path r) "/")
  = inl d ->
  fs.IsDir d = true ->
  http.ServeHTTP (rootMux (staticHandler frontendFS)) r
  = http.localRedirect
      (if strings.HasSuffix (http.URL_Path r) http.indexPage then "./"
       else path.Base (http.URL_Path r) ++ "/").
Proof.
  intros Hc Hcan Ho Hd.
  rewrite dispatch_canonical by assumption.
  destruct (canonical_inv _ Hcan) as [q [Hp Hq]].
  rewrite Hp, TrimPrefix_slash in Ho.
  pose proof (assetTree_Open_valid _ _ _ Ho) as Hv.
  unfold staticHandler, rootHandler.
  rewrite fileExists_other.
  - rewrite Hp at 1. rewrite TrimPrefix_slash, Ho.
    now apply FileServer_directory with (name := q) (d := d).
  - rewrite Hp. intros E. injection E as E.
    now apply (ValidPath_not_empty _ Hv).
Qed.

(** C1, as amended.  Take a request, other than CONNECT, with a canonical
    path, and let the entry document be a regular file at the root of the
    asset tree.  When the path is not [/] and the path without its
    leading slash does not open in the tree, the request is answered
    (HEAD apart) with status 200 and the bytes of the entry document.
    When the path without its leading slash opens as a directory, the
    request is not given the fallback: the file server answers it, with a
    redirect (301). *)
Theorem fallback_serves_entry_document (frontendFS : embed.FS)
        (mux : http.ServeMux) (r : http.Request) (f : fs.File) :
  startServer frontendFS = inl mux ->
  http.Method r <> "CONNECT" ->
  http.cleanPath (http.URL_Path r) = http.URL_Path r ->
  fs.Open (assetTree frontendFS) "index.html" = inl f ->
  fs.IsDir f = false ->
  (forall e,
      http.Method r <> "HEAD" ->
      http.URL_Path r <> "/" ->
      fs.Open (assetTree frontendFS)
              (strings.TrimPrefix (http.URL_Path r) "/") = inr e ->
      http.ServeHTTP mux r
      = {| http.StatusCode := 200; http.Location := None;
           http.Body := http.Bytes (fs.Data f) |})
  /\ (forall d,
         fs.Open (assetTree frontendFS)
                 (strings.TrimPrefix (http.URL_Path r) "/") = inl d ->
         fs.IsDir d = true ->
         http.StatusCode (http.ServeHTTP mux r) = 301%Z
         /\ http.Body (http.ServeHTTP mux r) = http.NoBody).
Proof.
  intros Hmux Hc Hcan Hidx Hf.
  rewrite startServer_ok in Hmux. injection Hmux as <-. split.
  - intros e Hh Hroot Hopen.
    rewrite dispatch_canonical by assumption.
    unfold staticHandler.
    rewrite rootHandler_fallback with (f := f); try assumption.
    + unfold http.serveContent. now rewrite (eqb_neq_false _ _ Hh).
    + rewrite fileExists_other by assumption. now rewrite Hopen.
  - intros d Ho Hd.
    rewrite (directory_is_redirected frontendFS r d) by assumption.
    split; reflexivity.
Qed.

Lemma fallback_serves_entry_document_witness :
  http.ServeHTTP (rootMux (staticHandler siteTree))
                 (GET "/dashboard/settings")
  = ok "<html>ok</html>"
  /\ http.StatusCode
       (http.ServeHTTP (rootMux (staticHandler siteTree)) (GET "/assets"))
     = 301%Z.
Proof.
  assert (Hc : forall p, http.Method (GET p) <> "CONNECT")
    by (intros p; discriminate).
  split.
  - apply (proj1 (fallback_serves_entry_document siteTree
                    (rootMux (staticHandler siteTree))
                    (GET "/dashboard/settings")
                    {| fs.Name := "index.html"; fs.IsDir := false;
                       fs.Data := list_byte_of_string "<html>ok</html>" |}
                    eq_refl (Hc _) eq_refl eq_refl eq_refl)
                 {| fs.Op := "open";
                    fs.Path := "dashboard/settings";
                    fs.Err := fs.ErrNotExist |}).
    + discriminate.
    + discriminate.
    + vm_compute. reflexivity.
  - apply (proj2 (fallback_serves_entry_document siteTree
                    (rootMux (staticHandler siteTree))
                    (GET "/assets")
                    {| fs.Name := "index.html"; fs.IsDir := false;
                       fs.Data := list_byte_of_string "<html>ok</html>" |}
                    eq_refl (Hc _) eq_refl eq_refl eq_refl)
                 {| fs.Name := "assets"; fs.IsDir := true;
                    fs.Data := [] |}).
    + vm_compute. reflexivity.
    + reflexivity.
Defined.

(** C1 as stated fails: the path [/assets] names a directory, not a file;
    it opens, so the request goes to the file server, which answers with a
    redirect to the directory's canonical address and not with the entry
    document. *)
Lemma fallback_counterexample :
  fs.Open (assetTree siteTree) "assets"
  = inl {| fs.Name := "assets"; fs.IsDir := true; fs.Data := [] |}
  /\ fs.Open (assetTree siteTree) "index.html"
     = inl {| fs.Name := "index.html"; fs.IsDir := false;
              fs.Data := list_byte_of_string "<html>ok</html>" |}
  /\ fileExists (assetTree siteTree) "/assets" = true
  /\ http.ServeHTTP (rootMux (staticHandler siteTree)) (GET "/assets")
     = {| http.StatusCode := 301; http.Location := Some "assets/";
          http.Body := http.NoBody |}
  /\ http.StatusCode
       (http.ServeHTTP (rootMux (staticHandler siteTree)) (GET "/assets"))
     <> 200%Z
  /\ startServer siteTree = inl (rootMux (staticHandler siteTree)).
Proof. repeat split; vm_compute; try reflexivity; discriminate. Qed.

(** C5, as amended.  Let the entry document not open at the root of the
    asset tree, and take a request other than CONNECT whose target is not
    [*]; let [escapedPath] be the escaped path of its URL.  When the
    escaped path is canonical the request reaches the registered
    function: it is answered with status 404 when its path is [/] or does
    not open in the tree (the leading slash taken off), and by the file
    server, with a redirect (301), when its path opens as a directory.
    When the escaped path is not canonical the multiplexer answers
    itself, with a redirect (301) to the cleaned escaped path. *)
Theorem no_entry_document_is_not_found (frontendFS : embed.FS)
        (mux : http.ServeMux) (r : http.Request) (escapedPath : string)
        (e : fs.PathError) :
  startServer frontendFS = inl mux ->
  http.Method r <> "CONNECT" ->
  http.URL_Path r <> "*" ->
  fs.Open (assetTree frontendFS) "index.html" = inr e ->
  (http.cleanPath escapedPath = escapedPath ->
   (http.URL_Path r = "/"
    \/ exists e', fs.Open (assetTree frontendFS)
                          (strings.TrimPrefix (http.URL_Path r) "/")
                  = inr e') ->
   http.ServeEscaped mux escapedPath r
   = {| http.StatusCode := 404; http.Location := None;
        http.Body := http.ErrorText "index.html not found" |})
  /\ (http.cleanPath escapedPath = escapedPath ->
      forall d,
        fs.Open (assetTree frontendFS)
                (strings.TrimPrefix (http.URL_Path r) "/") = inl d ->
        fs.IsDir d = true ->
        http.StatusCode (http.ServeEscaped mux escapedPath r) = 301%Z
        /\ http.Body (http.ServeEscaped mux escapedPath r) = http.NoBody)
  /\ (http.cleanPath escapedPath <> escapedPath ->
      http.ServeEscaped mux escapedPath r
      = http.RedirectHandler (url.pathString (http.cleanPath escapedPath))
                             301 r
      /\ http.StatusCode (http.ServeEscaped mux escapedPath r) = 301%Z).
Proof.
  intros Hmux Hc Hs Hidx.
  rewrite startServer_ok in Hmux. injection Hmux as <-.
  split; [|split].
  - intros Hcan Hpath.
    rewrite escaped_canonical by assumption.
    unfold staticHandler.
    rewrite rootHandler_no_entry with (e := e); [reflexivity| |assumption].
    destruct (string_dec (http.URL_Path r) "/") as [E|E].
    + rewrite E, fileExists_root. now rewrite Hidx.
    + rewrite fileExists_other by assumption.
      destruct Hpath as [Hp|[e' Hp]]; [contradiction|]. now rewrite Hp.
  - intros Hcan d Ho Hd.
    rewrite escaped_canonical by assumption.
    now apply staticHandler_directory_status with (d := d).
  - intros Hn. rewrite escaped_redirect by assumption.
    split; reflexivity.
Qed.

(** On a tree without entry document: the root and a missing path get
    404, also when a slash of the path was written [%2F] in the target;
    the directory [/assets] and the target [//missing] get redirects. *)
Lemma no_entry_document_is_not_found_witness :
  http.ServeHTTP (rootMux (staticHandler bareTree)) (GET "/")
  = {| http.StatusCode := 404; http.Location := None;
       http.Body := http.ErrorText "index.html not found" |}
  /\ http.ServeEscaped (rootMux (staticHandler bareTree))
                       (url.EscapedPath "//missing" "/%2Fmissing")
                       (GET "//missing")
     = {| http.StatusCode := 404; http.Location := None;
          http.Body := http.ErrorText "index.html not found" |}
  /\ http.StatusCode
       (http.ServeHTTP (rootMux (staticHandler bareTree)) (GET "/assets"))
     = 301%Z
  /\ http.ServeHTTP (rootMux (staticHandler bareTree)) (GET "//missing")
     = {| http.StatusCode := 301; http.Location := Some "/missing";
          http.Body := http.RedirectNote |}.
Proof.
  pose (e := {| fs.Op := "open"; fs.Path := "index.html";
                fs.Err := fs.ErrNotExist |}).
  assert (Hm : forall p, http.Method (GET p) <> "CONNECT")
    by (intros p; discriminate).
  split; [|split; [|split]].
  - apply (proj1 (no_entry_document_is_not_found bareTree
                    (rootMux (staticHandler bareTree)) (GET "/") "/" e
                    eq_refl (Hm _) ltac:(discriminate) eq_refl)).
    + reflexivity.
    + left. reflexivity.
  - apply (proj1 (no_entry_document_is_not_found bareTree
                    (rootMux (staticHandler bareTree)) (GET "//missing")
                    "/%2Fmissing" e
                    eq_refl (Hm _) ltac:(discriminate) eq_refl)).
    + reflexivity.
    + right. eexists. vm_compute. reflexivity.
  - apply (proj1 (proj2 (no_entry_document_is_not_found bareTree
                    (rootMux (staticHandler bareTree)) (GET "/assets")
                    "/assets" e
                    eq_refl (Hm _) ltac:(discriminate) eq_refl))
             eq_refl
             {| fs.Name := "assets"; fs.IsDir := true; fs.Data := [] |}).
    + vm_compute. reflexivity.
    + reflexivity.
  - destruct (proj2 (proj2 (no_entry_document_is_not_found bareTree
                    (rootMux (staticHandler bareTree)) (GET "//missing")
                    "//missing" e
                    eq_refl (Hm _) ltac:(discriminate) eq_refl)))
      as [G _].
    + vm_compute. discriminate.
    + exact G.
Defined.

(** C5 as stated fails: in a tree without entry document the path
    [/assets] names a directory, not an existing file, and a request for
    it is answered by the file server with a redirect, not with 404; the
    target [//missing] names no file either, and a request for it is
    answered by the multiplexer with a redirect to [/missing]. *)
Lemma no_entry_document_counterexample :
  (exists e, fs.Open (assetTree bareTree) "index.html" = inr e)
  /\ fs.Open (assetTree bareTree) "assets"
     = inl {| fs.Name := "assets"; fs.IsDir := true; fs.Data := [] |}
  /\ http.ServeHTTP (rootMux (staticHandler bareTree)) (GET "/assets")
     = {| http.StatusCode := 301; http.Location := Some "assets/";
          http.Body := http.NoBody |}
  /\ (exists e, fs.Open (assetTree bareTree) "/missing" = inr e)
  /\ (exists e, fs.Open (assetTree bareTree) "missing" = inr e)
  /\ url.setPath "//missing" = Some ("//missing", "")
  /\ http.ServeHTTP (rootMux (staticHandler bareTree)) (GET "//missing")
     = {| http.StatusCode := 301; http.Location := Some "/missing";
          http.Body := http.RedirectNote |}
  /\ http.StatusCode
       (http.ServeHTTP (rootMux (staticHandler bareTree)) (GET "//missing"))
     <> 404%Z
  /\ startServer bareTree = inl (rootMux (staticHandler bareTree)).
Proof.
  repeat split; try (eexists; vm_compute; reflexivity);
    vm_compute; try reflexivity; discriminate.
Qed.

(** ** A canonical path has no doubled leading slash *)

Lemma Split_fields (s e : string) :
  In e (strings.Split s "/") -> e = "" \/ plain e.
Proof.
  revert e. induction s as [|c t IH]; intros e H.
  - destruct H as [<-|[]]. now left.
  - cbn [strings.Split] in H.
    destruct (Ascii.eqb_spec c "/") as [->|Hc].
    + destruct H as [<-|H]; [now left|now apply IH].
    + destruct (strings.Split t "/") as [|e0 es].
      * destruct H as [<-|[]]. now right.
      * destruct H as [<-|H]; [now right|]. apply IH. now right.
Qed.

Lemma cleanElems_plain (rooted : bool) (elems : list string) :
  (forall e, In e elems -> e = "" \/ plain e) ->
  forall (out : list string) (dotdot : nat),
    (forall e, In e out -> plain e) ->
    forall e, In e (path.cleanElems rooted elems out dotdot) -> plain e.
Proof.
  induction elems as [|e0 es IH]; intros Hel out dotdot Hout e H.
  - cbn in H. apply in_rev in H. now apply Hout.
  - assert (Hes : forall x, In x es -> x = "" \/ plain x)
      by (intros x Hx; apply Hel; now right).
    cbn [path.cleanElems] in H.
    destruct (e0 =? "") eqn:E0; cbn [orb] in H;
      [now apply (IH Hes out dotdot Hout)|].
    destruct (e0 =? ".") eqn:E1;
      [now apply (IH Hes out dotdot Hout)|].
    destruct (e0 =? "..") eqn:E2.
    + destruct (dotdot <? List.length out)%nat.
      * apply (IH Hes (tl out) dotdot); [|exact H].
        intros x Hx. apply Hout. destruct out; [destruct Hx|now right].
      * destruct rooted.
        -- now apply (IH Hes out dotdot Hout).
        -- apply (IH Hes (".." :: out) (S dotdot)); [|exact H].
           intros x [<-|Hx]; [cbn; discriminate|now apply Hout].
    + apply (IH Hes (e0 :: out) dotdot); [|exact H].
      intros x [<-|Hx]; [|now apply Hout].
      destruct (Hel e0 (or_introl eq_refl)) as [->|Hp];
        [discriminate|exact Hp].
Qed.

Lemma Join_plain (l : list string) :
  (forall e, In e l -> plain e) -> l <> [] -> plain (strings.Join l "/").
Proof.
  intros H Hl. destruct l as [|e es]; [congruence|].
  pose proof (H e (or_introl eq_refl)) as He.
  destruct e as [|c e']; [destruct He|].
  unfold strings.Join. destruct es; exact He.
Qed.

Lemma Clean_singleRooted (s : string) :
  singleRooted (path.Clean (String "/" s)).
Proof.
  rewrite Clean_rooted.
  set (out := path.cleanElems true _ [] 0).
  assert (Hout : forall e, In e out -> plain e).
  { apply cleanElems_plain.
    - intros e. apply Split_fields.
    - intros e []. }
  destruct out as [|e es] eqn:E.
  - now left.
  - right. eexists. split; [reflexivity|].
    apply Join_plain; [exact Hout|discriminate].
Qed.

Lemma plain_append (j t : string) : plain j -> plain (j ++ t).
Proof. destruct j; [intros []|intros H; exact H]. Qed.

Lemma HasPrefix_second (x np : string) (j : string) :
  np = String "/" j -> plain j ->
  strings.HasPrefix (String "/" x) np = true -> plain x.
Proof.
  intros -> Hj. destruct j as [|c j']; [destruct Hj|].
  unfold strings.HasPrefix.
  change (strings.CutPrefix (String "/" x) (String "/" (String c j')))
    with (strings.CutPrefix x (String c j')).
  destruct x as [|d x']; [discriminate|].
  change (strings.CutPrefix (String d x') (String c j'))
    with (if Ascii.eqb c d then strings.CutPrefix x' j' else None).
  destruct (Ascii.eqb_spec c d) as [<-|]; [|discriminate].
  intros _. exact Hj.
Qed.

Lemma cleanPath_singleRooted (p : string) : singleRooted (http.cleanPath p).
Proof.
  unfold http.cleanPath.
  destruct (p =? ""); [now left|].
  assert (Hx : exists x, (if strings.HasPrefix p "/" then p else "/" ++ p)
                         = String "/" x).
  { destruct (strings.HasPrefix p "/") eqn:HP.
    - now apply HasPrefix_slash_inv.
    - now exists p. }
  destruct Hx as [x ->].
  pose proof (Clean_singleRooted x) as Hs.
  destruct (strings.endsWithSlash (String "/" x)
            && negb (path.Clean (String "/" x) =? "/")) eqn:E;
    [|exact Hs].
  apply andb_true_iff in E as [_ E]. apply negb_true_iff in E.
  apply String.eqb_neq in E.
  destruct Hs as [Hs|[j [Hj Hp]]]; [contradiction|].
  match goal with |- context [if ?b then _ else _] => destruct b eqn:B end.
  - apply andb_true_iff in B as [_ B].
    right. exists x. split; [reflexivity|].
    now apply (HasPrefix_second x _ j Hj Hp).
  - right. exists (j ++ "/"). split; [now rewrite Hj|].
    now apply plain_append.
Qed.

Lemma doubled_slash_not_canonical (s : string) :
  http.cleanPath (String "/" (String "/" s)) <> String "/" (String "/" s).
Proof.
  intros H.
  destruct (cleanPath_singleRooted (String "/" (String "/" s)))
    as [E|[j [E Hj]]]; rewrite H in E.
  - discriminate.
  - injection E as <-. now apply Hj.
Qed.

(** ** The root and the entry document path *)

Lemma FileServer_root (fsys : fs.FS) (m : string) (d f : fs.File) :
  fs.Open fsys "." = inl d -> fs.IsDir d = true ->
  fs.Open fsys "index.html" = inl f -> fs.IsDir f = false ->
  http.FileServer (http.FS fsys) {| http.Method := m; http.URL_Path := "/" |}
  = http.serveContent {| http.Method := m; http.URL_Path := "/" |}
                      (fs.Data f).
Proof.
  intros Hd Hdd Hf Hff.
  unfold http.FileServer. cbn [http.URL_Path].
  change (strings.HasPrefix "/" "/") with true. cbv iota.
  unfold http.serveFile. cbn [http.URL_Path].
  change (strings.HasSuffix "/" http.indexPage) with false. cbv iota.
  change (path.Clean "/") with "/".
  change (http.Open (http.FS fsys) "/")
    with (match fs.Open fsys "." with
          | inl file => inl file
          | inr e => inr (http.mapOpenError fsys (fs.Err e) ".")
          end).
  rewrite Hd, Hdd.
  change (strings.endsWithSlash "/") with true.
  change ("/" =? "") with false.
  cbn [andb negb orb].
  change (strings.TrimSuffix "/" "/" ++ http.indexPage) with "/index.html".
  rewrite http_FS_Open_slash by discriminate.
  rewrite Hf. unfold http.serveOpened. now rewrite Hff.
Qed.

Lemma FileServer_indexPage (root : http.FileSystem) (m : string) :
  http.FileServer root {| http.Method := m; http.URL_Path := "/index.html" |}
  = http.localRedirect "./".
Proof. reflexivity. Qed.

(** C6, as amended.  When the entry document is a regular file at the
    root of the asset tree (and the root opens as a directory),
    [fileExists] holds of [/] and of [/index.html] alike and both requests
    go to the file server; it answers [/] with status 200 and the entry
    document, and [/index.html] with a redirect (301) to [./]. *)
Theorem root_and_entry_document_path (frontendFS : embed.FS)
        (mux : http.ServeMux) (m : string) (d f : fs.File) :
  startServer frontendFS = inl mux ->
  m <> "HEAD" ->
  fs.Open (assetTree frontendFS) "." = inl d -> fs.IsDir d = true ->
  fs.Open (assetTree frontendFS) "index.html" = inl f ->
  fs.IsDir f = false ->
  fileExists (assetTree frontendFS) "/" = true
  /\ fileExists (assetTree frontendFS) "/index.html" = true
  /\ http.ServeHTTP mux {| http.Method := m; http.URL_Path := "/" |}
     = {| http.StatusCode := 200; http.Location := None;
          http.Body := http.Bytes (fs.Data f) |}
  /\ http.ServeHTTP mux
       {| http.Method := m; http.URL_Path := "/index.html" |}
     = {| http.StatusCode := 301; http.Location := Some "./";
          http.Body := http.NoBody |}.
Proof.
  intros Hmux Hm Hd Hdd Hf Hff.
  rewrite startServer_ok in Hmux. injection Hmux as <-.
  assert (E1 : fileExists (assetTree frontendFS) "/" = true)
    by (rewrite fileExists_root; now rewrite Hf).
  assert (E2 : fileExists (assetTree frontendFS) "/index.html" = true)
    by (rewrite fileExists_other by discriminate;
        rewrite TrimPrefix_slash; now rewrite Hf).
  assert (D : forall p, strings.HasPrefix p "/" = true ->
                        http.cleanPath p = p ->
              http.ServeHTTP (rootMux (staticHandler frontendFS))
                             {| http.Method := m; http.URL_Path := p |}
              = staticHandler frontendFS
                              {| http.Method := m; http.URL_Path := p |}).
  { intros p Hp Hc. destruct (string_dec m "CONNECT") as [Hmc|Hmc].
    - now apply dispatch_connect.
    - now apply dispatch_canonical. }
  repeat split; try assumption.
  - rewrite D by reflexivity.
    unfold staticHandler, rootHandler. cbn [http.URL_Path]. rewrite E1.
    rewrite FileServer_root with (d := d) (f := f) by assumption.
    unfold http.serveContent. cbn [http.Method].
    now rewrite (eqb_neq_false _ _ Hm).
  - rewrite D by reflexivity.
    unfold staticHandler, rootHandler. cbn [http.URL_Path]. rewrite E2.
    apply FileServer_indexPage.
Qed.

Lemma root_and_entry_document_path_witness :
  http.ServeHTTP (rootMux (staticHandler siteTree)) (GET "/")
  = ok "<html>ok</html>"
  /\ http.ServeHTTP (rootMux (staticHandler siteTree)) (GET "/index.html")
     = {| http.StatusCode := 301; http.Location := Some "./";
          http.Body := http.NoBody |}.
Proof.
  apply (root_and_entry_document_path siteTree _ "GET"
           {| fs.Name := "out"; fs.IsDir := true; fs.Data := [] |}
           {| fs.Name := "index.html"; fs.IsDir := false;
              fs.Data := list_byte_of_string "<html>ok</html>" |}).
  - reflexivity.
  - discriminate.
  - vm_compute. reflexivity.
  - reflexivity.
  - vm_compute. reflexivity.
  - reflexivity.
Defined.

(** C6 as stated fails: with the entry document a literal file of the
    tree, the request for [/] and the request for [/index.html] get
    different status codes. *)
Lemma root_and_entry_document_counterexample :
  fs.Open (assetTree siteTree) "index.html"
  = inl {| fs.Name := "index.html"; fs.IsDir := false;
           fs.Data := list_byte_of_string "<html>ok</html>" |}
  /\ http.StatusCode
       (http.ServeHTTP (rootMux (staticHandler siteTree)) (GET "/"))
     = 200%Z
  /\ http.StatusCode
       (http.ServeHTTP (rootMux (staticHandler siteTree))
                       (GET "/index.html"))
     = 301%Z
  /\ http.ServeHTTP (rootMux (staticHandler siteTree)) (GET "/")
     <> http.ServeHTTP (rootMux (staticHandler siteTree))
                       (GET "/index.html")
  /\ startServer siteTree = inl (rootMux (staticHandler siteTree)).
Proof. repeat split; vm_compute; try reflexivity; discriminate. Qed.

(** ** Paths with a doubled leading slash *)

(** C10, as amended.  For a path that begins with two slashes
    [fileExists] is false, whatever the tree holds, and the function
    registered on [/] answers with the fallback.  Whether the multiplexer
    hands it the request depends on the method and on the escaped path of
    the URL.  A CONNECT request reaches the function.  Any other request
    reaches it when its escaped path is canonical, as it is when the
    second slash was written [%2F] in the target, and is answered by the
    multiplexer itself, with a redirect (301) to the cleaned escaped path,
    when its escaped path is not canonical, as it is not when the target
    was the path itself. *)
Theorem doubled_separator (frontendFS : embed.FS) (mux : http.ServeMux)
        (r : http.Request) (s : string) :
  startServer frontendFS = inl mux ->
  http.URL_Path r = String "/" (String "/" s) ->
  fileExists (assetTree frontendFS) (http.URL_Path r) = false
  /\ (forall f, fs.Open (assetTree frontendFS) "index.html" = inl f ->
                fs.IsDir f = false ->
                staticHandler frontendFS r
                = http.serveContent r (fs.Data f))
  /\ (forall escapedPath,
         (http.Method r = "CONNECT"
          /\ strings.HasPrefix escapedPath "/" = true)
         \/ (http.Method r <> "CONNECT"
             /\ http.cleanPath escapedPath = escapedPath) ->
         http.ServeEscaped mux escapedPath r = staticHandler frontendFS r)
  /\ (forall escapedPath,
         http.Method r <> "CONNECT" ->
         http.cleanPath escapedPath <> escapedPath ->
         http.ServeEscaped mux escapedPath r
         = http.RedirectHandler
             (url.pathString (http.cleanPath escapedPath)) 301 r
         /\ http.StatusCode (http.ServeEscaped mux escapedPath r) = 301%Z)
  /\ http.cleanPath (url.EscapedPath (http.URL_Path r) "")
     <> url.EscapedPath (http.URL_Path r) ""
  /\ (http.Method r = "CONNECT" ->
      http.ServeHTTP mux r = staticHandler frontendFS r)
  /\ (http.Method r <> "CONNECT" ->
      http.ServeHTTP mux r
      = http.RedirectHandler
          (url.pathString
             (http.cleanPath (url.EscapedPath (http.URL_Path r) ""))) 301 r
      /\ http.StatusCode (http.ServeHTTP mux r) = 301%Z).
Proof.
  intros Hmux Hp.
  rewrite startServer_ok in Hmux. injection Hmux as <-.
  assert (Hs : http.URL_Path r <> "*") by (rewrite Hp; discriminate).
  assert (E : fileExists (assetTree frontendFS) (http.URL_Path r) = false).
  { rewrite fileExists_other by (rewrite Hp; discriminate).
    rewrite Hp, TrimPrefix_slash.
    now rewrite assetTree_Open_invalid by apply ValidPath_leading_slash. }
  assert (Hn : http.cleanPath (url.EscapedPath (http.URL_Path r) "")
               <> url.EscapedPath (http.URL_Path r) "").
  { rewrite EscapedPath_plain by assumption.
    rewrite Hp, !escape_cons_slash. apply doubled_slash_not_canonical. }
  split; [exact E|]. split; [|split; [|split; [|split; [exact Hn|split]]]].
  - intros f Hf Hff. unfold staticHandler.
    now apply rootHandler_fallback.
  - intros escapedPath [[Hm He]|[Hm He]].
    + now apply escaped_connect.
    + now apply escaped_canonical.
  - intros escapedPath Hm He.
    rewrite escaped_redirect by assumption. split; reflexivity.
  - intros Hm. apply dispatch_connect; [exact Hm|]. now rewrite Hp.
  - intros Hm. unfold http.ServeHTTP.
    rewrite escaped_redirect by assumption. split; reflexivity.
Qed.

(** The style sheet of the tree asked for with a doubled slash: the
    target [/%2Fstyle.css] is given the entry document, the target
    [//style.css] a redirect. *)
Lemma doubled_separator_witness :
  fileExists (assetTree siteTree) "//style.css" = false
  /\ url.setPath "/%2Fstyle.css" = Some ("//style.css", "/%2Fstyle.css")
  /\ http.ServeEscaped (rootMux (staticHandler siteTree))
                       (url.EscapedPath "//style.css" "/%2Fstyle.css")
                       (GET "//style.css")
     = ok "<html>ok</html>"
  /\ http.ServeHTTP (rootMux (staticHandler siteTree)) (CONNECT "//style.css")
     = ok "<html>ok</html>"
  /\ http.ServeHTTP (rootMux (staticHandler siteTree)) (GET "//style.css")
     = {| http.StatusCode := 301; http.Location := Some "/style.css";
          http.Body := http.RedirectNote |}.
Proof.
  pose (index := {| fs.Name := "index.html"; fs.IsDir := false;
                    fs.Data := list_byte_of_string "<html>ok</html>" |}).
  pose proof (doubled_separator siteTree (rootMux (staticHandler siteTree))
                (GET "//style.css") "style.css"
                eq_refl eq_refl) as (E & F & H & _ & _ & _ & G).
  pose proof (doubled_separator siteTree (rootMux (staticHandler siteTree))
                (CONNECT "//style.css")
                "style.css" eq_refl eq_refl) as (_ & F' & _ & _ & _ & C & _).
  split; [exact E|]. split; [reflexivity|]. split; [|split].
  - change (url.EscapedPath "//style.css" "/%2Fstyle.css")
      with "/%2Fstyle.css".
    rewrite (H "/%2Fstyle.css").
    + exact (F index eq_refl eq_refl).
    + right. split; [discriminate|reflexivity].
  - rewrite (C eq_refl). exact (F' index eq_refl eq_refl).
  - destruct G as [G _]; [discriminate|]. exact G.
Defined.

(** C10 as stated fails: the request for [//style.css] is not served the
    fallback document; the multiplexer redirects it to [/style.css]. *)
Lemma doubled_separator_counterexample :
  fs.Open (assetTree siteTree) "style.css"
  = inl {| fs.Name := "style.css"; fs.IsDir := false;
           fs.Data := list_byte_of_string "body{}" |}
  /\ url.setPath "//style.css" = Some ("//style.css", "")
  /\ http.ServeHTTP (rootMux (staticHandler siteTree)) (GET "//style.css")
     = {| http.StatusCode := 301; http.Location := Some "/style.css";
          http.Body := http.RedirectNote |}
  /\ http.ServeHTTP (rootMux (staticHandler siteTree)) (GET "//style.css")
     <> ok "<html>ok</html>"
  /\ startServer siteTree = inl (rootMux (staticHandler siteTree)).
Proof. repeat split; vm_compute; try reflexivity; discriminate. Qed.

(* ================================================================== *)
(** ** Runs of the entrypoint *)

Lemma run_spawn_failure (w : World) (err : string) :
  startErr w = Some err ->
  run w = ({| trace := [ Log "Starting backend process...";
                         Log ("Failed to start backend: " ++ err);
                         ExitProcess 1 ];
              backend := None |}, Exited 1).
Proof. destruct w; cbn [startErr]; intros ->. reflexivity. Qed.

Lemma run_listen_failure (w : World) (err : string) :
  startErr w = None -> listenErr w = Some err ->
  run w = ({| trace := (startup w
                        ++ [ Log ("HTTP server failed: " ++ err);
                             ExitProcess 1 ])%list;
              backend := Some Running |}, Exited 1).
Proof.
  destruct w; cbn [startErr listenErr]; intros -> ->. reflexivity.
Qed.

Lemma run_no_signal (w : World) :
  startErr w = None -> listenErr w = None -> signalArrives w = false ->
  run w = ({| trace := startup w;
              backend := Some (if backendExits w then Finished
                               else Running) |}, Blocked).
Proof.
  destruct w as [? ? ? ? be ? ? ?];
    cbn [startErr listenErr signalArrives backendExits];
    intros -> -> ->. destruct be; reflexivity.
Qed.

Lemma run_drain_failure (w : World) (err : string) :
  startErr w = None -> listenErr w = None -> signalArrives w = true ->
  shutdownErr w = Some err ->
  run w = ({| trace := (startup w
                        ++ [ Signal; Log "Shutting down HTTP server...";
                             Shutdown;
                             Log ("HTTP server graceful shutdown failed: "
                                  ++ err);
                             ExitProcess 1 ])%list;
              backend := Some (if backendExits w then Finished
                               else Running) |}, Exited 1).
Proof.
  destruct w as [? ? ? ? be ? ? ?];
    cbn [startErr listenErr signalArrives shutdownErr backendExits];
    intros -> -> -> ->. destruct be; reflexivity.
Qed.

Lemma run_graceful (w : World) :
  startErr w = None -> listenErr w = None -> signalArrives w = true ->
  shutdownErr w = None ->
  run w = ({| trace := (startup w
                        ++ [ Signal; Log "Shutting down HTTP server...";
                             Shutdown; Log "HTTP server stopped.";
                             KillProcess; ExitProcess 0 ])%list;
              backend := Some Finished |}, Exited 0).
Proof.
  destruct w as [? ? ? ? be ? ? ?];
    cbn [startErr listenErr signalArrives shutdownErr backendExits];
    intros -> -> -> ->. destruct be; reflexivity.
Qed.

Lemma run_kind (w : World) : RunKind w.
Proof.
  destruct (startErr w) as [e|] eqn:E1; [exact (SpawnFailure w e E1)|].
  destruct (listenErr w) as [e|] eqn:E2;
    [exact (ListenFailure w e E1 E2)|].
  destruct (signalArrives w) eqn:E3; [|exact (NoSignal w E1 E2 E3)].
  destruct (shutdownErr w) as [e|] eqn:E4;
    [exact (DrainFailure w e E1 E2 E3 E4)|].
  exact (Graceful w E1 E2 E3 E4).
Qed.

(** Rewrites [run w] by the equation of its kind. *)
Ltac run_cases w :=
  destruct (run_kind w) as [e H1|e H1 H2|H1 H2 H3|e H1 H2 H3 H4|H1 H2 H3 H4];
  [ rewrite (run_spawn_failure w e H1)
  | rewrite (run_listen_failure w e H1 H2)
  | rewrite (run_no_signal w H1 H2 H3)
  | rewrite (run_drain_failure w e H1 H2 H3 H4)
  | rewrite (run_graceful w H1 H2 H3 H4) ].

(** The backend is asked to terminate in the runs in which [main]
    returns, and in no other. *)
Lemma kill_iff_main_returns (w : World) :
  In KillProcess (trace (fst (run w))) <-> snd (run w) = Exited 0.
Proof.
  run_cases w; cbn [fst snd trace startup app In]; split; intros H;
    try discriminate; try reflexivity;
    repeat (destruct H as [H|H]; try discriminate H); try tauto.
Qed.

(** ** Termination of the backend *)

(** C3: the code does not do what the claim says.  When the listener
    cannot bind, the process exits with status 1 by [log.Fatalf]: the
    backend was spawned, the deferred function did not run, no
    termination was requested and the backend is left running. *)
Theorem fatal_exit_skips_backend_kill :
  snd (run portTakenWorld) = Exited 1
  /\ In (StartProcess "./test") (trace (fst (run portTakenWorld)))
  /\ ~ In KillProcess (trace (fst (run portTakenWorld)))
  /\ backend (fst (run portTakenWorld)) = Some Running.
Proof.
  repeat split; try reflexivity.
  - vm_compute. tauto.
  - rewrite kill_iff_main_returns. discriminate.
Qed.

(** The same on the other fatal exit after the spawn, the failed drain. *)
Lemma failed_drain_skips_backend_kill :
  snd (run slowDrainWorld) = Exited 1
  /\ ~ In KillProcess (trace (fst (run slowDrainWorld)))
  /\ backend (fst (run slowDrainWorld)) = Some Running.
Proof.
  repeat split; try reflexivity.
  rewrite kill_iff_main_returns. discriminate.
Qed.

(** C4, as amended.  In a run that reaches the shutdown, a failed drain
    is logged and is fatal: the log line of the failure is the last one
    and the process exits with status 1 right after it.  After a drain
    without error the backend is asked to terminate, the result of that
    request is dropped without a log line, whether the backend had
    already ended or not, and the process exits with status 0. *)
Theorem shutdown_errors (w : World) :
  startErr w = None -> listenErr w = None -> signalArrives w = true ->
  (forall err, shutdownErr w = Some err ->
     snd (run w) = Exited 1
     /\ exists before,
          trace (fst (run w))
          = (before
             ++ [ Shutdown;
                  Log ("HTTP server graceful shutdown failed: " ++ err);
                  ExitProcess 1 ])%list)
  /\ (shutdownErr w = None ->
      snd (run w) = Exited 0
      /\ trace (fst (run w))
         = (startup w
            ++ [ Signal; Log "Shutting down HTTP server..."; Shutdown;
                 Log "HTTP server stopped."; KillProcess;
                 ExitProcess 0 ])%list).
Proof.
  intros H1 H2 H3. split.
  - intros err H4. rewrite (run_drain_failure w err H1 H2 H3 H4).
    split; [reflexivity|].
    exists (startup w ++ [Signal; Log "Shutting down HTTP server..."])%list.
    cbn [fst trace]. now rewrite <- app_assoc.
  - intros H4. now rewrite (run_graceful w H1 H2 H3 H4).
Qed.

Lemma shutdown_errors_witness :
  snd (run slowDrainWorld) = Exited 1
  /\ snd (run backendGoneWorld) = Exited 0.
Proof.
  split.
  - exact (proj1 (proj1 (shutdown_errors slowDrainWorld
                           eq_refl eq_refl eq_refl)
                        "context deadline exceeded" eq_refl)).
  - exact (proj1 (proj2 (shutdown_errors backendGoneWorld
                           eq_refl eq_refl eq_refl)
                        eq_refl)).
Defined.

(** C4 as stated fails: a drain that outlasts its bound is fatal.  The
    run ends with status 1 at the log line of the failure, before the
    line that reports the server stopped. *)
Lemma shutdown_errors_counterexample :
  shutdownErr slowDrainWorld = Some "context deadline exceeded"
  /\ snd (run slowDrainWorld) = Exited 1
  /\ snd (run slowDrainWorld) <> Exited 0
  /\ In (Log "HTTP server graceful shutdown failed: context deadline exceeded")
        (trace (fst (run slowDrainWorld)))
  /\ ~ In (Log "HTTP server stopped.") (trace (fst (run slowDrainWorld))).
Proof.
  repeat split; try reflexivity; try discriminate.
  - vm_compute. tauto.
  - vm_compute. intros H.
    repeat (destruct H as [H|H]; [discriminate H|]). exact H.
Qed.

(** C7.  The function [main] defers always returns: it hands no error to
    its caller and does not wait.  On a backend that has already ended,
    by itself or by an earlier termination, it leaves the state of the
    backend as it is; so a second call changes nothing. *)
Theorem terminate_is_idempotent (backendCmd : option exec.Cmd) (s : State) :
  (exists s1, deferredKill backendCmd s = (s1, Returned tt)
     /\ exists s2, deferredKill backendCmd s1 = (s2, Returned tt)
          /\ backend s2 = backend s1)
  /\ (backend s = Some Finished ->
      exists s1, deferredKill backendCmd s = (s1, Returned tt)
                 /\ backend s1 = Some Finished).
Proof.
  destruct backendCmd as [[p [proc|]]|]; cbn [deferredKill exec.Process].
  - unfold bind, os.Kill, ret. destruct s as [t [[|]|]]; cbn [backend trace];
      split; try discriminate;
      repeat (eexists; split; [reflexivity|]); try reflexivity;
      intros _; eexists; split; reflexivity.
  - unfold ret. split; [|intros H];
      repeat (eexists; split; [reflexivity|]); try reflexivity; exact H.
  - unfold ret. split; [|intros H];
      repeat (eexists; split; [reflexivity|]); try reflexivity; exact H.
Qed.

Lemma terminate_is_idempotent_witness :
  exists s1,
    deferredKill (Some {| exec.Path := "./test";
                          exec.Process := Some {| os.Pid := 1 |} |})
                 {| trace := []; backend := Some Finished |}
    = (s1, Returned tt)
    /\ backend s1 = Some Finished.
Proof.
  apply (proj2 (terminate_is_idempotent
                  (Some {| exec.Path := "./test";
                           exec.Process := Some {| os.Pid := 1 |} |})
                  {| trace := []; backend := Some Finished |})).
  reflexivity.
Defined.

(** ** Order of start-up *)

Lemma listenAfterStart_sound (t : list Event) :
  forall (started : bool) (pre post : list Event) (addr : string),
    listenAfterStart started t = true ->
    t = (pre ++ Listen addr :: post)%list ->
    started = true \/ exists name, In (StartProcess name) pre.
Proof.
  induction t as [|ev t IH]; intros started pre post addr H E.
  - destruct pre; discriminate.
  - destruct pre as [|ev' pre'].
    + cbn in E. injection E as -> ->. cbn in H.
      apply andb_true_iff in H as [H _]. now left.
    + cbn in E. injection E as <- E.
      destruct ev;
        try (cbn in H;
             destruct (IH _ _ _ _ H E) as [Hs|[name Hn]];
             [now left|right; exists name; now right]).
      * cbn in H. right.
        destruct (IH _ _ _ _ H E) as [_|[name' Hn]];
          [exists name; now left|exists name'; now right].
      * cbn in H. apply andb_true_iff in H as [Hs H]. now left.
Qed.

Lemma run_listenAfterStart (w : World) :
  listenAfterStart false (trace (fst (run w))) = true.
Proof. run_cases w; reflexivity. Qed.

(** C8.  In every run, whatever precedes the moment the listener starts
    contains the spawn of the backend. *)
Theorem backend_starts_before_listener (w : World)
        (pre post : list Event) (addr : string) :
  trace (fst (run w)) = (pre ++ Listen addr :: post)%list ->
  exists name, In (StartProcess name) pre.
Proof.
  intros E.
  destruct (listenAfterStart_sound _ false pre post addr
              (run_listenAfterStart w) E) as [H|H];
    [discriminate|exact H].
Qed.

Lemma backend_starts_before_listener_witness :
  exists name,
    In (StartProcess name)
       [ Log "Starting backend process..."; StartProcess "./test";
         Log "Frontend server is set up to serve all files in the embedded folder." ].
Proof.
  apply (backend_starts_before_listener calmWorld _
           [ Log "HTTP server is running on :8080"; Signal;
             Log "Shutting down HTTP server..."; Shutdown;
             Log "HTTP server stopped."; KillProcess; ExitProcess 0 ]
           ":8080").
  reflexivity.
Defined.

(** ** The listen port *)

Lemma Getenv_absent (env : list (string * string)) (key : string) :
  os.LookupEnv env key = None -> os.Getenv env key = "".
Proof.
  unfold os.LookupEnv, os.Getenv.
  destruct (find _ env); [discriminate|reflexivity].
Qed.

Lemma Getenv_present (env : list (string * string)) (key v : string) :
  os.LookupEnv env key = Some v -> os.Getenv env key = v.
Proof.
  unfold os.LookupEnv, os.Getenv.
  destruct (find _ env); cbn; congruence.
Qed.

Lemma run_listens (w : World) :
  (startErr w = None -> In (Listen (listenAddr w)) (trace (fst (run w))))
  /\ forall addr, In (Listen addr) (trace (fst (run w))) ->
                  addr = listenAddr w.
Proof.
  run_cases w; cbn [fst trace startup app In];
    (split; [try congruence; tauto|]);
    intros addr H;
    repeat (destruct H as [H|H]; [try discriminate H; congruence|]);
    destruct H.
Qed.

(** C9.  Whenever the server listens it does so on one address: port
    8080 when the variable PORT is absent from the environment, and the
    port PORT names when it names one; and it does listen in every run in
    which the backend was spawned. *)
Theorem listen_port_from_environment (w : World) :
  (os.LookupEnv (environ w) "PORT" = None ->
   (forall addr, In (Listen addr) (trace (fst (run w))) -> addr = ":8080")
   /\ (startErr w = None -> In (Listen ":8080") (trace (fst (run w)))))
  /\ (forall port, os.LookupEnv (environ w) "PORT" = Some port ->
      port <> "" ->
      (forall addr, In (Listen addr) (trace (fst (run w))) ->
                    addr = ":" ++ port)
      /\ (startErr w = None ->
          In (Listen (":" ++ port)) (trace (fst (run w))))).
Proof.
  pose proof (run_listens w) as [H1 H2].
  unfold listenAddr in H1, H2. split.
  - intros Ha. rewrite (Getenv_absent _ _ Ha) in H1, H2. now split.
  - intros port Hp Hne. rewrite (Getenv_present _ _ _ Hp) in H1, H2.
    rewrite (eqb_neq_false _ _ Hne) in H1, H2. now split.
Qed.

Lemma listen_port_from_environment_witness :
  In (Listen ":8080") (trace (fst (run calmWorld)))
  /\ In (Listen ":3000") (trace (fst (run backendGoneWorld))).
Proof.
  split.
  - apply (proj2 (proj1 (listen_port_from_environment calmWorld) eq_refl)).
    reflexivity.
  - apply (proj2 (proj2 (listen_port_from_environment backendGoneWorld)
                        "3000" eq_refl
                        (fun H : "3000" = "" =>
                           eq_ind "3000"
                                  (fun s => match s with
                                            | EmptyString => False
                                            | String _ _ => True
                                            end) I "" H))).
    reflexivity.
Defined.

(* ================================================================== *)
(** * Further properties of the static server *)

(** ** What the multiplexer and the registered function can answer *)

Lemma rootMux_handler_cases (hnd : http.Handler) (p : string) :
  http.handler (rootMux hnd) p
  = if strings.HasPrefix p "/" then hnd else http.NotFound.
Proof.
  destruct p as [|c q]; [reflexivity|].
  destruct (Ascii.eqb_spec c "/") as [->|Hc].
  - now rewrite rootMux_handler.
  - unfold strings.HasPrefix.
    change (strings.CutPrefix (String c q) "/")
      with (if Ascii.eqb "/" c then Some q else None).
    assert (E : Ascii.eqb "/" c = false)
      by (apply Ascii.eqb_neq; congruence).
    rewrite E.
    unfold http.handler, http.match_, rootMux, http.HandleFunc,
      http.NewServeMux.
    cbn [app find fold_left http.pattern].
    assert (E1 : ("/" =? String c q) = false).
    { apply String.eqb_neq. congruence. }
    rewrite E1. unfold strings.HasPrefix.
    change (strings.CutPrefix (String c q) "/")
      with (if Ascii.eqb "/" c then Some q else None).
    rewrite E. rewrite andb_false_r. reflexivity.
Qed.

(** The four ways the multiplexer answers. *)
Lemma escaped_cases (hnd : http.Handler) (e : string) (r : http.Request) :
  (strings.HasPrefix e "/" = true
   /\ http.ServeEscaped (rootMux hnd) e r = hnd r)
  \/ (http.URL_Path r = "*"
      /\ http.ServeEscaped (rootMux hnd) e r
         = {| http.StatusCode := 400; http.Location := None;
              http.Body := http.NoBody |})
  \/ (exists u,
         http.ServeEscaped (rootMux hnd) e r = http.RedirectHandler u 301 r)
  \/ (http.Method r = "CONNECT"
      /\ strings.HasPrefix e "/" = false
      /\ http.ServeEscaped (rootMux hnd) e r = http.NotFound r).
Proof.
  destruct (string_dec (http.URL_Path r) "*") as [Hs|Hs].
  { right; left. split; [exact Hs|].
    unfold http.ServeEscaped. now rewrite Hs. }
  destruct (string_dec (http.Method r) "CONNECT") as [Hc|Hc].
  - unfold http.ServeEscaped.
    rewrite (eqb_neq_false _ _ Hs), Hc, rootMux_shouldRedirect.
    rewrite rootMux_handler_cases.
    change ("CONNECT" =? "CONNECT") with true. cbv iota.
    destruct (e =? ""); [right; right; left; eexists; reflexivity|].
    destruct (strings.HasPrefix e "/") eqn:E.
    + left. now split.
    + right; right; right. now repeat split.
  - destruct (string_dec (http.cleanPath e) e) as [Hcan|Hcan].
    + left. split; [now apply canonical_HasPrefix|].
      now apply escaped_canonical.
    + right; right; left. eexists. now apply escaped_redirect.
Qed.

Lemma mux_cases (hnd : http.Handler) (r : http.Request) :
  (strings.HasPrefix (http.URL_Path r) "/" = true
   /\ http.ServeHTTP (rootMux hnd) r = hnd r)
  \/ (http.URL_Path r = "*"
      /\ http.ServeHTTP (rootMux hnd) r
         = {| http.StatusCode := 400; http.Location := None;
              http.Body := http.NoBody |})
  \/ (exists u,
         http.ServeHTTP (rootMux hnd) r = http.RedirectHandler u 301 r)
  \/ (http.Method r = "CONNECT"
      /\ strings.HasPrefix (http.URL_Path r) "/" = false
      /\ http.ServeHTTP (rootMux hnd) r = http.NotFound r).
Proof.
  unfold http.ServeHTTP.
  destruct (escaped_cases hnd (url.EscapedPath (http.URL_Path r) "") r)
    as [[Hp H]|[[Hs H]|[H|(Hm & Hp & H)]]].
  - destruct (string_dec (http.URL_Path r) "*") as [Hs|Hs].
    + rewrite Hs in Hp. discriminate.
    + rewrite EscapedPath_plain, HasPrefix_slash_escape in Hp
        by assumption.
      left. now split.
  - right; left. now split.
  - right; right; left. exact H.
  - destruct (string_dec (http.URL_Path r) "*") as [Hs|Hs].
    + right; left. split; [exact Hs|].
      unfold http.ServeEscaped. now rewrite Hs.
    + rewrite EscapedPath_plain, HasPrefix_slash_escape in Hp
        by assumption.
      right; right; right. now repeat split.
Qed.

(** The file server on the root. *)
Lemma FileServer_root_cases (fsys : fs.FS) (r : http.Request) :
  http.URL_Path r = "/" ->
  http.FileServer (http.FS fsys) r
  = match fs.Open fsys "." with
    | inr e =>
        let (msg, code) :=
          http.toHTTPError (http.mapOpenError fsys (fs.Err e) ".") in
        http.Error msg code
    | inl d =>
        if fs.IsDir d then
          match fs.Open fsys "index.html" with
          | inl dd => http.serveOpened r dd
          | inr _ => http.serveOpened r d
          end
        else http.Error "http: attempting to traverse a non-directory" 500
    end.
Proof.
  intros Hp. unfold http.FileServer. rewrite Hp.
  change (strings.HasPrefix "/" "/") with true. cbv iota.
  unfold http.serveFile. rewrite Hp.
  change (strings.HasSuffix "/" http.indexPage) with false. cbv iota.
  change (path.Clean "/") with "/".
  change (http.Open (http.FS fsys) "/")
    with (match fs.Open fsys "." with
          | inl file => inl file
          | inr e => inr (http.mapOpenError fsys (fs.Err e) ".")
          end).
  destruct (fs.Open fsys ".") as [d|e]; [|reflexivity].
  change (strings.endsWithSlash "/") with true.
  change ("/" =? "") with false.
  change (strings.TrimSuffix "/" "/" ++ http.indexPage) with "/index.html".
  rewrite http_FS_Open_slash by discriminate.
  destruct (fs.IsDir d); cbn [andb negb orb].
  - destruct (fs.Open fsys "index.html"); reflexivity.
  - reflexivity.
Qed.

(** Every answer of the function registered on [/], for a path that
    begins with a slash: the fallback in its three outcomes, the file
    server on a name that opens, the file server on the root. *)
Lemma staticHandler_cases (frontendFS : embed.FS) (r : http.Request)
      (q : string) :
  http.URL_Path r = String "/" q ->
  (fileExists (assetTree frontendFS) (http.URL_Path r) = false
   /\ ((exists e, fs.Open (assetTree frontendFS) "index.html" = inr e
        /\ staticHandler frontendFS r
           = http.Error "index.html not found" 404)
       \/ (exists f, fs.Open (assetTree frontendFS) "index.html" = inl f
           /\ fs.IsDir f = true
           /\ staticHandler frontendFS r
              = http.Error "failed to read index.html" 500)
       \/ (exists f, fs.Open (assetTree frontendFS) "index.html" = inl f
           /\ fs.IsDir f = false
           /\ staticHandler frontendFS r
              = http.serveContent r (fs.Data f))))
  \/ (q <> ""
      /\ exists d, fs.Open (assetTree frontendFS) q = inl d
         /\ staticHandler frontendFS r
            = if strings.HasSuffix (http.URL_Path r) http.indexPage
              then http.localRedirect "./"
              else if fs.IsDir d
                   then http.localRedirect
                          (path.Base (http.URL_Path r) ++ "/")
                   else http.serveContent r (fs.Data d))
  \/ (q = ""
      /\ exists f, fs.Open (assetTree frontendFS) "index.html" = inl f
         /\ staticHandler frontendFS r
            = match fs.Open (assetTree frontendFS) "." with
              | inr e =>
                  let (msg, code) :=
                    http.toHTTPError
                      (http.mapOpenError (assetTree frontendFS)
                                         (fs.Err e) ".") in
                  http.Error msg code
              | inl d =>
                  if fs.IsDir d then http.serveOpened r f
                  else http.Error
                         "http: attempting to traverse a non-directory" 500
              end).
Proof.
  intros Hp. unfold staticHandler, rootHandler.
  destruct (fileExists (assetTree frontendFS) (http.URL_Path r)) eqn:E.
  - right. destruct q as [|c q'].
    + right. split; [reflexivity|].
      rewrite Hp, fileExists_root in E.
      destruct (fs.Open (assetTree frontendFS) "index.html") as [f|e] eqn:Hf;
        [|discriminate].
      exists f. split; [reflexivity|].
      rewrite (FileServer_root_cases _ r Hp), Hf. reflexivity.
    + left. split; [discriminate|].
      rewrite fileExists_other in E by (rewrite Hp; discriminate).
      rewrite Hp, TrimPrefix_slash in E.
      destruct (fs.Open (assetTree frontendFS) (String c q')) as [d|e] eqn:Hd;
        [|discriminate].
      exists d. split; [reflexivity|].
      now apply FileServer_opened with (q := String c q').
  - left. split; [reflexivity|].
    destruct (fs.Open (assetTree frontendFS) "index.html") as [f|e] eqn:Hf.
    + unfold io.ReadAll. destruct (fs.IsDir f) eqn:Hd.
      * right; left. exists f. now repeat split.
      * right; right. exists f. now repeat split.
    + left. exists e. now split.
Qed.

(** ** What is served *)

Lemma serveContent_Bytes (r : http.Request) (data content : list byte) :
  http.Body (http.serveContent r data) = http.Bytes content ->
  http.Method r <> "HEAD" /\ data = content.
Proof.
  unfold http.serveContent. cbn [http.Body].
  destruct (http.Method r =? "HEAD") eqn:E; [discriminate|].
  intros H. injection H as <-. split; [|reflexivity].
  now apply String.eqb_neq.
Qed.

(** The content of an answer, traced to the file it was read from. *)
Lemma bytes_of_response (frontendFS : embed.FS) (r : http.Request)
      (content : list byte) :
  http.Body (http.ServeHTTP (rootMux (staticHandler frontendFS)) r)
  = http.Bytes content ->
  http.Method r <> "HEAD"
  /\ ((exists f, fs.Open (assetTree frontendFS) "index.html" = inl f
                 /\ fs.IsDir f = false /\ fs.Data f = content)
      \/ (exists f,
             fs.Open (assetTree frontendFS)
                     (strings.TrimPrefix (http.URL_Path r) "/") = inl f
             /\ fs.IsDir f = false /\ fs.Data f = content
             /\ strings.HasSuffix (http.URL_Path r) "/index.html" = false)).
Proof.
  destruct (mux_cases (staticHandler frontendFS) r)
    as [[Hp ->]|[[_ ->]|[[u ->]|(_ & _ & ->)]]];
    try (cbn; discriminate);
    [|cbn; destruct (http.Method r =? "GET"); discriminate].
  destruct (HasPrefix_slash_inv _ Hp) as [q Hq].
  destruct (staticHandler_cases frontendFS r q Hq)
    as [[_ [(e & _ & ->)|[(f & _ & _ & ->)|(f & Hf & Hd & ->)]]]
       |[(Hne & d & Hd & ->)|(-> & f & Hf & ->)]];
    try (cbn; discriminate).
  - intros H. apply serveContent_Bytes in H as [Hm <-].
    split; [exact Hm|]. left. now exists f.
  - destruct (strings.HasSuffix (http.URL_Path r) http.indexPage) eqn:Hs;
      [cbn; discriminate|].
    destruct (fs.IsDir d) eqn:E; [cbn; discriminate|].
    intros H. apply serveContent_Bytes in H as [Hm <-].
    split; [exact Hm|]. right. exists d.
    rewrite Hq, TrimPrefix_slash. rewrite Hq in Hs. now repeat split.
  - destruct (fs.Open (assetTree frontendFS) ".") as [d|e].
    + destruct (fs.IsDir d); [|cbn; discriminate].
      unfold http.serveOpened.
      destruct (fs.IsDir f) eqn:E; [cbn; discriminate|].
      intros H. apply serveContent_Bytes in H as [Hm <-].
      split; [exact Hm|]. left. now exists f.
    + destruct (http.toHTTPError _). cbn. discriminate.
Qed.

(** X1.  Whatever bytes the server sends as content are the bytes of a
    regular file of the asset tree: of the entry document, or of the
    file the path names once its leading slash is taken off, and then the
    path does not end in [/index.html].  No other file is ever sent, and
    a HEAD request is sent none. *)
Theorem served_bytes_are_tree_files (frontendFS : embed.FS)
        (mux : http.ServeMux) (r : http.Request) (content : list byte) :
  startServer frontendFS = inl mux ->
  http.Body (http.ServeHTTP mux r) = http.Bytes content ->
  http.Method r <> "HEAD"
  /\ ((exists f, fs.Open (assetTree frontendFS) "index.html" = inl f
                 /\ fs.IsDir f = false /\ fs.Data f = content)
      \/ (exists f,
             fs.Open (assetTree frontendFS)
                     (strings.TrimPrefix (http.URL_Path r) "/") = inl f
             /\ fs.IsDir f = false /\ fs.Data f = content
             /\ strings.HasSuffix (http.URL_Path r) "/index.html" = false)).
Proof.
  intros Hmux. rewrite startServer_ok in Hmux. injection Hmux as <-.
  apply bytes_of_response.
Qed.

Lemma served_bytes_are_tree_files_witness :
  http.Method (GET "/style.css") <> "HEAD"
  /\ ((exists f, fs.Open (assetTree siteTree) "index.html" = inl f
                 /\ fs.IsDir f = false
                 /\ fs.Data f = list_byte_of_string "body{}")
      \/ (exists f,
             fs.Open (assetTree siteTree)
                     (strings.TrimPrefix
                        (http.URL_Path (GET "/style.css")) "/") = inl f
             /\ fs.IsDir f = false
             /\ fs.Data f = list_byte_of_string "body{}"
             /\ strings.HasSuffix (http.URL_Path (GET "/style.css"))
                                  "/index.html" = false)).
Proof.
  apply (served_bytes_are_tree_files siteTree
           (rootMux (staticHandler siteTree)) (GET "/style.css")).
  - reflexivity.
  - vm_compute. reflexivity.
Defined.

(** X2.  Unless [index.html] at the root of the asset tree is itself a
    directory, the server never sends a directory listing. *)
Theorem never_lists_a_directory (frontendFS : embed.FS)
        (mux : http.ServeMux) (r : http.Request) (dir : string) :
  startServer frontendFS = inl mux ->
  (forall d, fs.Open (assetTree frontendFS) "index.html" = inl d ->
             fs.IsDir d = false) ->
  http.Body (http.ServeHTTP mux r) <> http.DirListing dir.
Proof.
  intros Hmux Hidx. rewrite startServer_ok in Hmux. injection Hmux as <-.
  destruct (mux_cases (staticHandler frontendFS) r)
    as [[Hp ->]|[[_ ->]|[[u ->]|(_ & _ & ->)]]];
    try (cbn; discriminate);
    [|cbn; destruct (http.Method r =? "GET"); discriminate].
  destruct (HasPrefix_slash_inv _ Hp) as [q Hq].
  destruct (staticHandler_cases frontendFS r q Hq)
    as [[_ [(e & _ & ->)|[(f & _ & _ & ->)|(f & Hf & Hd & ->)]]]
       |[(Hne & d & Hd & ->)|(-> & f & Hf & ->)]];
    try (cbn; discriminate).
  - cbn. destruct (http.Method r =? "HEAD"); discriminate.
  - destruct (strings.HasSuffix (http.URL_Path r) http.indexPage);
      [cbn; discriminate|].
    destruct (fs.IsDir d); [cbn; discriminate|].
    cbn. destruct (http.Method r =? "HEAD"); discriminate.
  - destruct (fs.Open (assetTree frontendFS) ".") as [d|e].
    + destruct (fs.IsDir d); [|cbn; discriminate].
      unfold http.serveOpened. rewrite (Hidx f Hf).
      cbn. destruct (http.Method r =? "HEAD"); discriminate.
    + destruct (http.toHTTPError _). cbn. discriminate.
Qed.

Lemma never_lists_a_directory_witness :
  http.Body (http.ServeHTTP (rootMux (staticHandler siteTree))
                            (GET "/assets/"))
  <> http.DirListing "assets".
Proof.
  apply (never_lists_a_directory siteTree
           (rootMux (staticHandler siteTree)) (GET "/assets/") "assets").
  - reflexivity.
  - intros d H. vm_compute in H. injection H as <-. reflexivity.
Defined.

(** X3.  A path other than [/] that ends in a slash never opens in the
    asset tree.  So a request for it (canonical path, neither CONNECT nor
    HEAD) is answered with status 200 and the bytes of the entry document
    at the root, also when the path names a directory that holds an
    [index.html] of its own. *)
Theorem trailing_slash_gets_the_fallback (frontendFS : embed.FS)
        (mux : http.ServeMux) (r : http.Request) (f : fs.File) :
  startServer frontendFS = inl mux ->
  http.URL_Path r <> "/" ->
  strings.endsWithSlash (http.URL_Path r) = true ->
  fileExists (assetTree frontendFS) (http.URL_Path r) = false
  /\ (http.Method r <> "CONNECT" ->
      http.Method r <> "HEAD" ->
      http.cleanPath (http.URL_Path r) = http.URL_Path r ->
      fs.Open (assetTree frontendFS) "index.html" = inl f ->
      fs.IsDir f = false ->
      http.ServeHTTP mux r
      = {| http.StatusCode := 200; http.Location := None;
           http.Body := http.Bytes (fs.Data f) |}).
Proof.
  intros Hmux Hroot Hs.
  rewrite startServer_ok in Hmux. injection Hmux as <-.
  assert (E : fileExists (assetTree frontendFS) (http.URL_Path r) = false).
  { rewrite fileExists_other by assumption.
    destruct (fs.Open (assetTree frontendFS)
                      (strings.TrimPrefix (http.URL_Path r) "/"))
      as [d|e] eqn:Ho; [|reflexivity].
    apply assetTree_Open_valid in Ho.
    pose proof (ValidPath_no_trailing_slash _ Ho) as Hn.
    pose proof (ValidPath_not_empty _ Ho) as Hne.
    destruct (http.URL_Path r) as [|c p]; [discriminate|].
    unfold strings.TrimPrefix in Hn, Hne.
    change (strings.CutPrefix (String c p) "/")
      with (if Ascii.eqb "/" c then Some p else None) in Hn, Hne.
    destruct (Ascii.eqb "/" c).
    - rewrite endsWithSlash_cons in Hs by assumption. congruence.
    - congruence. }
  split; [exact E|].
  intros Hc Hh Hcan Hf Hd.
  rewrite dispatch_canonical by assumption.
  unfold staticHandler.
  rewrite rootHandler_fallback with (f := f) by assumption.
  unfold http.serveContent. now rewrite (eqb_neq_false _ _ Hh).
Qed.

Lemma trailing_slash_gets_the_fallback_witness :
  fileExists (assetTree docsTree) "/docs/" = false
  /\ http.ServeHTTP (rootMux (staticHandler docsTree)) (GET "/docs/")
     = ok "<html>ok</html>".
Proof.
  pose proof (trailing_slash_gets_the_fallback docsTree
                (rootMux (staticHandler docsTree)) (GET "/docs/")
                {| fs.Name := "index.html"; fs.IsDir := false;
                   fs.Data := list_byte_of_string "<html>ok</html>" |}
                eq_refl) as H.
  destruct H as [H1 H2]; [discriminate|reflexivity|].
  split; [exact H1|].
  apply H2; [discriminate|discriminate|reflexivity|reflexivity|reflexivity].
Defined.

(** X4.  When [index.html] at the root of the asset tree is a directory,
    a request (canonical path other than [/], not CONNECT) whose path
    does not open in the tree is answered with status 500 and the text
    that the entry document could not be read. *)
Theorem unreadable_entry_document (frontendFS : embed.FS)
        (mux : http.ServeMux) (r : http.Request) (d : fs.File)
        (e : fs.PathError) :
  startServer frontendFS = inl mux ->
  http.Method r <> "CONNECT" ->
  http.cleanPath (http.URL_Path r) = http.URL_Path r ->
  http.URL_Path r <> "/" ->
  fs.Open (assetTree frontendFS) (strings.TrimPrefix (http.URL_Path r) "/")
  = inr e ->
  fs.Open (assetTree frontendFS) "index.html" = inl d ->
  fs.IsDir d = true ->
  http.ServeHTTP mux r
  = {| http.StatusCode := 500; http.Location := None;
       http.Body := http.ErrorText "failed to read index.html" |}.
Proof.
  intros Hmux Hc Hcan Hroot Ho Hidx Hd.
  rewrite startServer_ok in Hmux. injection Hmux as <-.
  rewrite dispatch_canonical by assumption.
  unfold staticHandler, rootHandler, io.ReadAll.
  rewrite fileExists_other by assumption.
  now rewrite Ho, Hidx, Hd.
Qed.

Lemma unreadable_entry_document_witness :
  http.ServeHTTP (rootMux (staticHandler oddTree)) (GET "/dashboard")
  = {| http.StatusCode := 500; http.Location := None;
       http.Body := http.ErrorText "failed to read index.html" |}.
Proof.
  apply (unreadable_entry_document oddTree
           (rootMux (staticHandler oddTree)) (GET "/dashboard")
           {| fs.Name := "index.html"; fs.IsDir := true; fs.Data := [] |}
           {| fs.Op := "open"; fs.Path := "dashboard";
              fs.Err := fs.ErrNotExist |}).
  - reflexivity.
  - discriminate.
  - reflexivity.
  - discriminate.
  - vm_compute. reflexivity.
  - vm_compute. reflexivity.
  - reflexivity.
Defined.

(** ** The method does not change the status *)

Lemma serveFile_same_status (r1 r2 : http.Request) (fsys : http.FileSystem)
      (name : string) (redirect : bool) :
  http.URL_Path r1 = http.URL_Path r2 ->
  http.StatusCode (http.serveFile r1 fsys name redirect)
  = http.StatusCode (http.serveFile r2 fsys name redirect)
  /\ http.Location (http.serveFile r1 fsys name redirect)
     = http.Location (http.serveFile r2 fsys name redirect).
Proof.
  intros H. unfold http.serveFile, http.serveOpened. rewrite H.
  repeat match goal with
         | |- context [match ?x with _ => _ end] => destruct x
         end; split; reflexivity.
Qed.

Lemma staticHandler_same_status (frontendFS : embed.FS)
      (r1 r2 : http.Request) :
  http.URL_Path r1 = http.URL_Path r2 ->
  http.StatusCode (staticHandler frontendFS r1)
  = http.StatusCode (staticHandler frontendFS r2)
  /\ http.Location (staticHandler frontendFS r1)
     = http.Location (staticHandler frontendFS r2).
Proof.
  intros H. unfold staticHandler, rootHandler. rewrite H.
  destruct (fileExists (assetTree frontendFS) (http.URL_Path r2)).
  - unfold http.FileServer. rewrite H.
    destruct (strings.HasPrefix (http.URL_Path r2) "/").
    + rewrite H. now apply serveFile_same_status.
    + now apply serveFile_same_status.
  - destruct (fs.Open (assetTree frontendFS) "index.html") as [f|e];
      [|split; reflexivity].
    destruct (io.ReadAll f); split; reflexivity.
Qed.

(** The registered function sends a HEAD request no content. *)
Lemma staticHandler_HEAD (frontendFS : embed.FS) (r : http.Request)
      (content : list byte) :
  http.Method r = "HEAD" ->
  http.Body (staticHandler frontendFS r) <> http.Bytes content.
Proof.
  intros Hm.
  assert (Hc : forall r' data,
             http.Method r' = "HEAD" ->
             http.Body (http.serveContent r' data) <> http.Bytes content).
  { intros r' data H. unfold http.serveContent. cbn [http.Body].
    rewrite H. discriminate. }
  assert (Hf : forall r' fsys name redirect,
             http.Method r' = "HEAD" ->
             http.Body (http.serveFile r' fsys name redirect)
             <> http.Bytes content).
  { intros r' fsys name redirect H.
    unfold http.serveFile, http.serveOpened.
    repeat match goal with
           | |- context [match ?x with _ => _ end] => destruct x
           end;
      try (cbn; discriminate); now apply Hc. }
  unfold staticHandler, rootHandler, http.ServeContent.
  destruct (fileExists (assetTree frontendFS) (http.URL_Path r)).
  - unfold http.FileServer.
    destruct (strings.HasPrefix (http.URL_Path r) "/"); now apply Hf.
  - destruct (fs.Open (assetTree frontendFS) "index.html") as [f|e];
      [|cbn; discriminate].
    destruct (io.ReadAll f); [now apply Hc|cbn; discriminate].
Qed.

(** X5.  Two requests for the same target (the same path, under the same
    escaped path), neither of them CONNECT, get the same status code and
    the same [Location], whatever their methods; so a HEAD request is
    answered as the GET request for its target is, without the
    content. *)
Theorem method_does_not_change_status (frontendFS : embed.FS)
        (mux : http.ServeMux) (escapedPath : string)
        (r1 r2 : http.Request) :
  startServer frontendFS = inl mux ->
  http.URL_Path r1 = http.URL_Path r2 ->
  http.Method r1 <> "CONNECT" ->
  http.Method r2 <> "CONNECT" ->
  http.StatusCode (http.ServeEscaped mux escapedPath r1)
  = http.StatusCode (http.ServeEscaped mux escapedPath r2)
  /\ http.Location (http.ServeEscaped mux escapedPath r1)
     = http.Location (http.ServeEscaped mux escapedPath r2)
  /\ (http.Method r1 = "HEAD" ->
      forall content,
        http.Body (http.ServeEscaped mux escapedPath r1)
        <> http.Bytes content).
Proof.
  intros Hmux Hp H1 H2.
  rewrite startServer_ok in Hmux. injection Hmux as <-.
  assert (Hs : http.StatusCode
                 (http.ServeEscaped (rootMux (staticHandler frontendFS))
                                    escapedPath r1)
               = http.StatusCode
                   (http.ServeEscaped (rootMux (staticHandler frontendFS))
                                      escapedPath r2)
               /\ http.Location
                    (http.ServeEscaped (rootMux (staticHandler frontendFS))
                                       escapedPath r1)
                  = http.Location
                      (http.ServeEscaped
                         (rootMux (staticHandler frontendFS))
                         escapedPath r2)).
  { unfold http.ServeEscaped.
    rewrite Hp, (eqb_neq_false _ _ H1), (eqb_neq_false _ _ H2).
    rewrite !rootMux_shouldRedirect, rootMux_handler_cases.
    destruct (http.URL_Path r2 =? "*"); [split; reflexivity|].
    destruct (http.cleanPath escapedPath =? ""); [split; reflexivity|].
    destruct (negb (http.cleanPath escapedPath =? escapedPath));
      [split; reflexivity|].
    destruct (strings.HasPrefix (http.cleanPath escapedPath) "/");
      [|split; reflexivity].
    now apply staticHandler_same_status. }
  destruct Hs as [Hs Hl]. split; [exact Hs|]. split; [exact Hl|].
  intros Hh content.
  destruct (escaped_cases (staticHandler frontendFS) escapedPath r1)
    as [[_ ->]|[[_ ->]|[[u ->]|(_ & _ & ->)]]].
  - now apply staticHandler_HEAD.
  - cbn. discriminate.
  - unfold http.RedirectHandler. cbn [http.Body]. rewrite Hh. discriminate.
  - cbn. discriminate.
Qed.

(** A HEAD and a GET request for the style sheet, and for the target
    [/%2Fstyle.css]. *)
Lemma method_does_not_change_status_witness :
  http.StatusCode
    (http.ServeHTTP (rootMux (staticHandler siteTree)) (HEAD "/style.css"))
  = http.StatusCode
      (http.ServeHTTP (rootMux (staticHandler siteTree)) (GET "/style.css"))
  /\ http.Body
       (http.ServeHTTP (rootMux (staticHandler siteTree))
                       (HEAD "/style.css"))
     <> http.Bytes (list_byte_of_string "body{}")
  /\ http.StatusCode
       (http.ServeEscaped (rootMux (staticHandler siteTree))
                          "/%2Fstyle.css" (HEAD "//style.css"))
     = http.StatusCode
         (http.ServeEscaped (rootMux (staticHandler siteTree))
                            "/%2Fstyle.css" (GET "//style.css")).
Proof.
  pose proof (method_does_not_change_status siteTree
                (rootMux (staticHandler siteTree)) "/style.css"
                (HEAD "/style.css") (GET "/style.css") eq_refl eq_refl)
    as H.
  destruct H as (H1 & _ & H3); [discriminate|discriminate|].
  split; [exact H1|]. split; [apply H3; reflexivity|].
  apply (method_does_not_change_status siteTree
           (rootMux (staticHandler siteTree)) "/%2Fstyle.css"
           (HEAD "//style.css") (GET "//style.css") eq_refl eq_refl);
    discriminate.
Defined.

(** X6.  On a tree whose root opens as a directory and holds the entry
    document as a regular file, a request other than CONNECT is never
    answered with a 404 or a 5xx status: the status is 200, or 301, or
    400 for the request target [*]. *)
Theorem no_error_status_with_entry_document (frontendFS : embed.FS)
        (mux : http.ServeMux) (r : http.Request) (d f : fs.File) :
  startServer frontendFS = inl mux ->
  http.Method r <> "CONNECT" ->
  fs.Open (assetTree frontendFS) "." = inl d -> fs.IsDir d = true ->
  fs.Open (assetTree frontendFS) "index.html" = inl f ->
  fs.IsDir f = false ->
  http.StatusCode (http.ServeHTTP mux r) = 200%Z
  \/ http.StatusCode (http.ServeHTTP mux r) = 301%Z
  \/ (http.StatusCode (http.ServeHTTP mux r) = 400%Z
      /\ http.URL_Path r = "*").
Proof.
  intros Hmux Hc Hd Hdd Hf Hff.
  rewrite startServer_ok in Hmux. injection Hmux as <-.
  destruct (mux_cases (staticHandler frontendFS) r)
    as [[Hp ->]|[[Hs ->]|[[u ->]|(Hm & _)]]].
  - destruct (HasPrefix_slash_inv _ Hp) as [q Hq].
    destruct (staticHandler_cases frontendFS r q Hq)
      as [[_ [(e & He & _)|[(f' & Hf' & Hd' & _)|(f' & _ & _ & ->)]]]
         |[(_ & d' & _ & ->)|(_ & f' & Hf' & ->)]].
    + congruence.
    + congruence.
    + now left.
    + destruct (strings.HasSuffix _ _); [now right; left|].
      destruct (fs.IsDir d'); [now right; left|now left].
    + rewrite Hd, Hdd. unfold http.serveOpened.
      assert (f' = f) by congruence. subst f'. rewrite Hff. now left.
  - right; right. now split.
  - right; left. reflexivity.
  - contradiction.
Qed.

Lemma no_error_status_with_entry_document_witness :
  http.StatusCode
    (http.ServeHTTP (rootMux (staticHandler siteTree)) (GET "/no/such/file"))
  = 200%Z
  \/ http.StatusCode
       (http.ServeHTTP (rootMux (staticHandler siteTree))
                       (GET "/no/such/file"))
     = 301%Z
  \/ (http.StatusCode
        (http.ServeHTTP (rootMux (staticHandler siteTree))
                        (GET "/no/such/file"))
      = 400%Z
      /\ http.URL_Path (GET "/no/such/file") = "*").
Proof.
  apply (no_error_status_with_entry_document siteTree
           (rootMux (staticHandler siteTree)) (GET "/no/such/file")
           {| fs.Name := "out"; fs.IsDir := true; fs.Data := [] |}
           {| fs.Name := "index.html"; fs.IsDir := false;
              fs.Data := list_byte_of_string "<html>ok</html>" |}).
  - reflexivity.
  - discriminate.
  - vm_compute. reflexivity.
  - reflexivity.
  - vm_compute. reflexivity.
  - reflexivity.
Defined.

(* ================================================================== *)
(** * Further properties of the runs of the entrypoint *)

(** X7.  How a run ends.  The process exits with status 0 exactly when
    the backend was spawned, the listener did not fail, a signal came
    and the drain succeeded; it exits with status 1 exactly when the
    spawn failed, or the listener failed, or the drain after a signal
    failed; otherwise no signal comes and it runs for ever. *)
Theorem how_a_run_ends (w : World) :
  (snd (run w) = Exited 0
   <-> startErr w = None /\ listenErr w = None
       /\ signalArrives w = true /\ shutdownErr w = None)
  /\ (snd (run w) = Exited 1
      <-> startErr w <> None
          \/ (startErr w = None /\ listenErr w <> None)
          \/ (startErr w = None /\ listenErr w = None
              /\ signalArrives w = true /\ shutdownErr w <> None))
  /\ (snd (run w) = Blocked
      <-> startErr w = None /\ listenErr w = None
          /\ signalArrives w = false)
  /\ (forall code, snd (run w) = Exited code -> code = 0%Z \/ code = 1%Z).
Proof.
  run_cases w; cbn [snd]; repeat split;
    try (intros H; try discriminate H;
         try (injection H as <-; tauto);
         intuition congruence);
    try (intuition congruence).
Qed.

Lemma how_a_run_ends_witness :
  snd (run calmWorld) = Exited 0 /\ snd (run portTakenWorld) = Exited 1.
Proof.
  split.
  - apply (proj2 (proj1 (how_a_run_ends calmWorld))).
    repeat split; reflexivity.
  - apply (proj2 (proj1 (proj2 (how_a_run_ends portTakenWorld)))).
    right; left. split; [reflexivity|discriminate].
Defined.

Lemma app_cons_unique (x : Event) (a b pre post : list Event) :
  ~ In x a -> ~ In x b ->
  (a ++ x :: b)%list = (pre ++ x :: post)%list ->
  pre = a /\ post = b.
Proof.
  revert pre. induction a as [|y a IH]; intros pre Ha Hb E.
  - destruct pre as [|z pre].
    + cbn in E. injection E as <-. now split.
    + cbn in E. injection E as <- E. exfalso. apply Hb.
      rewrite E. apply in_elt.
  - destruct pre as [|z pre].
    + cbn in E. injection E as <- _. exfalso. apply Ha. now left.
    + cbn in E. injection E as <- E.
      destruct (IH pre) as [-> ->]; try assumption.
      * intros H. apply Ha. now right.
      * now split.
Qed.

(** X8.  The order of the shutdown.  Wherever a run asks the backend to
    terminate, a signal was received before, then [Shutdown] was called
    and the server was reported stopped; termination was not asked
    before; and the one thing that follows is the exit with status 0. *)
Theorem shutdown_order (w : World) (pre post : list Event) :
  trace (fst (run w)) = (pre ++ KillProcess :: post)%list ->
  post = [ExitProcess 0]
  /\ ~ In KillProcess pre
  /\ exists a b c,
       pre = (a ++ Signal :: b ++ Shutdown :: c)%list
       /\ In (Log "HTTP server stopped.") c.
Proof.
  intros E.
  assert (Hk : In KillProcess (trace (fst (run w))))
    by (rewrite E; apply in_elt).
  pose proof (proj1 (kill_iff_main_returns w) Hk) as Hx.
  destruct (run_kind w) as [e H1|e H1 H2|H1 H2 H3|e H1 H2 H3 H4
                           |H1 H2 H3 H4].
  - rewrite (run_spawn_failure w e H1) in Hx. discriminate.
  - rewrite (run_listen_failure w e H1 H2) in Hx. discriminate.
  - rewrite (run_no_signal w H1 H2 H3) in Hx. discriminate.
  - rewrite (run_drain_failure w e H1 H2 H3 H4) in Hx. discriminate.
  - rewrite (run_graceful w H1 H2 H3 H4) in E. cbn [fst trace] in E.
    change (startup w
            ++ [Signal; Log "Shutting down HTTP server..."; Shutdown;
                Log "HTTP server stopped."; KillProcess; ExitProcess 0])%list
      with ((startup w
             ++ [Signal; Log "Shutting down HTTP server..."; Shutdown;
                 Log "HTTP server stopped."])
            ++ KillProcess :: [ExitProcess 0])%list in E.
    apply app_cons_unique in E as [-> ->].
    + split; [reflexivity|]. split.
      * cbn. intuition discriminate.
      * exists (startup w), [Log "Shutting down HTTP server..."],
          [Log "HTTP server stopped."].
        split; [reflexivity|now left].
    + cbn. intuition discriminate.
    + cbn. intuition discriminate.
Qed.

Lemma shutdown_order_witness :
  exists a b c,
    (startup calmWorld
     ++ [Signal; Log "Shutting down HTTP server..."; Shutdown;
         Log "HTTP server stopped."])%list
    = (a ++ Signal :: b ++ Shutdown :: c)%list
    /\ In (Log "HTTP server stopped.") c.
Proof.
  apply (shutdown_order calmWorld
           (startup calmWorld
            ++ [Signal; Log "Shutting down HTTP server..."; Shutdown;
                Log "HTTP server stopped."])%list
           [ExitProcess 0]).
  reflexivity.
Defined.

(** X9.  In a run the backend is spawned at most once, the server
    listens at most once, termination of the backend is asked at most
    once, and when the process exits that is the last thing it does. *)
Theorem events_happen_once (w : World) :
  (occurrences isStart (trace (fst (run w))) <= 1)%nat
  /\ (occurrences isListen (trace (fst (run w))) <= 1)%nat
  /\ (occurrences isKill (trace (fst (run w))) <= 1)%nat
  /\ (occurrences isExit (trace (fst (run w))) <= 1)%nat
  /\ (forall code, snd (run w) = Exited code ->
        exists before,
          trace (fst (run w)) = (before ++ [ExitProcess code])%list).
Proof.
  run_cases w; cbn [fst snd trace]; unfold occurrences, startup;
    cbn [app filter isStart isListen isKill isExit List.length];
    repeat split; try lia; intros code Hc; try discriminate Hc;
    injection Hc as <-.
  - now exists [Log "Starting backend process...";
                Log ("Failed to start backend: " ++ e)].
  - eexists (_ :: _ :: _ :: _ :: _ :: [_]). reflexivity.
  - eexists (_ :: _ :: _ :: _ :: _ :: _ :: _ :: _ :: [_]). reflexivity.
  - eexists (_ :: _ :: _ :: _ :: _ :: _ :: _ :: _ :: _ :: [_]).
    reflexivity.
Qed.

Lemma events_happen_once_witness :
  exists before,
    trace (fst (run slowDrainWorld)) = (before ++ [ExitProcess 1])%list.
Proof.
  apply (proj2 (proj2 (proj2 (proj2 (events_happen_once slowDrainWorld))))).
  reflexivity.
Defined.

(** X10.  When the backend cannot be spawned the process logs the cause
    and exits with status 1: it builds no server, never listens, and has
    no backend to terminate. *)
Theorem spawn_failure_is_fatal (w : World) (err : string) :
  startErr w = Some err ->
  snd (run w) = Exited 1
  /\ In (Log ("Failed to start backend: " ++ err)) (trace (fst (run w)))
  /\ (forall name, ~ In (StartProcess name) (trace (fst (run w))))
  /\ (forall addr, ~ In (Listen addr) (trace (fst (run w))))
  /\ ~ In KillProcess (trace (fst (run w)))
  /\ backend (fst (run w)) = None.
Proof.
  intros H. rewrite (run_spawn_failure w err H). cbn [fst snd trace backend].
  repeat split; try (cbn; tauto);
    try (intros x Hx; cbn in Hx; intuition discriminate);
    try (intros Hx; cbn in Hx; intuition discriminate).
Qed.

Lemma spawn_failure_is_fatal_witness :
  snd (run noBackendWorld) = Exited 1
  /\ In (Log "Failed to start backend: exec: no such file or directory")
        (trace (fst (run noBackendWorld))).
Proof.
  pose proof (spawn_failure_is_fatal noBackendWorld
                "exec: no such file or directory" eq_refl)
    as (H1 & H2 & _).
  split; [exact H1|exact H2].
Defined.

(** X11.  A variable PORT that is set to the empty string counts as
    absent: the only address [ListenAndServe] is ever called on is
    [:8080], and it is called on it in every run in which the backend
    was spawned.  The call comes before the outcome of the bind; when
    the address cannot be bound, the run logs the failure and exits with
    status 1. *)
Theorem empty_port_is_default (w : World) :
  os.LookupEnv (environ w) "PORT" = Some "" ->
  (forall addr, In (Listen addr) (trace (fst (run w))) -> addr = ":8080")
  /\ (startErr w = None -> In (Listen ":8080") (trace (fst (run w))))
  /\ (forall err,
         startErr w = None -> listenErr w = Some err ->
         In (Log ("HTTP server failed: " ++ err)) (trace (fst (run w)))
         /\ snd (run w) = Exited 1).
Proof.
  intros Hp. pose proof (run_listens w) as [H1 H2].
  unfold listenAddr in H1, H2.
  rewrite (Getenv_present _ _ _ Hp) in H1, H2.
  split; [exact H2|]. split; [exact H1|].
  intros err Hs Hl. rewrite (run_listen_failure w err Hs Hl).
  cbn [fst snd trace]. split; [|reflexivity].
  apply in_or_app. right. now left.
Qed.

Lemma empty_port_is_default_witness :
  In (Listen ":8080") (trace (fst (run emptyPortWorld))).
Proof.
  apply (proj1 (proj2 (empty_port_is_default emptyPortWorld eq_refl))).
  reflexivity.
Defined.

(** X12.  The program a run spawns as backend is [./test], and
    [./test.exe] when the operating system is [windows]. *)
Theorem backend_binary_by_platform (w : World) (name : string) :
  In (StartProcess name) (trace (fst (run w))) ->
  (GOOS w = "windows" -> name = "./test.exe")
  /\ (GOOS w <> "windows" -> name = "./test").
Proof.
  intros H.
  assert (E : name = getBackendBinaryName w).
  { revert H. run_cases w; cbn [fst trace startup app In]; intros H;
      repeat (destruct H as [H|H]; [try discriminate H; congruence|]);
      destruct H. }
  subst name. unfold getBackendBinaryName. split.
  - intros ->. reflexivity.
  - intros Hn. now rewrite (eqb_neq_false _ _ Hn).
Qed.

Lemma backend_binary_by_platform_witness :
  (GOOS emptyPortWorld = "windows" -> "./test.exe" = "./test.exe")
  /\ (GOOS emptyPortWorld <> "windows" -> "./test.exe" = "./test").
Proof.
  apply (backend_binary_by_platform emptyPortWorld "./test.exe").
  vm_compute. tauto.
Defined.

(* ================================================================== *)
(** * Properties of the packaging command *)

(** Settles the goal when the stage just looked at failed, and goes on
    otherwise. *)
Ltac stage err :=
  destruct err;
  [ try solve [ cbn; try reflexivity; intuition (try discriminate;
                                                  try congruence) ]
  | ].

(** X13.  The packaging command does its seven stages in one order
    (build the frontend, copy its output, build the backend, copy the
    backend binary, generate [main.go], initialise the module, build the
    bundle) and stops at the first that fails: no later stage is
    attempted. *)
Theorem stages_stop_at_first_failure (w : cmd.World)
        (backendPath frontendPath outputDir name tmp : string) :
  cmd.tempDir w = inl tmp ->
  filter isAction
         (fst (cmd.execute w backendPath frontendPath outputDir name))
  = upToFailure (stages w backendPath frontendPath outputDir name tmp)
                (stageErrors w).
Proof.
  destruct w as [goos join base td e1 e2 e3 e4 e5 e6 e7].
  cbn [cmd.tempDir]. intros ->.
  unfold stageErrors, stages. cbn [cmd.npmErr cmd.copyDirErr
    cmd.backendBuildErr cmd.copyFileErr cmd.generateErr cmd.modInitErr
    cmd.finalBuildErr].
  stage e1. stage e2. stage e3. stage e4. stage e5. stage e6. stage e7.
  reflexivity.
Qed.

Lemma stages_stop_at_first_failure_witness :
  filter isAction (fst (cmd.execute brokenBackendWorld
                                    "back" "web/front-end" "dist" "app"))
  = [ cmd.RunCommand "web/front-end" ["npm"; "run"; "build"];
      cmd.CopyDir "web/front-end/out" "/tmp/gonext-1/front-end";
      cmd.RunCommand "back"
        ["go"; "build"; "-o"; "/tmp/gonext-1/backend-binary.exe"] ].
Proof.
  apply (stages_stop_at_first_failure brokenBackendWorld
           "back" "web/front-end" "dist" "app" "/tmp/gonext-1").
  reflexivity.
Defined.

(** X14.  The packaging command always ends, with status 0 or 1; with
    status 0 exactly when the temporary directory could be made and none
    of the seven stages failed. *)
Theorem packaging_exit_status (w : cmd.World)
        (backendPath frontendPath outputDir name : string) :
  (snd (cmd.execute w backendPath frontendPath outputDir name) = Exited 0
   \/ snd (cmd.execute w backendPath frontendPath outputDir name)
      = Exited 1)
  /\ (snd (cmd.execute w backendPath frontendPath outputDir name)
      = Exited 0
      <-> (exists tmp, cmd.tempDir w = inl tmp)
          /\ forall err, ~ In (Some err) (stageErrors w)).
Proof.
  destruct w as [goos join base td e1 e2 e3 e4 e5 e6 e7].
  unfold stageErrors. cbn [cmd.tempDir cmd.npmErr cmd.copyDirErr
    cmd.backendBuildErr cmd.copyFileErr cmd.generateErr cmd.modInitErr
    cmd.finalBuildErr].
  destruct td as [tmp|err].
  - assert (F : forall (x : string) (l : list (option string)),
               In (Some x) l ->
               ~ (forall err, ~ In (Some err) l))
      by (intros x l H G; exact (G x H)).
    destruct e1 as [x|];
      [cbn; split; [now right|]; split; [discriminate|];
       intros [_ G]; exfalso; apply (G x); cbn; tauto|].
    destruct e2 as [x|];
      [cbn; split; [now right|]; split; [discriminate|];
       intros [_ G]; exfalso; apply (G x); cbn; tauto|].
    destruct e3 as [x|];
      [cbn; split; [now right|]; split; [discriminate|];
       intros [_ G]; exfalso; apply (G x); cbn; tauto|].
    destruct e4 as [x|];
      [cbn; split; [now right|]; split; [discriminate|];
       intros [_ G]; exfalso; apply (G x); cbn; tauto|].
    destruct e5 as [x|];
      [cbn; split; [now right|]; split; [discriminate|];
       intros [_ G]; exfalso; apply (G x); cbn; tauto|].
    destruct e6 as [x|];
      [cbn; split; [now right|]; split; [discriminate|];
       intros [_ G]; exfalso; apply (G x); cbn; tauto|].
    destruct e7 as [x|];
      [cbn; split; [now right|]; split; [discriminate|];
       intros [_ G]; exfalso; apply (G x); cbn; tauto|].
    cbn. split; [now left|]. split; [|reflexivity].
    intros _. split; [now exists tmp|].
    intros err H. repeat (destruct H as [H|H]; [discriminate H|]).
    exact H.
  - cbn. split; [now right|]. split; [discriminate|].
    intros [[tmp H] _]. discriminate.
Qed.

Lemma packaging_exit_status_witness :
  snd (cmd.execute buildWorld "back" "web/front-end" "dist" "app")
  = Exited 0.
Proof.
  apply (proj2 (proj2 (packaging_exit_status buildWorld
                         "back" "web/front-end" "dist" "app"))).
  split; [now exists "/tmp/gonext-1"|].
  intros err H. cbn in H.
  repeat (destruct H as [H|H]; [discriminate H|]). exact H.
Defined.

(** X15.  The temporary directory is removed exactly in the runs that
    end with status 0: its removal is deferred in [run], and every
    failure leaves through [log.Fatalf], so after a failed stage the
    directory stays behind. *)
Theorem temp_dir_removed_on_success_only (w : cmd.World)
        (backendPath frontendPath outputDir name tmp : string) :
  cmd.tempDir w = inl tmp ->
  In (cmd.MkdirTemp tmp)
     (fst (cmd.execute w backendPath frontendPath outputDir name))
  /\ (In (cmd.RemoveAll tmp)
         (fst (cmd.execute w backendPath frontendPath outputDir name))
      <-> snd (cmd.execute w backendPath frontendPath outputDir name)
          = Exited 0).
Proof.
  destruct w as [goos join base td e1 e2 e3 e4 e5 e6 e7].
  cbn [cmd.tempDir]. intros ->.
  assert (T : forall (l : list cmd.Step) (o : Outcome unit),
             In (cmd.MkdirTemp tmp) l ->
             (In (cmd.RemoveAll tmp) l -> o = Exited 0) ->
             (o = Exited 0 -> In (cmd.RemoveAll tmp) l) ->
             In (cmd.MkdirTemp tmp) l
             /\ (In (cmd.RemoveAll tmp) l <-> o = Exited 0))
    by (intros; tauto).
  destruct e1;
    [apply T; cbn; [tauto| |discriminate];
     intros H; repeat (destruct H as [H|H]; [discriminate H|]);
     destruct H|].
  destruct e2;
    [apply T; cbn; [tauto| |discriminate];
     intros H; repeat (destruct H as [H|H]; [discriminate H|]);
     destruct H|].
  destruct e3;
    [apply T; cbn; [tauto| |discriminate];
     intros H; repeat (destruct H as [H|H]; [discriminate H|]);
     destruct H|].
  destruct e4;
    [apply T; cbn; [tauto| |discriminate];
     intros H; repeat (destruct H as [H|H]; [discriminate H|]);
     destruct H|].
  destruct e5;
    [apply T; cbn; [tauto| |discriminate];
     intros H; repeat (destruct H as [H|H]; [discriminate H|]);
     destruct H|].
  destruct e6;
    [apply T; cbn; [tauto| |discriminate];
     intros H; repeat (destruct H as [H|H]; [discriminate H|]);
     destruct H|].
  destruct e7;
    [apply T; cbn; [tauto| |discriminate];
     intros H; repeat (destruct H as [H|H]; [discriminate H|]);
     destruct H|].
  apply T; cbn; [tauto|reflexivity|]. intros _. tauto.
Qed.

Lemma temp_dir_removed_on_success_only_witness :
  In (cmd.MkdirTemp "/tmp/gonext-1")
     (fst (cmd.execute brokenBackendWorld
                       "back" "web/front-end" "dist" "app"))
  /\ ~ In (cmd.RemoveAll "/tmp/gonext-1")
          (fst (cmd.execute brokenBackendWorld
                            "back" "web/front-end" "dist" "app")).
Proof.
  pose proof (temp_dir_removed_on_success_only brokenBackendWorld
                "back" "web/front-end" "dist" "app" "/tmp/gonext-1"
                eq_refl) as [H1 H2].
  split; [exact H1|]. intros H. apply H2 in H. discriminate H.
Defined.

(** X16.  In a run of the packaging command that succeeds, the copy of
    the backend binary and the build of the bundle are given one and the
    same output path, the copy first: the build, run in the temporary
    directory, is the last to write under that name. *)
Theorem bundle_is_built_over_backend_copy (w : cmd.World)
        (backendPath frontendPath outputDir name : string) :
  snd (cmd.execute w backendPath frontendPath outputDir name) = Exited 0 ->
  exists tmp before between after_,
    cmd.tempDir w = inl tmp
    /\ fst (cmd.execute w backendPath frontendPath outputDir name)
       = (before
          ++ cmd.CopyFile
               (cmd.addPlatformExtension
                  w (cmd.Join w [tmp; "backend-binary"]))
               (cmd.addPlatformExtension
                  w (cmd.Join w [outputDir; name]))
          :: between
          ++ cmd.RunCommand tmp
               ["go"; "build"; "-o";
                cmd.addPlatformExtension w (cmd.Join w [outputDir; name])]
          :: after_)%list
    /\ (forall s, In s between -> isAction s = true ->
                  s = cmd.GenerateMain (cmd.Join w [tmp; "main.go"])
                                       (cmd.Base w frontendPath)
                  \/ s = cmd.RunCommand tmp ["go"; "mod"; "init"; "gonext"]).
Proof.
  destruct w as [goos join base td e1 e2 e3 e4 e5 e6 e7].
  destruct td as [tmp|err]; [|cbn; discriminate].
  destruct e1; [cbn; discriminate|].
  destruct e2; [cbn; discriminate|].
  destruct e3; [cbn; discriminate|].
  destruct e4; [cbn; discriminate|].
  destruct e5; [cbn; discriminate|].
  destruct e6; [cbn; discriminate|].
  destruct e7; [cbn; discriminate|].
  intros _. exists tmp.
  eexists (_ :: _ :: _ :: _ :: _ :: _ :: _ :: _ :: _ :: _ :: _ :: _
             :: [_]).
  eexists (_ :: _ :: _ :: _ :: _ :: [_]).
  eexists. split; [reflexivity|]. split; [reflexivity|].
  intros s H Ha. cbn in H.
  repeat (destruct H as [H|H]; [subst s; try discriminate Ha; tauto|]).
  destruct H.
Qed.

Lemma bundle_is_built_over_backend_copy_witness :
  exists tmp before between after_,
    cmd.tempDir buildWorld = inl tmp
    /\ fst (cmd.execute buildWorld "back" "web/front-end" "dist" "app")
       = (before
          ++ cmd.CopyFile
               (cmd.addPlatformExtension
                  buildWorld (cmd.Join buildWorld [tmp; "backend-binary"]))
               (cmd.addPlatformExtension
                  buildWorld (cmd.Join buildWorld ["dist"; "app"]))
          :: between
          ++ cmd.RunCommand tmp
               ["go"; "build"; "-o";
                cmd.addPlatformExtension
                  buildWorld (cmd.Join buildWorld ["dist"; "app"])]
          :: after_)%list
    /\ (forall s, In s between -> isAction s = true ->
                  s = cmd.GenerateMain
                        (cmd.Join buildWorld [tmp; "main.go"])
                        (cmd.Base buildWorld "web/front-end")
                  \/ s = cmd.RunCommand tmp ["go"; "mod"; "init"; "gonext"]).
Proof.
  apply (bundle_is_built_over_backend_copy buildWorld
           "back" "web/front-end" "dist" "app").
  reflexivity.
Defined.
